(** * AVG aggregate functions of executor/aggfuncs/func_avg.go

    A shallow embedding of the six AVG aggregate functions
    (decimal and float64; original, partial and distinct) together with
    the properties of their partial results.

    The Go file relies on packages that are not part of the embedded
    sources: [types] (MyDecimal), [expression], [util/chunk], juju's
    [errors], and the value sets of the same package.  They are collected
    in the class [Externals]; every function of func_avg.go is defined over
    an arbitrary instance of it. *)

From Stdlib Require Import ZArith List Bool Lia QArith Qfield Permutation PrimFloat Uint63.
Import ListNotations.

Set Implicit Arguments.
Local Open Scope Z_scope.

(** ** Machine integers *)

(** Go's [int64]: a mathematical integer reduced to [-2^63, 2^63). *)
Definition int64_wrap (z : Z) : Z := (z + 2 ^ 63) mod 2 ^ 64 - 2 ^ 63.

Definition in_int64 (z : Z) : Prop := - 2 ^ 63 <= z < 2 ^ 63.

(** Go's conversion [float64(n)] of an [int64] (round to nearest even;
    [of_uint63] rounds the same way on the magnitude). *)
Definition float64_of_int64 (z : Z) : float :=
  if z =? - 2 ^ 63 then PrimFloat.opp 9223372036854775808%float
  else if z <? 0 then PrimFloat.opp (PrimFloat.of_uint63 (Uint63.of_Z (- z)))
  else PrimFloat.of_uint63 (Uint63.of_Z z).

(** ** What func_avg.go imports *)

Class Externals : Type := {
  (** Go's [error] values and juju's [errors.Trace] on a non-nil error. *)
  error : Type;
  Trace : error -> error;
  (** [chunk.Row]. *)
  Row : Type;
  (** [types.MyDecimal]: its Go zero value, [types.NewDecFromInt],
      [types.DecimalAdd] and [types.DecimalDiv].  The two operations write
      their result into the destination they are handed and return an
      error; here they return the destination's new content and the
      error. *)
  MyDecimal : Type;
  MyDecimal_zero : MyDecimal;
  NewDecFromInt : Z -> MyDecimal;
  DecimalAdd : MyDecimal -> MyDecimal -> MyDecimal * option error;
  DecimalDiv : MyDecimal -> MyDecimal -> Z -> MyDecimal * option error;
  DivFracIncr : Z;
  (** [decimalSet] and [float64Set] of package aggfuncs. *)
  decimalSet : Type;
  newDecimalSet : decimalSet;
  decimalSet_exist : decimalSet -> MyDecimal -> bool;
  decimalSet_insert : decimalSet -> MyDecimal -> decimalSet;
  float64Set : Type;
  newFloat64Set : float64Set;
  float64Set_exist : float64Set -> float -> bool;
  float64Set_insert : float64Set -> float -> float64Set
}.

Section Definitions.
Context {X : Externals}.

(** [expression.Expression]: the three evaluation methods used here.  Each
    returns Go's triple (value, isNull, err). *)
Record Expression : Type := {
  EvalInt : Row -> Z * bool * option error;
  EvalReal : Row -> float * bool * option error;
  EvalDecimal : Row -> MyDecimal * bool * option error
}.

Record baseAggFunc : Type := {
  args : list Expression;
  ordinal : nat
}.

(** *** Output chunk *)

Inductive Cell : Type :=
| CellNull
| CellDecimal (d : MyDecimal)
| CellFloat64 (f : float).

(** Modelled from the spec: the output batch of section 6, a column of
    cells per ordinal, with its three append operations. *)
Definition Chunk : Type := nat -> list Cell.

(** Modelled from the spec: appending one cell to the column [colIdx]. *)
Definition appendCell (colIdx : nat) (c : Cell) (chk : Chunk) : Chunk :=
  fun i => if Nat.eqb i colIdx then chk i ++ [c] else chk i.

(** Modelled from the spec: [append_null(ordinal)]. *)
Definition AppendNull (colIdx : nat) (chk : Chunk) : Chunk :=
  appendCell colIdx CellNull chk.

(** Modelled from the spec: [append_decimal(ordinal, value)]. *)
Definition AppendMyDecimal (colIdx : nat) (d : MyDecimal) (chk : Chunk) : Chunk :=
  appendCell colIdx (CellDecimal d) chk.

(** Modelled from the spec: [append_float(ordinal, value)]. *)
Definition AppendFloat64 (colIdx : nat) (f : float) (chk : Chunk) : Chunk :=
  appendCell colIdx (CellFloat64 f) chk.

(** *** Control flow of an update

    An update runs over the rows of a group, mutates the partial result in
    place and may leave early with an error.  The partial result survives
    an early exit, so the state is returned in both cases.  Next to the
    partial result the state records which argument was evaluated on which
    row and whether that evaluation returned an error, in order. *)

Inductive failure : Type :=
| Failure (err : error)
| IndexOutOfRange.

(** One evaluation of an argument: the index in [args], the row, and the
    error the evaluation returned ([None] is nil). *)
Record EvalCall : Type := mkCall {
  ec_arg : nat;
  ec_row : Row;
  ec_err : option error
}.

Record Frame (P : Type) : Type := {
  pr : P;
  evalLog : list EvalCall
}.

Definition M (P A : Type) : Type := Frame P -> (failure + A) * Frame P.

Definition ret {P A} (a : A) : M P A := fun fr => (inr a, fr).

Definition bind {P A B} (m : M P A) (k : A -> M P B) : M P B :=
  fun fr =>
    match m fr with
    | (inl f, fr') => (inl f, fr')
    | (inr a, fr') => k a fr'
    end.

Definition throw {P A} (f : failure) : M P A := fun fr => (inl f, fr).

Definition getPR {P} : M P P := fun fr => (inr (pr fr), fr).

Definition setPR {P} (p : P) : M P unit :=
  fun fr => (inr tt, {| pr := p; evalLog := evalLog fr |}).

(** [e.args[i].Eval...(sctx, row)]: indexing panics out of range. *)
Definition evalArg {P A} (eval : Expression -> Row -> A * bool * option error)
    (e : baseAggFunc) (i : nat) (row : Row) : M P (A * bool * option error) :=
  match nth_error (args e) i with
  | None => throw IndexOutOfRange
  | Some ex =>
      fun fr => (inr (eval ex row),
                 {| pr := pr fr; evalLog := evalLog fr ++ [mkCall i row (snd (eval ex row))] |})
  end.

(** [for _, row := range rowsInGroup { body }]; [continue] is the body
    ending normally, [return err] is [throw]. *)
Fixpoint forRows {P} (body : Row -> M P unit) (rowsInGroup : list Row) : M P unit :=
  match rowsInGroup with
  | [] => ret tt
  | row :: rest => bind (body row) (fun _ => forRows body rest)
  end.

(** The result of one call: the partial result as the call leaves it, the
    evaluations it made, and the returned error ([None] is Go's nil). *)
Definition runUpdate {P} (body : Row -> M P unit) (rowsInGroup : list Row) (p : P)
    : P * list EvalCall * option failure :=
  let '(r, fr) := forRows body rowsInGroup {| pr := p; evalLog := [] |} in
  (pr fr, evalLog fr, match r with inl f => Some f | inr _ => None end).

End Definitions.

Declare Scope avg_scope.
Notation "x <- m ;; k" := (bind m (fun x => k))
  (at level 61, m at next level, right associativity) : avg_scope.
Notation "' pat <- m ;; k" := (bind m (fun x => match x with pat => k end))
  (at level 61, pat pattern, m at next level, right associativity) : avg_scope.
Notation "m ;;; k" := (bind m (fun _ => k))
  (at level 61, right associativity) : avg_scope.
Local Open Scope avg_scope.

Section AvgDecimal.
Context {X : Externals}.

Record partialResult4AvgDecimal : Type := {
  d_sum : MyDecimal;
  d_count : Z
}.

Definition baseAvgDecimal_AllocPartialResult : partialResult4AvgDecimal :=
  {| d_sum := MyDecimal_zero; d_count := 0 |}.

Definition baseAvgDecimal_ResetPartialResult (p : partialResult4AvgDecimal)
    : partialResult4AvgDecimal :=
  {| d_sum := NewDecFromInt 0; d_count := 0 |}.

Definition baseAvgDecimal_AppendFinalResult2Chunk (e : baseAggFunc)
    (p : partialResult4AvgDecimal) (chk : Chunk) : Chunk * option error :=
  if d_count p =? 0 then (AppendNull (ordinal e) chk, None)
  else
    let decimalCount := NewDecFromInt (d_count p) in
    let '(finalResult, err) := DecimalDiv (d_sum p) decimalCount DivFracIncr in
    match err with
    | Some er => (chk, Some (Trace er))
    | None => (AppendMyDecimal (ordinal e) finalResult chk, None)
    end.

Definition avgOriginal4Decimal_body (e : baseAggFunc) (row : Row)
    : M partialResult4AvgDecimal unit :=
  '(input, isNull, err) <- evalArg EvalDecimal e 0 row ;;
  match err with
  | Some er => throw (Failure (Trace er))
  | None =>
      if isNull : bool then ret tt
      else
        p <- getPR ;;
        let '(newSum, err) := DecimalAdd (d_sum p) input in
        match err with
        | Some er => throw (Failure (Trace er))
        | None => setPR {| d_sum := newSum; d_count := int64_wrap (d_count p + 1) |}
        end
  end.

Definition avgOriginal4Decimal_UpdatePartialResult (e : baseAggFunc)
    (rowsInGroup : list Row) (p : partialResult4AvgDecimal) :=
  runUpdate (avgOriginal4Decimal_body e) rowsInGroup p.

Definition avgPartial4Decimal_body (e : baseAggFunc) (row : Row)
    : M partialResult4AvgDecimal unit :=
  '(inputSum, isNull, err) <- evalArg EvalDecimal e 1 row ;;
  match err with
  | Some er => throw (Failure (Trace er))
  | None =>
      if isNull : bool then ret tt
      else
        '(inputCount, isNull, err) <- evalArg EvalInt e 0 row ;;
        match err with
        | Some er => throw (Failure (Trace er))
        | None =>
            if isNull : bool then ret tt
            else
              p <- getPR ;;
              let '(newSum, err) := DecimalAdd (d_sum p) inputSum in
              match err with
              | Some er => throw (Failure (Trace er))
              | None =>
                  setPR {| d_sum := newSum;
                           d_count := int64_wrap (d_count p + inputCount) |}
              end
        end
  end.

Definition avgPartial4Decimal_UpdatePartialResult (e : baseAggFunc)
    (rowsInGroup : list Row) (p : partialResult4AvgDecimal) :=
  runUpdate (avgPartial4Decimal_body e) rowsInGroup p.

(** Go embeds [partialResult4AvgDecimal]; [p.sum] and [p.count] are the
    fields of [dd_base]. *)
Record partialResult4AvgDistinctDecimal : Type := {
  dd_base : partialResult4AvgDecimal;
  dd_valSet : decimalSet
}.

Definition avgOriginal4DistinctDecimal_AllocPartialResult
    : partialResult4AvgDistinctDecimal :=
  {| dd_base := {| d_sum := MyDecimal_zero; d_count := 0 |};
     dd_valSet := newDecimalSet |}.

Definition avgOriginal4DistinctDecimal_ResetPartialResult
    (p : partialResult4AvgDistinctDecimal) : partialResult4AvgDistinctDecimal :=
  {| dd_base := {| d_sum := NewDecFromInt 0; d_count := 0 |};
     dd_valSet := newDecimalSet |}.

Definition avgOriginal4DistinctDecimal_body (e : baseAggFunc) (row : Row)
    : M partialResult4AvgDistinctDecimal unit :=
  '(input, isNull, err) <- evalArg EvalDecimal e 0 row ;;
  match err with
  | Some er => throw (Failure (Trace er))
  | None =>
      p <- getPR ;;
      if (isNull : bool) || decimalSet_exist (dd_valSet p) input then ret tt
      else
        let '(newSum, err) := DecimalAdd (d_sum (dd_base p)) input in
        match err with
        | Some er => throw (Failure (Trace er))
        | None =>
            setPR {| dd_base := {| d_sum := newSum;
                                   d_count := int64_wrap (d_count (dd_base p) + 1) |};
                     dd_valSet := decimalSet_insert (dd_valSet p) input |}
        end
  end.

Definition avgOriginal4DistinctDecimal_UpdatePartialResult (e : baseAggFunc)
    (rowsInGroup : list Row) (p : partialResult4AvgDistinctDecimal) :=
  runUpdate (avgOriginal4DistinctDecimal_body e) rowsInGroup p.

Definition avgOriginal4DistinctDecimal_AppendFinalResult2Chunk (e : baseAggFunc)
    (p : partialResult4AvgDistinctDecimal) (chk : Chunk) : Chunk * option error :=
  if d_count (dd_base p) =? 0 then (AppendNull (ordinal e) chk, None)
  else
    let decimalCount := NewDecFromInt (d_count (dd_base p)) in
    let '(finalResult, err) :=
      DecimalDiv (d_sum (dd_base p)) decimalCount DivFracIncr in
    match err with
    | Some er => (chk, Some (Trace er))
    | None => (AppendMyDecimal (ordinal e) finalResult chk, None)
    end.

End AvgDecimal.

Section AvgFloat64.
Context {X : Externals}.

Record partialResult4AvgFloat64 : Type := {
  f_sum : float;
  f_count : Z
}.

Definition baseAvgFloat64_AllocPartialResult : partialResult4AvgFloat64 :=
  {| f_sum := 0%float; f_count := 0 |}.

Definition baseAvgFloat64_ResetPartialResult (p : partialResult4AvgFloat64)
    : partialResult4AvgFloat64 :=
  {| f_sum := 0%float; f_count := 0 |}.

Definition baseAvgFloat64_AppendFinalResult2Chunk (e : baseAggFunc)
    (p : partialResult4AvgFloat64) (chk : Chunk) : Chunk * option error :=
  if f_count p =? 0 then (AppendNull (ordinal e) chk, None)
  else
    (AppendFloat64 (ordinal e)
       (PrimFloat.div (f_sum p) (float64_of_int64 (f_count p))) chk, None).

Definition avgOriginal4Float64_body (e : baseAggFunc) (row : Row)
    : M partialResult4AvgFloat64 unit :=
  '(input, isNull, err) <- evalArg EvalReal e 0 row ;;
  match err with
  | Some er => throw (Failure (Trace er))
  | None =>
      if isNull : bool then ret tt
      else
        p <- getPR ;;
        setPR {| f_sum := PrimFloat.add (f_sum p) input;
                 f_count := int64_wrap (f_count p + 1) |}
  end.

Definition avgOriginal4Float64_UpdatePartialResult (e : baseAggFunc)
    (rowsInGroup : list Row) (p : partialResult4AvgFloat64) :=
  runUpdate (avgOriginal4Float64_body e) rowsInGroup p.

Definition avgPartial4Float64_body (e : baseAggFunc) (row : Row)
    : M partialResult4AvgFloat64 unit :=
  '(inputSum, isNull, err) <- evalArg EvalReal e 1 row ;;
  match err with
  | Some er => throw (Failure (Trace er))
  | None =>
      if isNull : bool then ret tt
      else
        '(inputCount, isNull, err) <- evalArg EvalInt e 0 row ;;
        match err with
        | Some er => throw (Failure (Trace er))
        | None =>
            if isNull : bool then ret tt
            else
              p <- getPR ;;
              setPR {| f_sum := PrimFloat.add (f_sum p) inputSum;
                       f_count := int64_wrap (f_count p + inputCount) |}
        end
  end.

Definition avgPartial4Float64_UpdatePartialResult (e : baseAggFunc)
    (rowsInGroup : list Row) (p : partialResult4AvgFloat64) :=
  runUpdate (avgPartial4Float64_body e) rowsInGroup p.

Record partialResult4AvgDistinctFloat64 : Type := {
  fd_base : partialResult4AvgFloat64;
  fd_valSet : float64Set
}.

Definition avgOriginal4DistinctFloat64_AllocPartialResult
    : partialResult4AvgDistinctFloat64 :=
  {| fd_base := {| f_sum := 0%float; f_count := 0 |};
     fd_valSet := newFloat64Set |}.

Definition avgOriginal4DistinctFloat64_ResetPartialResult
    (p : partialResult4AvgDistinctFloat64) : partialResult4AvgDistinctFloat64 :=
  {| fd_base := {| f_sum := 0%float; f_count := 0 |};
     fd_valSet := newFloat64Set |}.

Definition avgOriginal4DistinctFloat64_body (e : baseAggFunc) (row : Row)
    : M partialResult4AvgDistinctFloat64 unit :=
  '(input, isNull, err) <- evalArg EvalReal e 0 row ;;
  match err with
  | Some er => throw (Failure (Trace er))
  | None =>
      p <- getPR ;;
      if (isNull : bool) || float64Set_exist (fd_valSet p) input then ret tt
      else
        setPR {| fd_base := {| f_sum := PrimFloat.add (f_sum (fd_base p)) input;
                               f_count := int64_wrap (f_count (fd_base p) + 1) |};
                 fd_valSet := float64Set_insert (fd_valSet p) input |}
  end.

Definition avgOriginal4DistinctFloat64_UpdatePartialResult (e : baseAggFunc)
    (rowsInGroup : list Row) (p : partialResult4AvgDistinctFloat64) :=
  runUpdate (avgOriginal4DistinctFloat64_body e) rowsInGroup p.

Definition avgOriginal4DistinctFloat64_AppendFinalResult2Chunk (e : baseAggFunc)
    (p : partialResult4AvgDistinctFloat64) (chk : Chunk) : Chunk * option error :=
  if f_count (fd_base p) =? 0 then (AppendNull (ordinal e) chk, None)
  else
    (AppendFloat64 (ordinal e)
       (PrimFloat.div (f_sum (fd_base p)) (float64_of_int64 (f_count (fd_base p))))
       chk, None).

End AvgFloat64.

(** ** A concrete instance

    The properties below are proved for every instance of [Externals]; this one
    makes them run on concrete rows. *)

Module Model.

Inductive merror : Type :=
| ErrOverflow
| ErrDivByZero
| ErrEval
| Traced (e : merror).

(** Modelled from the spec: the exact-decimal domain of section 4.4, a
    fixed-point value [coef / 10^frac]. *)
Record Dec : Type := {
  coef : Z;
  frac : nat
}.

Definition pow10 (n : nat) : Z := 10 ^ Z.of_nat n.

(** Modelled from the spec: the precision past which an exact-decimal
    operation reports its overflow error.  The spec gives no number; 81
    digits are nine words of nine digits. *)
Definition maxDigits : nat := 81.

Definition fits (c : Z) : bool := Z.abs c <? pow10 maxDigits.

Definition maxDec (negative : bool) (f : nat) : Dec :=
  {| coef := if negative then - (pow10 maxDigits - 1) else pow10 maxDigits - 1;
     frac := f |}.

(** Modelled from the spec: [add(a, b)], exact, with an explicit overflow
    error. *)
Definition dec_add (a b : Dec) : Dec * option merror :=
  let f := Nat.max (frac a) (frac b) in
  let c := coef a * pow10 (f - frac a) + coef b * pow10 (f - frac b) in
  if fits c then ({| coef := c; frac := f |}, None)
  else (maxDec (c <? 0) f, Some ErrOverflow).

(** Modelled from the spec: [divide(a, b, increment)]; the result has
    [increment] fractional digits more than the operands. *)
Definition dec_div (a b : Dec) (incr : Z) : Dec * option merror :=
  let f := (Nat.max (frac a) (frac b) + Z.to_nat incr)%nat in
  if coef b =? 0 then ({| coef := 0; frac := f |}, Some ErrDivByZero)
  else
    let c := Z.quot (coef a * pow10 (frac b) * pow10 f) (coef b * pow10 (frac a)) in
    if fits c then ({| coef := c; frac := f |}, None)
    else (maxDec (c <? 0) f, Some ErrOverflow).

Definition dec_of_int (n : Z) : Dec := {| coef := n; frac := 0 |}.

(** The number a decimal stands for, and its count of fractional digits. *)
Definition dec_value (d : Dec) : Q := inject_Z (coef d) / inject_Z (pow10 (frac d)).

Definition dec_frac (d : Dec) : Z := Z.of_nat (frac d).

(** Modelled from the spec: the ValueSet of section 4.5; decimals are
    members by numeric equality, floats by floating equality. *)
Definition dec_eqb (a b : Dec) : bool :=
  coef a * pow10 (frac b) =? coef b * pow10 (frac a).

Definition dset_exist (s : list Dec) (v : Dec) : bool := existsb (dec_eqb v) s.

Definition fset_exist (s : list float) (v : float) : bool :=
  existsb (PrimFloat.eqb v) s.

(** A row is a list of column values; [DBad] is a value on which every
    evaluation fails. *)
Inductive Datum : Type :=
| DNull
| DInt (z : Z)
| DReal (f : float)
| DDecimal (d : Dec)
| DBad.

#[export] Instance externals : Externals := {|
  error := merror;
  Trace := Traced;
  Row := list Datum;
  MyDecimal := Dec;
  MyDecimal_zero := {| coef := 0; frac := 0 |};
  NewDecFromInt := dec_of_int;
  DecimalAdd := dec_add;
  DecimalDiv := dec_div;
  DivFracIncr := 4;
  decimalSet := list Dec;
  newDecimalSet := [];
  decimalSet_exist := dset_exist;
  decimalSet_insert := fun s v => v :: s;
  float64Set := list float;
  newFloat64Set := [];
  float64Set_exist := fset_exist;
  float64Set_insert := fun s v => v :: s
|}.

(** The expression that reads column [i] of the row. *)
Definition Column (i : nat) : Expression := {|
  EvalInt := fun row : Row =>
    match nth_error row i with
    | Some (DInt z) => (z, false, None)
    | Some DNull => (0, true, None)
    | _ => (0, false, Some ErrEval)
    end;
  EvalReal := fun row : Row =>
    match nth_error row i with
    | Some (DReal f) => (f, false, None)
    | Some DNull => (0%float, true, None)
    | _ => (0%float, false, Some ErrEval)
    end;
  EvalDecimal := fun row : Row =>
    match nth_error row i with
    | Some (DDecimal d) => (d, false, None)
    | Some DNull => (MyDecimal_zero, true, None)
    | _ => (MyDecimal_zero, false, Some ErrEval)
    end
|}.

(** AVG over column 0, and the merging AVG over (count, sum) in columns 0
    and 1; both write to output column 0. *)
Definition avgOfColumn : baseAggFunc := {| args := [Column 0]; ordinal := 0 |}.

Definition avgOfPartials : baseAggFunc :=
  {| args := [Column 0; Column 1]; ordinal := 0 |}.

Definition dec (c : Z) (f : nat) : Datum := DDecimal {| coef := c; frac := f |}.

Definition emptyChunk : Chunk := fun _ => [].

(** Rows of one column for the original phase, and of a (count, sum) pair
    for the merging phase. *)
Definition decRow (c : Z) (f : nat) : Row := [dec c f].

Definition realRow (x : float) : Row := [DReal x].

Definition nullRow : Row := [DNull].

Definition badRow : Row := [DBad].

Definition decPair (c : Z) (s : Z) : Row := [DInt c; dec s 0].

Definition realPair (c : Z) (x : float) : Row := [DInt c; DReal x].

(** Aggregate functions built with too few arguments. *)
Definition avgOfNothing : baseAggFunc := {| args := []; ordinal := 0 |}.

Definition avgOfCountOnly : baseAggFunc := {| args := [Column 0]; ordinal := 0 |}.

End Model.

#[local] Existing Instance Model.externals.

(** ** Vocabulary of the properties *)

Section Vocabulary.
Context {X : Externals}.

(** What one row does to a partial result, on its own. *)
Definition rowStep {P} (body : Row -> M P unit) (row : Row) (p : P)
    : P * list EvalCall * option failure :=
  runUpdate body [row] p.

(** A loop body that appends to the evaluation log without reading it. *)
Definition uniform {P} (body : Row -> M P unit) : Prop :=
  forall row fr,
    body row fr =
    let '(p', l, r) := rowStep body row (pr fr) in
    (match r with Some f => inl f | None => inr tt end,
     {| pr := p'; evalLog := evalLog fr ++ l |}).

(** Successive update calls on one partial result; the caller stops at the
    first call that returns an error. *)
Fixpoint updates {P} (update : list Row -> P -> P * list EvalCall * option failure)
    (batches : list (list Row)) (p : P) : P * option failure :=
  match batches with
  | [] => (p, None)
  | rows :: rest =>
      match update rows p with
      | (p', _, Some f) => (p', Some f)
      | (p', _, None) => updates update rest p'
      end
  end.

(** The values an argument yields on the rows where it is neither null nor
    an error, in row order. *)
Definition decimalInputs (ex : Expression) (rows : list Row) : list MyDecimal :=
  flat_map (fun row =>
              match EvalDecimal ex row with
              | (v, false, None) => [v]
              | _ => []
              end) rows.

Definition realInputs (ex : Expression) (rows : list Row) : list float :=
  flat_map (fun row =>
              match EvalReal ex row with
              | (v, false, None) => [v]
              | _ => []
              end) rows.

(** The (sum, count) pairs a merging function reads: rows where neither
    argument is null or an error. *)
Definition decimalPairs (exCount exSum : Expression) (rows : list Row)
    : list (MyDecimal * Z) :=
  flat_map (fun row =>
              match EvalDecimal exSum row, EvalInt exCount row with
              | (s, false, None), (c, false, None) => [(s, c)]
              | _, _ => []
              end) rows.

Definition realPairs (exCount exSum : Expression) (rows : list Row)
    : list (float * Z) :=
  flat_map (fun row =>
              match EvalReal exSum row, EvalInt exCount row with
              | (s, false, None), (c, false, None) => [(s, c)]
              | _, _ => []
              end) rows.

(** Adding a list of decimals to [acc] with [DecimalAdd], left to right;
    [None] when one addition returns an error. *)
Fixpoint decimalAddAll (acc : MyDecimal) (vs : list MyDecimal) : option MyDecimal :=
  match vs with
  | [] => Some acc
  | v :: rest =>
      match DecimalAdd acc v with
      | (s, None) => decimalAddAll s rest
      | (_, Some _) => None
      end
  end.

Definition float64AddAll (acc : float) (vs : list float) : float :=
  fold_left PrimFloat.add vs acc.

Definition sumZ (l : list Z) : Z := fold_right Z.add 0 l.

Definition sumQ (l : list Q) : Q := fold_right Qplus 0%Q l.

(** [chk'] is [chk] with the one cell [c] appended to column [colIdx]. *)
Definition singleWrite (chk chk' : Chunk) (colIdx : nat) (c : Cell) : Prop :=
  chk' colIdx = chk colIdx ++ [c] /\ forall i, i <> colIdx -> chk' i = chk i.

(** The row [prow] of a merging function carries the partial result of an
    original-phase run over [part]: its sum and count arguments evaluate to
    the sum and the count that run ended with, from a fresh partial
    result. *)
Definition carriesPartial (e : baseAggFunc) (exCount exSum : Expression)
    (part : list Row) (prow : Row) : Prop :=
  exists pi li,
    avgOriginal4Decimal_UpdatePartialResult e part
      baseAvgDecimal_AllocPartialResult = (pi, li, None) /\
    EvalDecimal exSum prow = (d_sum pi, false, None) /\
    EvalInt exCount prow = (d_count pi, false, None).

(** A loop body whose failing rows leave the partial result alone, and
    which fails with the traced error of any evaluation that failed. *)
Definition rowSound {P} (body : Row -> M P unit) : Prop :=
  forall row p p' lr r,
    rowStep body row p = (p', lr, r) ->
    (forall call er,
        In call lr -> ec_err call = Some er -> r = Some (Failure (Trace er))) /\
    (forall f, r = Some f -> p' = p).

(** Error propagation of an update function: an evaluation that returned
    an error makes the call return that error, traced; and a call fails at
    the first failing row, with the partial result and the evaluations of
    the rows before it and nothing of the rows after it. *)
Definition propagatesErrors {P}
    (update : list Row -> P -> P * list EvalCall * option failure) : Prop :=
  (forall rows p p' l r call er,
      update rows p = (p', l, r) ->
      In call l -> ec_err call = Some er ->
      r = Some (Failure (Trace er))) /\
  (forall rows1 row rows2 p p1 l1 p2 lr f,
      update rows1 p = (p1, l1, None) ->
      update [row] p1 = (p2, lr, Some f) ->
      update (rows1 ++ row :: rows2) p = (p1, l1 ++ lr, Some f)).

(** An update function composes over batches: a batch cut in two is the
    first part followed, when it returned nil, by the second part; and a
    sequence of calls ends like one call on the concatenated batches. *)
Definition composesOverBatches {P}
    (update : list Row -> P -> P * list EvalCall * option failure) : Prop :=
  (forall rows1 rows2 p,
      update (rows1 ++ rows2) p =
      match update rows1 p with
      | (p1, l1, Some f) => (p1, l1, Some f)
      | (p1, l1, None) =>
          let '(p2, l2, r) := update rows2 p1 in (p2, l1 ++ l2, r)
      end) /\
  (forall batches p,
      updates update batches p =
      (fst (fst (update (concat batches) p)), snd (update (concat batches) p))).

(** The evaluations an original-phase or distinct function makes on one
    row, and those a merging function makes. *)
Definition originalCalls {A} (eval : Row -> A * bool * option error) (row : Row)
    : list EvalCall :=
  [mkCall 0 row (snd (eval row))].

Definition mergeCalls {A} (evalSum : Row -> A * bool * option error)
    (exCount : Expression) (row : Row) : list EvalCall :=
  let '(_, isNull, err) := evalSum row in
  mkCall 1 row err ::
  match err with
  | Some _ => []
  | None =>
      if isNull then [] else [mkCall 0 row (snd (EvalInt exCount row))]
  end.

(** The evaluations of a call are those of an initial segment [done] of
    the batch, row by row in batch order: the whole batch when the call
    returns nil, and up to the failing row otherwise. *)
Definition evaluatesInOrder {P} (calls : Row -> list EvalCall)
    (update : list Row -> P -> P * list EvalCall * option failure) : Prop :=
  forall rows p p' l r,
    update rows p = (p', l, r) ->
    exists done rest,
      rows = done ++ rest /\ l = flat_map calls done /\
      (r = None -> rest = []) /\ (forall f, r = Some f -> done <> []).

(** The rows of a batch that a distinct function does not skip as
    duplicates, given the value set it starts with: rows whose value is
    already in the set are dropped, and a value that is kept joins the
    set. *)
Fixpoint keptDecimalRows (ex : Expression) (s : decimalSet) (rows : list Row)
    : list Row :=
  match rows with
  | [] => []
  | row :: rest =>
      match EvalDecimal ex row with
      | (v, false, None) =>
          if decimalSet_exist s v then keptDecimalRows ex s rest
          else row :: keptDecimalRows ex (decimalSet_insert s v) rest
      | _ => row :: keptDecimalRows ex s rest
      end
  end.

Fixpoint keptRealRows (ex : Expression) (s : float64Set) (rows : list Row)
    : list Row :=
  match rows with
  | [] => []
  | row :: rest =>
      match EvalReal ex row with
      | (v, false, None) =>
          if float64Set_exist s v then keptRealRows ex s rest
          else row :: keptRealRows ex (float64Set_insert s v) rest
      | _ => row :: keptRealRows ex s rest
      end
  end.

(** What a distinct function has seen of a row once the row's value is
    in the value set [s]: the row is null, or its value is a member; a row
    whose evaluation fails is never seen. *)
Definition decimalSeen (ex : Expression) (s : decimalSet) (row : Row) : Prop :=
  match EvalDecimal ex row with
  | (v, false, None) => decimalSet_exist s v = true
  | (_, true, None) => True
  | (_, _, Some _) => False
  end.

Definition realSeen (ex : Expression) (s : float64Set) (row : Row) : Prop :=
  match EvalReal ex row with
  | (v, false, None) => float64Set_exist s v = true
  | (_, true, None) => True
  | (_, _, Some _) => False
  end.

(** The value of the row, when it has one, is equal to itself (it is not
    NaN). *)
Definition realNotNaN (ex : Expression) (row : Row) : Prop :=
  match EvalReal ex row with
  | (v, false, None) => PrimFloat.eqb v v = true
  | _ => True
  end.

(** The float64 counterpart of [carriesPartial]. *)
Definition carriesRealPartial (e : baseAggFunc) (exCount exSum : Expression)
    (part : list Row) (prow : Row) : Prop :=
  exists pi li,
    avgOriginal4Float64_UpdatePartialResult e part
      baseAvgFloat64_AllocPartialResult = (pi, li, None) /\
    EvalReal exSum prow = (f_sum pi, false, None) /\
    EvalInt exCount prow = (f_count pi, false, None).

(** The row [prow] carries the partial result of a merging run over the
    pairs [part], for a further level of merging. *)
Definition carriesMerged (m : baseAggFunc) (exCount exSum : Expression)
    (part : list Row) (prow : Row) : Prop :=
  exists pi li,
    avgPartial4Decimal_UpdatePartialResult m part
      baseAvgDecimal_AllocPartialResult = (pi, li, None) /\
    EvalDecimal exSum prow = (d_sum pi, false, None) /\
    EvalInt exCount prow = (d_count pi, false, None).

End Vocabulary.

(** ** The loop *)

Section Loop.
Context {X : Externals} {P : Type}.
Variable body : Row -> M P unit.
Hypothesis body_uniform : uniform body.

Lemma runUpdate_nil (p : P) : runUpdate body [] p = (p, [], None).
Proof. reflexivity. Qed.

Lemma forRows_log (rows : list Row) (p : P) (l : list EvalCall) :
  forRows body rows {| pr := p; evalLog := l |} =
  let '(p', l', r) := runUpdate body rows p in
  (match r with Some f => inl f | None => inr tt end,
   {| pr := p'; evalLog := l ++ l' |}).
Proof.
  revert p l. induction rows as [| row rest IH]; intros p l.
  - cbn. now rewrite app_nil_r.
  - unfold runUpdate. cbn [forRows]. unfold bind.
    rewrite (body_uniform row {| pr := p; evalLog := l |}).
    rewrite (body_uniform row {| pr := p; evalLog := [] |}).
    cbn [pr evalLog].
    destruct (rowStep body row p) as [[p1 l1] [f |]]; cbn.
    + reflexivity.
    + rewrite (IH p1 (l ++ l1)), (IH p1 l1).
      destruct (runUpdate body rest p1) as [[p2 l2] r2].
      cbn. rewrite app_assoc. now destruct r2.
Qed.

Lemma runUpdate_cons (row : Row) (rest : list Row) (p : P) :
  runUpdate body (row :: rest) p =
  match rowStep body row p with
  | (p1, l1, Some f) => (p1, l1, Some f)
  | (p1, l1, None) =>
      let '(p2, l2, r) := runUpdate body rest p1 in (p2, l1 ++ l2, r)
  end.
Proof.
  unfold runUpdate at 1. cbn [forRows]. unfold bind.
  rewrite (body_uniform row {| pr := p; evalLog := [] |}). cbn [pr evalLog].
  destruct (rowStep body row p) as [[p1 l1] [f |]]; cbn.
  - reflexivity.
  - rewrite forRows_log.
    destruct (runUpdate body rest p1) as [[p2 l2] r2]. now destruct r2.
Qed.

Lemma runUpdate_app (rows1 rows2 : list Row) (p : P) :
  runUpdate body (rows1 ++ rows2) p =
  match runUpdate body rows1 p with
  | (p1, l1, Some f) => (p1, l1, Some f)
  | (p1, l1, None) =>
      let '(p2, l2, r) := runUpdate body rows2 p1 in (p2, l1 ++ l2, r)
  end.
Proof.
  revert p. induction rows1 as [| row rest IH]; intros p.
  - cbn [app]. rewrite runUpdate_nil.
    now destruct (runUpdate body rows2 p) as [[p2 l2] r].
  - cbn [app]. rewrite !runUpdate_cons.
    destruct (rowStep body row p) as [[p1 l1] [f |]]; [reflexivity |].
    rewrite IH.
    destruct (runUpdate body rest p1) as [[p2 l2] [f |]]; [reflexivity |].
    destruct (runUpdate body rows2 p2) as [[p3 l3] r].
    now rewrite app_assoc.
Qed.

Lemma runUpdate_failure (rows : list Row) (p p' : P) (l : list EvalCall)
    (f : failure) :
  runUpdate body rows p = (p', l, Some f) ->
  exists rows1 row rows2 p1 l1 lr,
    rows = rows1 ++ row :: rows2 /\
    runUpdate body rows1 p = (p1, l1, None) /\
    rowStep body row p1 = (p', lr, Some f) /\
    l = l1 ++ lr.
Proof.
  revert p l. induction rows as [| row rest IH]; intros p l H.
  - rewrite runUpdate_nil in H. discriminate.
  - rewrite runUpdate_cons in H.
    destruct (rowStep body row p) as [[p1 l1] [f1 |]] eqn:R.
    + inversion H; subst.
      exists [], row, rest, p, [], l. now rewrite runUpdate_nil.
    + destruct (runUpdate body rest p1) as [[p2 l2] r] eqn:E.
      inversion H; subst.
      destruct (IH _ _ E) as (rows1 & row' & rows2 & q & k1 & kr & -> & R1 & Rr & ->).
      exists (row :: rows1), row', rows2, q, (l1 ++ k1), kr.
      rewrite runUpdate_cons, R, R1, app_assoc. auto.
Qed.

Lemma runUpdate_propagatesErrors :
  rowSound body -> propagatesErrors (runUpdate body).
Proof.
  intros sound. split.
  - intros rows. induction rows as [| row rest IH]; intros p p' l r call er H I E.
    + rewrite runUpdate_nil in H. inversion H; subst. destruct I.
    + rewrite runUpdate_cons in H.
      destruct (rowStep body row p) as [[p1 l1] r1] eqn:R.
      destruct (sound _ _ _ _ _ R) as [S1 _].
      destruct r1 as [f1 |].
      * inversion H; subst. eauto.
      * destruct (runUpdate body rest p1) as [[p2 l2] r2] eqn:R2.
        inversion H; subst.
        apply in_app_or in I. destruct I as [I | I].
        -- specialize (S1 _ _ I E). discriminate.
        -- eauto.
  - intros rows1 row rows2 p p1 l1 p2 lr f H1 H2.
    rewrite runUpdate_app, H1, runUpdate_cons.
    change (runUpdate body [row] p1) with (rowStep body row p1) in H2.
    rewrite H2. destruct (sound _ _ _ _ _ H2) as [_ S2].
    now rewrite (S2 f eq_refl).
Qed.

Lemma updates_concat (batches : list (list Row)) (p p' : P) :
  updates (runUpdate body) batches p = (p', None) ->
  exists l, runUpdate body (concat batches) p = (p', l, None).
Proof.
  revert p. induction batches as [| rows rest IH]; intros p H.
  - cbn in *. inversion H; subst. now exists [].
  - cbn [updates] in H. cbn [concat]. rewrite runUpdate_app.
    destruct (runUpdate body rows p) as [[p1 l1] [f |]]; [discriminate |].
    destruct (IH _ H) as [l2 E]. rewrite E. now exists (l1 ++ l2).
Qed.

End Loop.

(** ** One row at a time

    For each of the six functions: the body of its loop is uniform, and the
    effect of a single row is given by an equation on the results of the
    evaluations the row triggers. *)

Ltac unfold_body :=
  unfold uniform, rowStep, runUpdate, forRows, bind, evalArg, throw, ret,
    getPR, setPR.

Ltac red_body := cbn -[nth_error int64_wrap].

Ltac case_eval :=
  repeat match goal with
    | |- context [nth_error (args ?e) ?i] =>
        destruct (nth_error (args e) i); red_body
    | |- context [EvalDecimal ?a ?row] =>
        destruct (EvalDecimal a row) as [[? [|]] [?|]]; red_body
    | |- context [EvalReal ?a ?row] =>
        destruct (EvalReal a row) as [[? [|]] [?|]]; red_body
    | |- context [EvalInt ?a ?row] =>
        destruct (EvalInt a row) as [[? [|]] [?|]]; red_body
    | |- context [DecimalAdd ?a ?b] =>
        destruct (DecimalAdd a b) as [? [?|]]; red_body
    | |- context [decimalSet_exist ?s ?v] =>
        destruct (decimalSet_exist s v); red_body
    | |- context [float64Set_exist ?s ?v] =>
        destruct (float64Set_exist s v); red_body
    end.

Ltac solve_uniform :=
  intros row [p l]; unfold_body; red_body; case_eval;
  rewrite ?app_nil_r, <- ?app_assoc; reflexivity.

Ltac solve_rowSound :=
  intros row p p' lr r; unfold rowSound, rowStep; unfold_body; red_body;
  case_eval; intros H; inversion H; subst; clear H;
  (split;
   [ intros call er' I E; cbn in I;
     repeat (destruct I as [<- | I];
             [cbn in E; try discriminate; try (inversion E; reflexivity) |]);
     try contradiction
   | intros f' Hf; try discriminate; reflexivity ]).

Section Rows.
Context {X : Externals}.
Variable e : baseAggFunc.

Lemma avgOriginal4Decimal_uniform : uniform (avgOriginal4Decimal_body e).
Proof. unfold avgOriginal4Decimal_body. solve_uniform. Qed.

Lemma avgPartial4Decimal_uniform : uniform (avgPartial4Decimal_body e).
Proof. unfold avgPartial4Decimal_body. solve_uniform. Qed.

Lemma avgOriginal4DistinctDecimal_uniform :
  uniform (avgOriginal4DistinctDecimal_body e).
Proof. unfold avgOriginal4DistinctDecimal_body. solve_uniform. Qed.

Lemma avgOriginal4Float64_uniform : uniform (avgOriginal4Float64_body e).
Proof. unfold avgOriginal4Float64_body. solve_uniform. Qed.

Lemma avgPartial4Float64_uniform : uniform (avgPartial4Float64_body e).
Proof. unfold avgPartial4Float64_body. solve_uniform. Qed.

Lemma avgOriginal4DistinctFloat64_uniform :
  uniform (avgOriginal4DistinctFloat64_body e).
Proof. unfold avgOriginal4DistinctFloat64_body. solve_uniform. Qed.

Lemma avgOriginal4Decimal_rowSound : rowSound (avgOriginal4Decimal_body e).
Proof. unfold avgOriginal4Decimal_body. solve_rowSound. Qed.

Lemma avgPartial4Decimal_rowSound : rowSound (avgPartial4Decimal_body e).
Proof. unfold avgPartial4Decimal_body. solve_rowSound. Qed.

Lemma avgOriginal4DistinctDecimal_rowSound :
  rowSound (avgOriginal4DistinctDecimal_body e).
Proof. unfold avgOriginal4DistinctDecimal_body. solve_rowSound. Qed.

Lemma avgOriginal4Float64_rowSound : rowSound (avgOriginal4Float64_body e).
Proof. unfold avgOriginal4Float64_body. solve_rowSound. Qed.

Lemma avgPartial4Float64_rowSound : rowSound (avgPartial4Float64_body e).
Proof. unfold avgPartial4Float64_body. solve_rowSound. Qed.

Lemma avgOriginal4DistinctFloat64_rowSound :
  rowSound (avgOriginal4DistinctFloat64_body e).
Proof. unfold avgOriginal4DistinctFloat64_body. solve_rowSound. Qed.

Variable arg0 : Expression.
Hypothesis Harg0 : nth_error (args e) 0 = Some arg0.

Lemma avgOriginal4Decimal_row (row : Row) (p : partialResult4AvgDecimal) :
  avgOriginal4Decimal_UpdatePartialResult e [row] p =
  let '(input, isNull, err) := EvalDecimal arg0 row in
  match err with
  | Some er => (p, [mkCall 0 row (Some er)], Some (Failure (Trace er)))
  | None =>
      if isNull then (p, [mkCall 0 row None], None)
      else
        match DecimalAdd (d_sum p) input with
        | (_, Some er) => (p, [mkCall 0 row None], Some (Failure (Trace er)))
        | (newSum, None) =>
            ({| d_sum := newSum; d_count := int64_wrap (d_count p + 1) |},
             [mkCall 0 row None], None)
        end
  end.
Proof.
  unfold avgOriginal4Decimal_UpdatePartialResult, avgOriginal4Decimal_body.
  unfold_body. rewrite Harg0. red_body. case_eval; reflexivity.
Qed.

Lemma avgOriginal4DistinctDecimal_row (row : Row)
    (p : partialResult4AvgDistinctDecimal) :
  avgOriginal4DistinctDecimal_UpdatePartialResult e [row] p =
  let '(input, isNull, err) := EvalDecimal arg0 row in
  match err with
  | Some er => (p, [mkCall 0 row (Some er)], Some (Failure (Trace er)))
  | None =>
      if isNull || decimalSet_exist (dd_valSet p) input
      then (p, [mkCall 0 row None], None)
      else
        match DecimalAdd (d_sum (dd_base p)) input with
        | (_, Some er) => (p, [mkCall 0 row None], Some (Failure (Trace er)))
        | (newSum, None) =>
            ({| dd_base := {| d_sum := newSum;
                              d_count := int64_wrap (d_count (dd_base p) + 1) |};
                dd_valSet := decimalSet_insert (dd_valSet p) input |},
             [mkCall 0 row None], None)
        end
  end.
Proof.
  unfold avgOriginal4DistinctDecimal_UpdatePartialResult,
    avgOriginal4DistinctDecimal_body.
  unfold_body. rewrite Harg0. red_body. case_eval; reflexivity.
Qed.

Lemma avgOriginal4Float64_row (row : Row) (p : partialResult4AvgFloat64) :
  avgOriginal4Float64_UpdatePartialResult e [row] p =
  let '(input, isNull, err) := EvalReal arg0 row in
  match err with
  | Some er => (p, [mkCall 0 row (Some er)], Some (Failure (Trace er)))
  | None =>
      if isNull then (p, [mkCall 0 row None], None)
      else
        ({| f_sum := PrimFloat.add (f_sum p) input;
            f_count := int64_wrap (f_count p + 1) |}, [mkCall 0 row None], None)
  end.
Proof.
  unfold avgOriginal4Float64_UpdatePartialResult, avgOriginal4Float64_body.
  unfold_body. rewrite Harg0. red_body. case_eval; reflexivity.
Qed.

Lemma avgOriginal4DistinctFloat64_row (row : Row)
    (p : partialResult4AvgDistinctFloat64) :
  avgOriginal4DistinctFloat64_UpdatePartialResult e [row] p =
  let '(input, isNull, err) := EvalReal arg0 row in
  match err with
  | Some er => (p, [mkCall 0 row (Some er)], Some (Failure (Trace er)))
  | None =>
      if isNull || float64Set_exist (fd_valSet p) input
      then (p, [mkCall 0 row None], None)
      else
        ({| fd_base := {| f_sum := PrimFloat.add (f_sum (fd_base p)) input;
                          f_count := int64_wrap (f_count (fd_base p) + 1) |};
            fd_valSet := float64Set_insert (fd_valSet p) input |},
         [mkCall 0 row None], None)
  end.
Proof.
  unfold avgOriginal4DistinctFloat64_UpdatePartialResult,
    avgOriginal4DistinctFloat64_body.
  unfold_body. rewrite Harg0. red_body. case_eval; reflexivity.
Qed.

Variable arg1 : Expression.
Hypothesis Harg1 : nth_error (args e) 1 = Some arg1.

Lemma avgPartial4Decimal_row (row : Row) (p : partialResult4AvgDecimal) :
  avgPartial4Decimal_UpdatePartialResult e [row] p =
  let '(inputSum, isNull, err) := EvalDecimal arg1 row in
  match err with
  | Some er => (p, [mkCall 1 row (Some er)], Some (Failure (Trace er)))
  | None =>
      if isNull then (p, [mkCall 1 row None], None)
      else
        let '(inputCount, isNull, err) := EvalInt arg0 row in
        match err with
        | Some er =>
            (p, [mkCall 1 row None; mkCall 0 row (Some er)],
             Some (Failure (Trace er)))
        | None =>
            if isNull then (p, [mkCall 1 row None; mkCall 0 row None], None)
            else
              match DecimalAdd (d_sum p) inputSum with
              | (_, Some er) =>
                  (p, [mkCall 1 row None; mkCall 0 row None], Some (Failure (Trace er)))
              | (newSum, None) =>
                  ({| d_sum := newSum;
                      d_count := int64_wrap (d_count p + inputCount) |},
                   [mkCall 1 row None; mkCall 0 row None], None)
              end
        end
  end.
Proof.
  unfold avgPartial4Decimal_UpdatePartialResult, avgPartial4Decimal_body.
  unfold_body. rewrite Harg1. red_body.
  destruct (EvalDecimal arg1 row) as [[s [|]] [er |]]; red_body; try reflexivity.
  rewrite Harg0. red_body. case_eval; reflexivity.
Qed.

Lemma avgPartial4Float64_row (row : Row) (p : partialResult4AvgFloat64) :
  avgPartial4Float64_UpdatePartialResult e [row] p =
  let '(inputSum, isNull, err) := EvalReal arg1 row in
  match err with
  | Some er => (p, [mkCall 1 row (Some er)], Some (Failure (Trace er)))
  | None =>
      if isNull then (p, [mkCall 1 row None], None)
      else
        let '(inputCount, isNull, err) := EvalInt arg0 row in
        match err with
        | Some er =>
            (p, [mkCall 1 row None; mkCall 0 row (Some er)],
             Some (Failure (Trace er)))
        | None =>
            if isNull then (p, [mkCall 1 row None; mkCall 0 row None], None)
            else
              ({| f_sum := PrimFloat.add (f_sum p) inputSum;
                  f_count := int64_wrap (f_count p + inputCount) |},
               [mkCall 1 row None; mkCall 0 row None], None)
        end
  end.
Proof.
  unfold avgPartial4Float64_UpdatePartialResult, avgPartial4Float64_body.
  unfold_body. rewrite Harg1. red_body.
  destruct (EvalReal arg1 row) as [[s [|]] [er |]]; red_body; try reflexivity.
  rewrite Harg0. red_body. case_eval; reflexivity.
Qed.

End Rows.

(** ** Arithmetic of [int64] *)

Lemma int64_wrap_small (z : Z) : in_int64 z -> int64_wrap z = z.
Proof.
  unfold in_int64, int64_wrap. intros H.
  rewrite Z.mod_small; lia.
Qed.

Lemma int64_wrap_add_l (a b : Z) : int64_wrap (int64_wrap a + b) = int64_wrap (a + b).
Proof.
  unfold int64_wrap.
  replace ((a + 2 ^ 63) mod 2 ^ 64 - 2 ^ 63 + b + 2 ^ 63)
    with ((a + 2 ^ 63) mod 2 ^ 64 + b) by lia.
  rewrite Zplus_mod_idemp_l. f_equal. f_equal. lia.
Qed.

Lemma int64_wrap_add_r (a b : Z) : int64_wrap (a + int64_wrap b) = int64_wrap (a + b).
Proof. now rewrite Z.add_comm, int64_wrap_add_l, Z.add_comm. Qed.

Lemma int64_wrap_succ (c : Z) : - 2 ^ 63 <= c < 2 ^ 63 - 1 -> int64_wrap (c + 1) = c + 1.
Proof. intros H. apply int64_wrap_small. unfold in_int64. lia. Qed.

Lemma int64_wrap_range (z : Z) : in_int64 (int64_wrap z).
Proof.
  unfold in_int64, int64_wrap.
  pose proof (Z.mod_pos_bound (z + 2 ^ 63) (2 ^ 64) ltac:(lia)). lia.
Qed.

(** ** Original-phase updates *)

Section Original.
Context {X : Externals}.
Variable e : baseAggFunc.
Variable arg0 : Expression.
Hypothesis Harg0 : nth_error (args e) 0 = Some arg0.

Lemma avgOriginal4Decimal_run (rows : list Row) (p p' : partialResult4AvgDecimal)
    (l : list EvalCall) :
  in_int64 (d_count p) ->
  avgOriginal4Decimal_UpdatePartialResult e rows p = (p', l, None) ->
  Forall (fun row => snd (EvalDecimal arg0 row) = None) rows /\
  decimalAddAll (d_sum p) (decimalInputs arg0 rows) = Some (d_sum p') /\
  d_count p' =
    int64_wrap (d_count p + Z.of_nat (length (decimalInputs arg0 rows))).
Proof.
  unfold avgOriginal4Decimal_UpdatePartialResult.
  revert p l. induction rows as [| row rest IH]; intros p l Hp H.
  - rewrite runUpdate_nil in H. inversion H; subst. cbn.
    rewrite Z.add_0_r, int64_wrap_small by assumption. now repeat split.
  - rewrite (runUpdate_cons (avgOriginal4Decimal_uniform e)) in H.
    unfold rowStep in H.
    change (runUpdate (avgOriginal4Decimal_body e) [row] p)
      with (avgOriginal4Decimal_UpdatePartialResult e [row] p) in H.
    rewrite (avgOriginal4Decimal_row e Harg0) in H.
    unfold decimalInputs. cbn [flat_map].
    fold (decimalInputs arg0 rest).
    destruct (EvalDecimal arg0 row) as [[v [|]] [er |]] eqn:Ev; try discriminate.
    + destruct (runUpdate _ rest p) as [[p2 l2] r] eqn:E.
      inversion H; subst. destruct (IH _ _ Hp E) as (F & S & C).
      cbn [app]. repeat split; auto.
      constructor; [now rewrite Ev | assumption].
    + destruct (DecimalAdd (d_sum p) v) as [s [er |]] eqn:A; try discriminate.
      destruct (runUpdate _ rest _) as [[p2 l2] r] eqn:E.
      inversion H; subst.
      apply IH in E; [| apply int64_wrap_range]. destruct E as (F & S & C).
      cbn [d_sum d_count] in S, C. cbn [app decimalAddAll length]. rewrite A.
      repeat split; auto.
      { constructor; [now rewrite Ev | assumption]. }
      rewrite C, int64_wrap_add_l. f_equal. lia.
Qed.

Lemma avgOriginal4Float64_run (rows : list Row) (p p' : partialResult4AvgFloat64)
    (l : list EvalCall) :
  in_int64 (f_count p) ->
  avgOriginal4Float64_UpdatePartialResult e rows p = (p', l, None) ->
  Forall (fun row => snd (EvalReal arg0 row) = None) rows /\
  float64AddAll (f_sum p) (realInputs arg0 rows) = f_sum p' /\
  f_count p' = int64_wrap (f_count p + Z.of_nat (length (realInputs arg0 rows))).
Proof.
  unfold avgOriginal4Float64_UpdatePartialResult.
  revert p l. induction rows as [| row rest IH]; intros p l Hp H.
  - rewrite runUpdate_nil in H. inversion H; subst. cbn.
    rewrite Z.add_0_r, int64_wrap_small by assumption. now repeat split.
  - rewrite (runUpdate_cons (avgOriginal4Float64_uniform e)) in H.
    unfold rowStep in H.
    change (runUpdate (avgOriginal4Float64_body e) [row] p)
      with (avgOriginal4Float64_UpdatePartialResult e [row] p) in H.
    rewrite (avgOriginal4Float64_row e Harg0) in H.
    unfold realInputs. cbn [flat_map].
    fold (realInputs arg0 rest).
    destruct (EvalReal arg0 row) as [[v [|]] [er |]] eqn:Ev; try discriminate.
    + destruct (runUpdate _ rest p) as [[p2 l2] r] eqn:E.
      inversion H; subst. destruct (IH _ _ Hp E) as (F & S & C).
      cbn [app]. repeat split; auto.
      constructor; [now rewrite Ev | assumption].
    + destruct (runUpdate _ rest _) as [[p2 l2] r] eqn:E.
      inversion H; subst.
      apply IH in E; [| apply int64_wrap_range]. destruct E as (F & S & C).
      cbn [f_sum f_count] in S, C. cbn [app length].
      repeat split; auto.
      { constructor; [now rewrite Ev | assumption]. }
      rewrite C, int64_wrap_add_l. f_equal. lia.
Qed.

(** C2.  Original-phase update, decimal and float64.  A row whose argument
    is null leaves the partial result as it is; a row with a value has the
    value added to the sum and the count incremented by one.  After any
    sequence of update calls that all returned nil, no row had an evaluation
    error, the sum is the partial result's initial sum plus the non-null
    values in row order, and the count has grown by their number: starting
    from a count of zero it is exactly the number of non-null inputs (which
    fits an int64). *)
Theorem original_update_folds_non_null_rows :
  (forall row p v,
      EvalDecimal arg0 row = (v, true, None) ->
      avgOriginal4Decimal_UpdatePartialResult e [row] p = (p, [mkCall 0 row None], None)) /\
  (forall row p v s,
      EvalDecimal arg0 row = (v, false, None) ->
      DecimalAdd (d_sum p) v = (s, None) ->
      avgOriginal4Decimal_UpdatePartialResult e [row] p =
      ({| d_sum := s; d_count := int64_wrap (d_count p + 1) |},
       [mkCall 0 row None], None)) /\
  (forall batches p p',
      in_int64 (d_count p) ->
      updates (avgOriginal4Decimal_UpdatePartialResult e) batches p = (p', None) ->
      let vs := decimalInputs arg0 (concat batches) in
      Forall (fun row => snd (EvalDecimal arg0 row) = None) (concat batches) /\
      decimalAddAll (d_sum p) vs = Some (d_sum p') /\
      d_count p' = int64_wrap (d_count p + Z.of_nat (length vs)) /\
      (d_count p = 0 -> Z.of_nat (length vs) < 2 ^ 63 ->
       d_count p' = Z.of_nat (length vs))) /\
  (forall row p v,
      EvalReal arg0 row = (v, true, None) ->
      avgOriginal4Float64_UpdatePartialResult e [row] p = (p, [mkCall 0 row None], None)) /\
  (forall row p v,
      EvalReal arg0 row = (v, false, None) ->
      avgOriginal4Float64_UpdatePartialResult e [row] p =
      ({| f_sum := PrimFloat.add (f_sum p) v;
          f_count := int64_wrap (f_count p + 1) |}, [mkCall 0 row None], None)) /\
  (forall batches p p',
      in_int64 (f_count p) ->
      updates (avgOriginal4Float64_UpdatePartialResult e) batches p = (p', None) ->
      let vs := realInputs arg0 (concat batches) in
      Forall (fun row => snd (EvalReal arg0 row) = None) (concat batches) /\
      float64AddAll (f_sum p) vs = f_sum p' /\
      f_count p' = int64_wrap (f_count p + Z.of_nat (length vs)) /\
      (f_count p = 0 -> Z.of_nat (length vs) < 2 ^ 63 ->
       f_count p' = Z.of_nat (length vs))) /\
  (forall c, - 2 ^ 63 <= c < 2 ^ 63 - 1 -> int64_wrap (c + 1) = c + 1).
Proof.
  repeat apply conj.
  - intros row p v Ev. rewrite (avgOriginal4Decimal_row e Harg0), Ev. reflexivity.
  - intros row p v s Ev A.
    rewrite (avgOriginal4Decimal_row e Harg0), Ev, A. reflexivity.
  - intros batches p p' Hp H vs.
    destruct (updates_concat (avgOriginal4Decimal_uniform e) _ _ H) as [l R].
    apply avgOriginal4Decimal_run in R; [| exact Hp]. destruct R as (F & S & C).
    repeat split; auto.
    intros Z0 Hlen. rewrite C, Z0. apply int64_wrap_small.
    unfold in_int64. fold vs. lia.
  - intros row p v Ev. rewrite (avgOriginal4Float64_row e Harg0), Ev. reflexivity.
  - intros row p v Ev. rewrite (avgOriginal4Float64_row e Harg0), Ev. reflexivity.
  - intros batches p p' Hp H vs.
    destruct (updates_concat (avgOriginal4Float64_uniform e) _ _ H) as [l R].
    apply avgOriginal4Float64_run in R; [| exact Hp]. destruct R as (F & S & C).
    repeat split; auto.
    intros Z0 Hlen. rewrite C, Z0. apply int64_wrap_small.
    unfold in_int64. fold vs. lia.
  - apply int64_wrap_succ.
Qed.

End Original.

(** The batches [2, NULL, 4] and [6]: sum 12, count 3. *)
Lemma original_update_folds_non_null_rows_witness :
  let batches := [[Model.decRow 2 0; Model.nullRow; Model.decRow 4 0];
                  [Model.decRow 6 0]] in
  let p' := {| d_sum := NewDecFromInt 12; d_count := 3 |} in
  nth_error (args Model.avgOfColumn) 0 = Some (Model.Column 0) /\
  in_int64 (d_count baseAvgDecimal_AllocPartialResult) /\
  updates (avgOriginal4Decimal_UpdatePartialResult Model.avgOfColumn) batches
    baseAvgDecimal_AllocPartialResult = (p', None) /\
  decimalAddAll MyDecimal_zero
    (decimalInputs (Model.Column 0) (concat batches)) = Some (d_sum p') /\
  d_count p' = 3.
Proof.
  intros batches p'.
  assert (H0 : nth_error (args Model.avgOfColumn) 0 = Some (Model.Column 0))
    by reflexivity.
  assert (Hr : in_int64 (d_count baseAvgDecimal_AllocPartialResult))
    by (unfold in_int64; cbn; lia).
  assert (Hu : updates (avgOriginal4Decimal_UpdatePartialResult Model.avgOfColumn)
                 batches baseAvgDecimal_AllocPartialResult = (p', None))
    by reflexivity.
  destruct (original_update_folds_non_null_rows Model.avgOfColumn H0)
    as (_ & _ & H & _).
  destruct (H batches _ p' Hr Hu) as (_ & S & _ & C).
  refine (conj H0 (conj Hr (conj Hu (conj S _)))).
  exact (C eq_refl eq_refl).
Defined.

(** ** Errors *)

Ltac use_row_equation R :=
  rewrite R;
  repeat match goal with
    | H : snd ?t = Some _ |- context [?t] =>
        first [destruct t as [[? ?] ?] | destruct t as [? ?]]; cbn in H; subst
    | H : ?t = _ |- context [?t] => rewrite H
    end;
  try reflexivity.

Section Errors.
Context {X : Externals}.
Variables (e : baseAggFunc) (input : Expression).
Hypothesis He : nth_error (args e) 0 = Some input.
Variables (m : baseAggFunc) (inputCount inputSum : Expression).
Hypothesis Hm0 : nth_error (args m) 0 = Some inputCount.
Hypothesis Hm1 : nth_error (args m) 1 = Some inputSum.

(** C6.  Every update function propagates errors: an evaluation that
    returned an error makes the call return that error (traced), at once,
    with the rows before the failing one applied and the rows after it
    untouched.  The failing evaluation can be the single argument of an
    original-phase function, or the sum or the count argument of a merging
    function; a failing DecimalAdd is returned the same way. *)
Theorem update_propagates_errors :
  propagatesErrors (avgOriginal4Decimal_UpdatePartialResult e) /\
  propagatesErrors (avgPartial4Decimal_UpdatePartialResult m) /\
  propagatesErrors (avgOriginal4DistinctDecimal_UpdatePartialResult e) /\
  propagatesErrors (avgOriginal4Float64_UpdatePartialResult e) /\
  propagatesErrors (avgPartial4Float64_UpdatePartialResult m) /\
  propagatesErrors (avgOriginal4DistinctFloat64_UpdatePartialResult e) /\
  (forall row p q er,
      snd (EvalDecimal input row) = Some er ->
      avgOriginal4Decimal_UpdatePartialResult e [row] p =
      (p, [mkCall 0 row (Some er)], Some (Failure (Trace er))) /\
      avgOriginal4DistinctDecimal_UpdatePartialResult e [row] q =
      (q, [mkCall 0 row (Some er)], Some (Failure (Trace er)))) /\
  (forall row p q er,
      snd (EvalReal input row) = Some er ->
      avgOriginal4Float64_UpdatePartialResult e [row] p =
      (p, [mkCall 0 row (Some er)], Some (Failure (Trace er))) /\
      avgOriginal4DistinctFloat64_UpdatePartialResult e [row] q =
      (q, [mkCall 0 row (Some er)], Some (Failure (Trace er)))) /\
  (forall row p er,
      snd (EvalDecimal inputSum row) = Some er ->
      avgPartial4Decimal_UpdatePartialResult m [row] p =
      (p, [mkCall 1 row (Some er)], Some (Failure (Trace er)))) /\
  (forall row p er,
      snd (EvalReal inputSum row) = Some er ->
      avgPartial4Float64_UpdatePartialResult m [row] p =
      (p, [mkCall 1 row (Some er)], Some (Failure (Trace er)))) /\
  (forall row p s er,
      EvalDecimal inputSum row = (s, false, None) ->
      snd (EvalInt inputCount row) = Some er ->
      avgPartial4Decimal_UpdatePartialResult m [row] p =
      (p, [mkCall 1 row None; mkCall 0 row (Some er)],
       Some (Failure (Trace er)))) /\
  (forall row p s er,
      EvalReal inputSum row = (s, false, None) ->
      snd (EvalInt inputCount row) = Some er ->
      avgPartial4Float64_UpdatePartialResult m [row] p =
      (p, [mkCall 1 row None; mkCall 0 row (Some er)],
       Some (Failure (Trace er)))) /\
  (forall row p v er,
      EvalDecimal input row = (v, false, None) ->
      snd (DecimalAdd (d_sum p) v) = Some er ->
      avgOriginal4Decimal_UpdatePartialResult e [row] p =
      (p, [mkCall 0 row None], Some (Failure (Trace er)))) /\
  (forall row p v er,
      EvalDecimal input row = (v, false, None) ->
      decimalSet_exist (dd_valSet p) v = false ->
      snd (DecimalAdd (d_sum (dd_base p)) v) = Some er ->
      avgOriginal4DistinctDecimal_UpdatePartialResult e [row] p =
      (p, [mkCall 0 row None], Some (Failure (Trace er)))) /\
  (forall row p s c er,
      EvalDecimal inputSum row = (s, false, None) ->
      EvalInt inputCount row = (c, false, None) ->
      snd (DecimalAdd (d_sum p) s) = Some er ->
      avgPartial4Decimal_UpdatePartialResult m [row] p =
      (p, [mkCall 1 row None; mkCall 0 row None], Some (Failure (Trace er)))).
Proof.
  split.
  { apply runUpdate_propagatesErrors;
      [apply avgOriginal4Decimal_uniform | apply avgOriginal4Decimal_rowSound]. }
  split.
  { apply runUpdate_propagatesErrors;
      [apply avgPartial4Decimal_uniform | apply avgPartial4Decimal_rowSound]. }
  split.
  { apply runUpdate_propagatesErrors;
      [apply avgOriginal4DistinctDecimal_uniform
      | apply avgOriginal4DistinctDecimal_rowSound]. }
  split.
  { apply runUpdate_propagatesErrors;
      [apply avgOriginal4Float64_uniform | apply avgOriginal4Float64_rowSound]. }
  split.
  { apply runUpdate_propagatesErrors;
      [apply avgPartial4Float64_uniform | apply avgPartial4Float64_rowSound]. }
  split.
  { apply runUpdate_propagatesErrors;
      [apply avgOriginal4DistinctFloat64_uniform
      | apply avgOriginal4DistinctFloat64_rowSound]. }
  split.
  { intros row p q er H. split.
    - use_row_equation (avgOriginal4Decimal_row e He).
    - use_row_equation (avgOriginal4DistinctDecimal_row e He). }
  split.
  { intros row p q er H. split.
    - use_row_equation (avgOriginal4Float64_row e He).
    - use_row_equation (avgOriginal4DistinctFloat64_row e He). }
  split.
  { intros row p er H. use_row_equation (avgPartial4Decimal_row m Hm0 Hm1). }
  split.
  { intros row p er H. use_row_equation (avgPartial4Float64_row m Hm0 Hm1). }
  split.
  { intros row p s er H1 H2. use_row_equation (avgPartial4Decimal_row m Hm0 Hm1). }
  split.
  { intros row p s er H1 H2. use_row_equation (avgPartial4Float64_row m Hm0 Hm1). }
  split.
  { intros row p v er H1 H2. use_row_equation (avgOriginal4Decimal_row e He). }
  split.
  { intros row p v er H1 H2 H3.
    use_row_equation (avgOriginal4DistinctDecimal_row e He). }
  intros row p s c er H1 H2 H3.
  use_row_equation (avgPartial4Decimal_row m Hm0 Hm1).
Qed.

(** C10.  A row whose DecimalAdd fails leaves the partial result as the
    rows before it left it: the sum is the old one (the failed addition
    only wrote to the scratch [newSum], whatever [s] it holds), the count is
    not incremented and, for the distinct function, the value set is the
    old one. *)
Theorem decimal_add_failure_keeps_partial_result :
  (forall rows1 row rows2 p p1 l1 v s er,
      avgOriginal4Decimal_UpdatePartialResult e rows1 p = (p1, l1, None) ->
      EvalDecimal input row = (v, false, None) ->
      DecimalAdd (d_sum p1) v = (s, Some er) ->
      avgOriginal4Decimal_UpdatePartialResult e (rows1 ++ row :: rows2) p =
      (p1, l1 ++ [mkCall 0 row None], Some (Failure (Trace er)))) /\
  (forall rows1 row rows2 p p1 l1 v s er,
      avgOriginal4DistinctDecimal_UpdatePartialResult e rows1 p = (p1, l1, None) ->
      EvalDecimal input row = (v, false, None) ->
      decimalSet_exist (dd_valSet p1) v = false ->
      DecimalAdd (d_sum (dd_base p1)) v = (s, Some er) ->
      avgOriginal4DistinctDecimal_UpdatePartialResult e (rows1 ++ row :: rows2) p =
      (p1, l1 ++ [mkCall 0 row None], Some (Failure (Trace er)))) /\
  (forall rows1 row rows2 p p1 l1 v c s er,
      avgPartial4Decimal_UpdatePartialResult m rows1 p = (p1, l1, None) ->
      EvalDecimal inputSum row = (v, false, None) ->
      EvalInt inputCount row = (c, false, None) ->
      DecimalAdd (d_sum p1) v = (s, Some er) ->
      avgPartial4Decimal_UpdatePartialResult m (rows1 ++ row :: rows2) p =
      (p1, l1 ++ [mkCall 1 row None; mkCall 0 row None],
       Some (Failure (Trace er)))).
Proof.
  split; [| split].
  - intros rows1 row rows2 p p1 l1 v s er R Ev A.
    refine (proj2 (runUpdate_propagatesErrors (avgOriginal4Decimal_uniform e)
                     (avgOriginal4Decimal_rowSound e)) _ _ _ _ _ _ p1 _ _ R _).
    change (runUpdate (avgOriginal4Decimal_body e))
      with (avgOriginal4Decimal_UpdatePartialResult e).
    use_row_equation (avgOriginal4Decimal_row e He).
  - intros rows1 row rows2 p p1 l1 v s er R Ev Ex A.
    refine (proj2 (runUpdate_propagatesErrors
                     (avgOriginal4DistinctDecimal_uniform e)
                     (avgOriginal4DistinctDecimal_rowSound e))
              _ _ _ _ _ _ p1 _ _ R _).
    change (runUpdate (avgOriginal4DistinctDecimal_body e))
      with (avgOriginal4DistinctDecimal_UpdatePartialResult e).
    use_row_equation (avgOriginal4DistinctDecimal_row e He).
  - intros rows1 row rows2 p p1 l1 v c s er R Ev Ec A.
    refine (proj2 (runUpdate_propagatesErrors (avgPartial4Decimal_uniform m)
                     (avgPartial4Decimal_rowSound m)) _ _ _ _ _ _ p1 _ _ R _).
    change (runUpdate (avgPartial4Decimal_body m))
      with (avgPartial4Decimal_UpdatePartialResult m).
    use_row_equation (avgPartial4Decimal_row m Hm0 Hm1).
Qed.

(** C9.  The float64 functions have no arithmetic error: an update that
    returns an error returns the traced error of an evaluation of one of
    its arguments on one of the rows, and the two finalizations return
    nil for every partial result. *)
Theorem float64_errors_come_from_evaluation :
  (forall rows p p' l f,
      avgOriginal4Float64_UpdatePartialResult e rows p = (p', l, Some f) ->
      exists row er,
        In row rows /\ snd (EvalReal input row) = Some er /\
        f = Failure (Trace er)) /\
  (forall rows p p' l f,
      avgOriginal4DistinctFloat64_UpdatePartialResult e rows p = (p', l, Some f) ->
      exists row er,
        In row rows /\ snd (EvalReal input row) = Some er /\
        f = Failure (Trace er)) /\
  (forall rows p p' l f,
      avgPartial4Float64_UpdatePartialResult m rows p = (p', l, Some f) ->
      exists row er,
        In row rows /\
        (snd (EvalReal inputSum row) = Some er \/
         snd (EvalInt inputCount row) = Some er) /\
        f = Failure (Trace er)) /\
  (forall a p chk, snd (baseAvgFloat64_AppendFinalResult2Chunk a p chk) = None) /\
  (forall a p chk,
      snd (avgOriginal4DistinctFloat64_AppendFinalResult2Chunk a p chk) = None).
Proof.
  split; [| split; [| split; [| split]]].
  - intros rows p p' l f H.
    apply (runUpdate_failure (avgOriginal4Float64_uniform e)) in H.
    destruct H as (rows1 & row & rows2 & p1 & l1 & lr & -> & _ & R & _).
    exists row. unfold rowStep in R.
    change (runUpdate (avgOriginal4Float64_body e) [row] p1)
      with (avgOriginal4Float64_UpdatePartialResult e [row] p1) in R.
    rewrite (avgOriginal4Float64_row e He) in R.
    destruct (EvalReal input row) as [[v [|]] [er |]];
      inversion R; subst; exists er; auto using in_elt.
  - intros rows p p' l f H.
    apply (runUpdate_failure (avgOriginal4DistinctFloat64_uniform e)) in H.
    destruct H as (rows1 & row & rows2 & p1 & l1 & lr & -> & _ & R & _).
    exists row. unfold rowStep in R.
    change (runUpdate (avgOriginal4DistinctFloat64_body e) [row] p1)
      with (avgOriginal4DistinctFloat64_UpdatePartialResult e [row] p1) in R.
    rewrite (avgOriginal4DistinctFloat64_row e He) in R.
    destruct (EvalReal input row) as [[v [|]] [er |]]; cbn in R;
      try destruct (float64Set_exist (fd_valSet p1) v);
      inversion R; subst; exists er; auto using in_elt.
  - intros rows p p' l f H.
    apply (runUpdate_failure (avgPartial4Float64_uniform m)) in H.
    destruct H as (rows1 & row & rows2 & p1 & l1 & lr & -> & _ & R & _).
    exists row. unfold rowStep in R.
    change (runUpdate (avgPartial4Float64_body m) [row] p1)
      with (avgPartial4Float64_UpdatePartialResult m [row] p1) in R.
    rewrite (avgPartial4Float64_row m Hm0 Hm1) in R.
    destruct (EvalReal inputSum row) as [[v [|]] [er |]];
      try (inversion R; subst; exists er; now auto using in_elt).
    destruct (EvalInt inputCount row) as [[c [|]] [er |]];
      inversion R; subst; exists er; auto using in_elt.
  - intros a p chk. unfold baseAvgFloat64_AppendFinalResult2Chunk.
    now destruct (f_count p =? 0).
  - intros a p chk. unfold avgOriginal4DistinctFloat64_AppendFinalResult2Chunk.
    now destruct (f_count (fd_base p) =? 0).
Qed.

End Errors.

(** A merging batch whose second row has an unreadable count: the call
    fails there, keeps the first row and never reads the third. *)
Lemma update_propagates_errors_witness :
  let bad : Row := [Model.DBad; Model.dec 20 0] in
  let p1 := {| d_sum := NewDecFromInt 10; d_count := 2 |} in
  nth_error (args Model.avgOfColumn) 0 = Some (Model.Column 0) /\
  nth_error (args Model.avgOfPartials) 0 = Some (Model.Column 0) /\
  nth_error (args Model.avgOfPartials) 1 = Some (Model.Column 1) /\
  EvalDecimal (Model.Column 1) bad = (NewDecFromInt 20, false, None) /\
  snd (EvalInt (Model.Column 0) bad) = Some Model.ErrEval /\
  avgPartial4Decimal_UpdatePartialResult Model.avgOfPartials
    ([Model.decPair 2 10] ++ bad :: [Model.decPair 3 20])
    baseAvgDecimal_AllocPartialResult =
  (p1,
   [mkCall 1 (Model.decPair 2 10) None; mkCall 0 (Model.decPair 2 10) None]
     ++ [mkCall 1 bad None; mkCall 0 bad (Some Model.ErrEval)],
   Some (Failure (Trace Model.ErrEval))).
Proof.
  intros bad p1.
  pose proof (update_propagates_errors Model.avgOfColumn
                (input := Model.Column 0) eq_refl Model.avgOfPartials
                (inputCount := Model.Column 0) (inputSum := Model.Column 1)
                eq_refl eq_refl) as T.
  destruct T as (_ & [_ P] & _ & _ & _ & _ & _ & _ & _ & _ & Hc & _).
  refine (conj eq_refl (conj eq_refl (conj eq_refl (conj eq_refl
            (conj eq_refl _))))).
  apply (P [Model.decPair 2 10] bad [Model.decPair 3 20]
           baseAvgDecimal_AllocPartialResult p1 _ p1).
  - reflexivity.
  - apply (Hc bad p1 (NewDecFromInt 20) Model.ErrEval); reflexivity.
Defined.

(** Adding the largest decimal to 5 overflows: the partial result stays at
    sum 5, count 1. *)
Lemma decimal_add_failure_keeps_partial_result_witness :
  let big : Z := Model.pow10 Model.maxDigits - 1 in
  let p1 := {| d_sum := NewDecFromInt 5; d_count := 1 |} in
  nth_error (args Model.avgOfColumn) 0 = Some (Model.Column 0) /\
  avgOriginal4Decimal_UpdatePartialResult Model.avgOfColumn [Model.decRow 5 0]
    baseAvgDecimal_AllocPartialResult =
  (p1, [mkCall 0 (Model.decRow 5 0) None], None) /\
  EvalDecimal (Model.Column 0) (Model.decRow big 0) =
  (NewDecFromInt big, false, None) /\
  DecimalAdd (d_sum p1) (NewDecFromInt big) =
  (Model.maxDec false 0, Some Model.ErrOverflow) /\
  avgOriginal4Decimal_UpdatePartialResult Model.avgOfColumn
    ([Model.decRow 5 0] ++ Model.decRow big 0 :: [Model.decRow 1 0])
    baseAvgDecimal_AllocPartialResult =
  (p1, [mkCall 0 (Model.decRow 5 0) None] ++ [mkCall 0 (Model.decRow big 0) None],
   Some (Failure (Trace Model.ErrOverflow))).
Proof.
  intros big p1.
  pose proof (decimal_add_failure_keeps_partial_result Model.avgOfColumn
                (input := Model.Column 0) eq_refl Model.avgOfPartials
                (inputCount := Model.Column 0) (inputSum := Model.Column 1)
                eq_refl eq_refl) as [T _].
  refine (conj eq_refl (conj eq_refl (conj eq_refl (conj eq_refl _)))).
  apply (T [Model.decRow 5 0] (Model.decRow big 0) [Model.decRow 1 0]
           baseAvgDecimal_AllocPartialResult p1 _ (NewDecFromInt big)
           (Model.maxDec false 0) Model.ErrOverflow); reflexivity.
Defined.

(** The float64 batch [1.5, unreadable]: the error is the evaluation's. *)
Lemma float64_errors_come_from_evaluation_witness :
  let rows := [Model.realRow 1.5%float; Model.badRow] in
  let p' := {| f_sum := 1.5%float; f_count := 1 |} in
  let l := [mkCall 0 (Model.realRow 1.5%float) None;
            mkCall 0 Model.badRow (Some Model.ErrEval)] in
  nth_error (args Model.avgOfColumn) 0 = Some (Model.Column 0) /\
  avgOriginal4Float64_UpdatePartialResult Model.avgOfColumn rows
    baseAvgFloat64_AllocPartialResult =
  (p', l, Some (Failure (Trace Model.ErrEval))) /\
  exists row er,
    In row rows /\ snd (EvalReal (Model.Column 0) row) = Some er /\
    Failure (Trace Model.ErrEval) = Failure (Trace er).
Proof.
  intros rows p' l.
  pose proof (float64_errors_come_from_evaluation Model.avgOfColumn
                (input := Model.Column 0) eq_refl Model.avgOfPartials
                (inputCount := Model.Column 0) (inputSum := Model.Column 1)
                eq_refl eq_refl) as [T _].
  refine (conj eq_refl (conj eq_refl _)).
  apply (T rows baseAvgFloat64_AllocPartialResult p' l). reflexivity.
Defined.

(** ** Finalization *)

Section Finalize.
Context {X : Externals}.

Lemma appendCell_singleWrite (colIdx : nat) (c : Cell) (chk : Chunk) :
  singleWrite chk (appendCell colIdx c chk) colIdx c.
Proof.
  unfold singleWrite, appendCell. split.
  - now rewrite Nat.eqb_refl.
  - intros i Hi. apply Nat.eqb_neq in Hi. now rewrite Hi.
Qed.

(** C3.  Finalization.  With a count of zero every function appends the
    null cell at its ordinal and returns nil; the null cell is neither a
    decimal nor a float64 cell.  With another count the decimal functions
    append the result of DecimalDiv when it returns one (and pass its error
    on, appending nothing, when it fails), and the float64 functions append
    sum / float64(count).  An append is one cell at the end of the column
    of the ordinal; the other columns stay as they are. *)
Theorem finalize_null_or_quotient (a : baseAggFunc) (chk : Chunk) :
  (forall p, d_count p = 0 ->
     baseAvgDecimal_AppendFinalResult2Chunk a p chk =
     (AppendNull (ordinal a) chk, None)) /\
  (forall p, d_count (dd_base p) = 0 ->
     avgOriginal4DistinctDecimal_AppendFinalResult2Chunk a p chk =
     (AppendNull (ordinal a) chk, None)) /\
  (forall p, f_count p = 0 ->
     baseAvgFloat64_AppendFinalResult2Chunk a p chk =
     (AppendNull (ordinal a) chk, None)) /\
  (forall p, f_count (fd_base p) = 0 ->
     avgOriginal4DistinctFloat64_AppendFinalResult2Chunk a p chk =
     (AppendNull (ordinal a) chk, None)) /\
  (forall p r, d_count p <> 0 ->
     DecimalDiv (d_sum p) (NewDecFromInt (d_count p)) DivFracIncr = (r, None) ->
     baseAvgDecimal_AppendFinalResult2Chunk a p chk =
     (AppendMyDecimal (ordinal a) r chk, None)) /\
  (forall p r, d_count (dd_base p) <> 0 ->
     DecimalDiv (d_sum (dd_base p)) (NewDecFromInt (d_count (dd_base p)))
       DivFracIncr = (r, None) ->
     avgOriginal4DistinctDecimal_AppendFinalResult2Chunk a p chk =
     (AppendMyDecimal (ordinal a) r chk, None)) /\
  (forall p r er, d_count p <> 0 ->
     DecimalDiv (d_sum p) (NewDecFromInt (d_count p)) DivFracIncr = (r, Some er) ->
     baseAvgDecimal_AppendFinalResult2Chunk a p chk = (chk, Some (Trace er))) /\
  (forall p r er, d_count (dd_base p) <> 0 ->
     DecimalDiv (d_sum (dd_base p)) (NewDecFromInt (d_count (dd_base p)))
       DivFracIncr = (r, Some er) ->
     avgOriginal4DistinctDecimal_AppendFinalResult2Chunk a p chk =
     (chk, Some (Trace er))) /\
  (forall p, f_count p <> 0 ->
     baseAvgFloat64_AppendFinalResult2Chunk a p chk =
     (AppendFloat64 (ordinal a)
        (PrimFloat.div (f_sum p) (float64_of_int64 (f_count p))) chk, None)) /\
  (forall p, f_count (fd_base p) <> 0 ->
     avgOriginal4DistinctFloat64_AppendFinalResult2Chunk a p chk =
     (AppendFloat64 (ordinal a)
        (PrimFloat.div (f_sum (fd_base p))
           (float64_of_int64 (f_count (fd_base p)))) chk, None)) /\
  singleWrite chk (AppendNull (ordinal a) chk) (ordinal a) CellNull /\
  (forall d, singleWrite chk (AppendMyDecimal (ordinal a) d chk) (ordinal a)
               (CellDecimal d)) /\
  (forall f, singleWrite chk (AppendFloat64 (ordinal a) f chk) (ordinal a)
               (CellFloat64 f)) /\
  (forall d, CellNull <> CellDecimal d) /\
  (forall f, CellNull <> CellFloat64 f).
Proof.
  unfold baseAvgDecimal_AppendFinalResult2Chunk,
    avgOriginal4DistinctDecimal_AppendFinalResult2Chunk,
    baseAvgFloat64_AppendFinalResult2Chunk,
    avgOriginal4DistinctFloat64_AppendFinalResult2Chunk.
  do 4 (split; [intros p H; rewrite H; reflexivity |]).
  do 2 (split; [intros p r H D; apply Z.eqb_neq in H; now rewrite H, D |]).
  do 2 (split; [intros p r er H D; apply Z.eqb_neq in H; now rewrite H, D |]).
  do 2 (split; [intros p H; apply Z.eqb_neq in H; now rewrite H |]).
  do 3 (split; [intros; apply appendCell_singleWrite |]).
  split; intros ?; discriminate.
Qed.

Variable dec_frac : MyDecimal -> Z.
Hypothesis dec_frac_nonneg : forall d, 0 <= dec_frac d.
Hypothesis NewDecFromInt_frac : forall n, dec_frac (NewDecFromInt n) = 0.
Hypothesis DecimalDiv_frac : forall x y r,
  DecimalDiv x y DivFracIncr = (r, None) ->
  dec_frac r = Z.max (dec_frac x) (dec_frac y) + DivFracIncr.

(** C7.  Decimal finalization with a count other than zero: the count is
    converted with NewDecFromInt, the sum is divided by it with DecimalDiv
    under DivFracIncr, and the quotient is what is appended.  For a decimal
    library whose division follows the fractional-increment convention
    (and whose integers have no fractional digits) the quotient has
    DivFracIncr fractional digits more than the sum. *)
Theorem decimal_finalize_division (a : baseAggFunc) (chk : Chunk) :
  (forall p r, d_count p <> 0 ->
     DecimalDiv (d_sum p) (NewDecFromInt (d_count p)) DivFracIncr = (r, None) ->
     baseAvgDecimal_AppendFinalResult2Chunk a p chk =
     (AppendMyDecimal (ordinal a) r chk, None) /\
     dec_frac r = dec_frac (d_sum p) + DivFracIncr) /\
  (forall p r, d_count (dd_base p) <> 0 ->
     DecimalDiv (d_sum (dd_base p)) (NewDecFromInt (d_count (dd_base p)))
       DivFracIncr = (r, None) ->
     avgOriginal4DistinctDecimal_AppendFinalResult2Chunk a p chk =
     (AppendMyDecimal (ordinal a) r chk, None) /\
     dec_frac r = dec_frac (d_sum (dd_base p)) + DivFracIncr).
Proof.
  unfold baseAvgDecimal_AppendFinalResult2Chunk,
    avgOriginal4DistinctDecimal_AppendFinalResult2Chunk.
  split; intros p r H D; apply Z.eqb_neq in H; rewrite H, D;
    (split; [reflexivity |]);
    rewrite (DecimalDiv_frac _ _ D), NewDecFromInt_frac;
    f_equal; apply Z.max_l, dec_frac_nonneg.
Qed.

End Finalize.

(** ** The zero state *)

Section ZeroState.
Context {X : Externals}.
Variable dec_value : MyDecimal -> Q.
Hypothesis zero_value : Qeq (dec_value MyDecimal_zero) 0.
Hypothesis NewDecFromInt_zero : Qeq (dec_value (NewDecFromInt 0)) 0.
Hypothesis newDecimalSet_empty : forall v, decimalSet_exist newDecimalSet v = false.
Hypothesis newFloat64Set_empty : forall v, float64Set_exist newFloat64Set v = false.

(** C8.  Allocation and reset.  A fresh partial result has count 0, a sum
    that denotes 0 and, in the distinct functions, a value set without
    members; a reset partial result has the same count, a sum of the same
    value and the same value set, whatever it held before.  For float64
    the reset partial result is the fresh one. *)
Theorem alloc_and_reset_give_the_zero_state :
  (d_count baseAvgDecimal_AllocPartialResult = 0 /\
   Qeq (dec_value (d_sum baseAvgDecimal_AllocPartialResult)) 0) /\
  (forall p,
     d_count (baseAvgDecimal_ResetPartialResult p) =
     d_count baseAvgDecimal_AllocPartialResult /\
     Qeq (dec_value (d_sum (baseAvgDecimal_ResetPartialResult p)))
         (dec_value (d_sum baseAvgDecimal_AllocPartialResult))) /\
  (d_count (dd_base avgOriginal4DistinctDecimal_AllocPartialResult) = 0 /\
   Qeq (dec_value (d_sum (dd_base avgOriginal4DistinctDecimal_AllocPartialResult))) 0 /\
   forall v,
     decimalSet_exist (dd_valSet avgOriginal4DistinctDecimal_AllocPartialResult) v
     = false) /\
  (forall p,
     d_count (dd_base (avgOriginal4DistinctDecimal_ResetPartialResult p)) =
     d_count (dd_base avgOriginal4DistinctDecimal_AllocPartialResult) /\
     Qeq (dec_value (d_sum (dd_base (avgOriginal4DistinctDecimal_ResetPartialResult p))))
         (dec_value (d_sum (dd_base avgOriginal4DistinctDecimal_AllocPartialResult))) /\
     dd_valSet (avgOriginal4DistinctDecimal_ResetPartialResult p) =
     dd_valSet avgOriginal4DistinctDecimal_AllocPartialResult) /\
  baseAvgFloat64_AllocPartialResult = {| f_sum := 0%float; f_count := 0 |} /\
  (forall p, baseAvgFloat64_ResetPartialResult p = baseAvgFloat64_AllocPartialResult) /\
  (fd_base avgOriginal4DistinctFloat64_AllocPartialResult =
   {| f_sum := 0%float; f_count := 0 |} /\
   forall v,
     float64Set_exist (fd_valSet avgOriginal4DistinctFloat64_AllocPartialResult) v
     = false) /\
  (forall p, avgOriginal4DistinctFloat64_ResetPartialResult p =
             avgOriginal4DistinctFloat64_AllocPartialResult).
Proof.
  cbn. repeat apply conj; try reflexivity; try assumption.
  - intros p. split; [reflexivity |]. now rewrite NewDecFromInt_zero, zero_value.
  - intros p. split; [reflexivity |]. split; [| reflexivity].
    now rewrite NewDecFromInt_zero, zero_value.
Qed.

End ZeroState.

(** The model's decimals have the properties asked of a decimal library. *)

Lemma model_dec_frac_nonneg (d : Model.Dec) : 0 <= Model.dec_frac d.
Proof. unfold Model.dec_frac. lia. Qed.

Lemma model_dec_div_frac (x y r : Model.Dec) :
  Model.dec_div x y 4 = (r, None) ->
  Model.dec_frac r = Z.max (Model.dec_frac x) (Model.dec_frac y) + 4.
Proof.
  unfold Model.dec_div, Model.dec_frac.
  destruct (Model.coef y =? 0); [discriminate |].
  destruct (Model.fits _); [| discriminate].
  intros H. inversion H; subst; clear H. cbn [Model.frac]. lia.
Qed.

(** Sum 12 over count 3 finalizes to 4.0000; a count of zero to NULL. *)
Lemma finalize_null_or_quotient_witness :
  let p := {| d_sum := NewDecFromInt 12; d_count := 3 |} in
  let r := {| Model.coef := 40000; Model.frac := 4 |} in
  d_count baseAvgDecimal_AllocPartialResult = 0 /\
  baseAvgDecimal_AppendFinalResult2Chunk Model.avgOfColumn
    baseAvgDecimal_AllocPartialResult Model.emptyChunk =
  (AppendNull 0 Model.emptyChunk, None) /\
  d_count p <> 0 /\
  DecimalDiv (d_sum p) (NewDecFromInt (d_count p)) DivFracIncr = (r, None) /\
  baseAvgDecimal_AppendFinalResult2Chunk Model.avgOfColumn p Model.emptyChunk =
  (AppendMyDecimal 0 r Model.emptyChunk, None).
Proof.
  intros p r.
  destruct (finalize_null_or_quotient Model.avgOfColumn Model.emptyChunk)
    as (H0 & _ & _ & _ & H1 & _).
  assert (N : d_count p <> 0) by discriminate.
  refine (conj eq_refl (conj (H0 baseAvgDecimal_AllocPartialResult eq_refl)
            (conj N (conj eq_refl _)))).
  exact (H1 p r N eq_refl).
Defined.

Lemma decimal_finalize_division_witness :
  let p := {| d_sum := {| Model.coef := 125; Model.frac := 1 |}; d_count := 5 |} in
  let r := {| Model.coef := 250000; Model.frac := 5 |} in
  (forall d : MyDecimal, 0 <= Model.dec_frac d) /\
  (forall n, Model.dec_frac (NewDecFromInt n) = 0) /\
  (forall x y q : MyDecimal,
      DecimalDiv x y DivFracIncr = (q, None) ->
      Model.dec_frac q = Z.max (Model.dec_frac x) (Model.dec_frac y) + DivFracIncr) /\
  d_count p <> 0 /\
  DecimalDiv (d_sum p) (NewDecFromInt (d_count p)) DivFracIncr = (r, None) /\
  baseAvgDecimal_AppendFinalResult2Chunk Model.avgOfColumn p Model.emptyChunk =
  (AppendMyDecimal 0 r Model.emptyChunk, None) /\
  Model.dec_frac r = Model.dec_frac (d_sum p) + DivFracIncr.
Proof.
  intros p r.
  assert (N : d_count p <> 0) by discriminate.
  assert (I : forall n, Model.dec_frac (NewDecFromInt n) = 0) by reflexivity.
  refine (conj model_dec_frac_nonneg (conj I (conj model_dec_div_frac
            (conj N (conj eq_refl _))))).
  exact (proj1 (decimal_finalize_division Model.dec_frac model_dec_frac_nonneg I
                  model_dec_div_frac Model.avgOfColumn Model.emptyChunk)
           p r N eq_refl).
Defined.

Lemma alloc_and_reset_give_the_zero_state_witness :
  let p := {| d_sum := NewDecFromInt 7; d_count := 3 |} in
  Qeq (Model.dec_value MyDecimal_zero) 0 /\
  Qeq (Model.dec_value (NewDecFromInt 0)) 0 /\
  (forall v, decimalSet_exist newDecimalSet v = false) /\
  (forall v, float64Set_exist newFloat64Set v = false) /\
  d_count (baseAvgDecimal_ResetPartialResult p) =
  d_count baseAvgDecimal_AllocPartialResult /\
  Qeq (Model.dec_value (d_sum (baseAvgDecimal_ResetPartialResult p)))
      (Model.dec_value (d_sum baseAvgDecimal_AllocPartialResult)).
Proof.
  intros p.
  assert (Z0 : Qeq (Model.dec_value MyDecimal_zero) 0) by reflexivity.
  assert (I0 : Qeq (Model.dec_value (NewDecFromInt 0)) 0) by reflexivity.
  assert (D : forall v, decimalSet_exist newDecimalSet v = false) by reflexivity.
  assert (F : forall v, float64Set_exist newFloat64Set v = false) by reflexivity.
  refine (conj Z0 (conj I0 (conj D (conj F _)))).
  exact (proj1 (proj2 (alloc_and_reset_give_the_zero_state Model.dec_value
                         Z0 I0 D F)) p).
Defined.

(** ** Distinct updates *)

Section Distinct.
Context {X : Externals}.
Variables (e : baseAggFunc) (input : Expression).
Hypothesis He : nth_error (args e) 0 = Some input.

Lemma avgOriginal4DistinctDecimal_members (rows : list Row)
    (p : partialResult4AvgDistinctDecimal) (v : MyDecimal) :
  Forall (fun row => EvalDecimal input row = (v, false, None)) rows ->
  decimalSet_exist (dd_valSet p) v = true ->
  exists l, avgOriginal4DistinctDecimal_UpdatePartialResult e rows p = (p, l, None).
Proof.
  unfold avgOriginal4DistinctDecimal_UpdatePartialResult.
  intros F Hin. induction F as [| row rest Ev F IH].
  - exists []. apply runUpdate_nil.
  - destruct IH as [l IH].
    rewrite (runUpdate_cons (avgOriginal4DistinctDecimal_uniform e)).
    unfold rowStep.
    change (runUpdate (avgOriginal4DistinctDecimal_body e) [row] p)
      with (avgOriginal4DistinctDecimal_UpdatePartialResult e [row] p).
    rewrite (avgOriginal4DistinctDecimal_row e He), Ev, Hin. cbn.
    rewrite IH. eauto.
Qed.

Lemma avgOriginal4DistinctFloat64_members (rows : list Row)
    (p : partialResult4AvgDistinctFloat64) (v : float) :
  Forall (fun row => EvalReal input row = (v, false, None)) rows ->
  float64Set_exist (fd_valSet p) v = true ->
  exists l, avgOriginal4DistinctFloat64_UpdatePartialResult e rows p = (p, l, None).
Proof.
  unfold avgOriginal4DistinctFloat64_UpdatePartialResult.
  intros F Hin. induction F as [| row rest Ev F IH].
  - exists []. apply runUpdate_nil.
  - destruct IH as [l IH].
    rewrite (runUpdate_cons (avgOriginal4DistinctFloat64_uniform e)).
    unfold rowStep.
    change (runUpdate (avgOriginal4DistinctFloat64_body e) [row] p)
      with (avgOriginal4DistinctFloat64_UpdatePartialResult e [row] p).
    rewrite (avgOriginal4DistinctFloat64_row e He), Ev, Hin. cbn.
    rewrite IH. eauto.
Qed.

Hypothesis decimalSet_exist_insert :
  forall s v, decimalSet_exist (decimalSet_insert s v) v = true.
Hypothesis float64Set_exist_insert :
  forall s v, PrimFloat.eqb v v = true ->
              float64Set_exist (float64Set_insert s v) v = true.

(** C4.  Distinct updates, decimal and float64.  A row whose value is
    already in the value set changes nothing.  A row whose value is not in
    the set is accumulated (sum, and count by one) and inserted.  A run of
    one or more rows of the same value, starting with the value absent,
    contributes the value once to the sum and to the count.  (For float64
    the value must be equal to itself, which excludes NaN.) *)
Theorem distinct_update_counts_a_value_once :
  (forall row p v,
      EvalDecimal input row = (v, false, None) ->
      decimalSet_exist (dd_valSet p) v = true ->
      avgOriginal4DistinctDecimal_UpdatePartialResult e [row] p =
      (p, [mkCall 0 row None], None)) /\
  (forall row p v s,
      EvalDecimal input row = (v, false, None) ->
      decimalSet_exist (dd_valSet p) v = false ->
      DecimalAdd (d_sum (dd_base p)) v = (s, None) ->
      avgOriginal4DistinctDecimal_UpdatePartialResult e [row] p =
      ({| dd_base := {| d_sum := s;
                        d_count := int64_wrap (d_count (dd_base p) + 1) |};
          dd_valSet := decimalSet_insert (dd_valSet p) v |},
       [mkCall 0 row None], None)) /\
  (forall row rows p v s,
      Forall (fun r => EvalDecimal input r = (v, false, None)) (row :: rows) ->
      decimalSet_exist (dd_valSet p) v = false ->
      DecimalAdd (d_sum (dd_base p)) v = (s, None) ->
      exists l,
        avgOriginal4DistinctDecimal_UpdatePartialResult e (row :: rows) p =
        ({| dd_base := {| d_sum := s;
                          d_count := int64_wrap (d_count (dd_base p) + 1) |};
            dd_valSet := decimalSet_insert (dd_valSet p) v |}, l, None)) /\
  (forall row p v,
      EvalReal input row = (v, false, None) ->
      float64Set_exist (fd_valSet p) v = true ->
      avgOriginal4DistinctFloat64_UpdatePartialResult e [row] p =
      (p, [mkCall 0 row None], None)) /\
  (forall row p v,
      EvalReal input row = (v, false, None) ->
      float64Set_exist (fd_valSet p) v = false ->
      avgOriginal4DistinctFloat64_UpdatePartialResult e [row] p =
      ({| fd_base := {| f_sum := PrimFloat.add (f_sum (fd_base p)) v;
                        f_count := int64_wrap (f_count (fd_base p) + 1) |};
          fd_valSet := float64Set_insert (fd_valSet p) v |},
       [mkCall 0 row None], None)) /\
  (forall row rows p v,
      Forall (fun r => EvalReal input r = (v, false, None)) (row :: rows) ->
      float64Set_exist (fd_valSet p) v = false ->
      PrimFloat.eqb v v = true ->
      exists l,
        avgOriginal4DistinctFloat64_UpdatePartialResult e (row :: rows) p =
        ({| fd_base := {| f_sum := PrimFloat.add (f_sum (fd_base p)) v;
                          f_count := int64_wrap (f_count (fd_base p) + 1) |};
            fd_valSet := float64Set_insert (fd_valSet p) v |}, l, None)).
Proof.
  split; [| split; [| split; [| split; [| split]]]].
  - intros row p v Ev Hin.
    rewrite (avgOriginal4DistinctDecimal_row e He), Ev, Hin. reflexivity.
  - intros row p v s Ev Hout A.
    rewrite (avgOriginal4DistinctDecimal_row e He), Ev, Hout, A. reflexivity.
  - intros row rows p v s F Hout A. inversion F as [| ? ? Ev F']; subst.
    unfold avgOriginal4DistinctDecimal_UpdatePartialResult.
    rewrite (runUpdate_cons (avgOriginal4DistinctDecimal_uniform e)).
    unfold rowStep.
    change (runUpdate (avgOriginal4DistinctDecimal_body e) [row] p)
      with (avgOriginal4DistinctDecimal_UpdatePartialResult e [row] p).
    rewrite (avgOriginal4DistinctDecimal_row e He), Ev, Hout, A. cbn.
    match goal with
    | |- context [runUpdate _ rows ?q] =>
        destruct (avgOriginal4DistinctDecimal_members q F') as [l R]
    end.
    + apply decimalSet_exist_insert.
    + unfold avgOriginal4DistinctDecimal_UpdatePartialResult in R.
      rewrite R. eauto.
  - intros row p v Ev Hin.
    rewrite (avgOriginal4DistinctFloat64_row e He), Ev, Hin. reflexivity.
  - intros row p v Ev Hout.
    rewrite (avgOriginal4DistinctFloat64_row e He), Ev, Hout. reflexivity.
  - intros row rows p v F Hout Hv. inversion F as [| ? ? Ev F']; subst.
    unfold avgOriginal4DistinctFloat64_UpdatePartialResult.
    rewrite (runUpdate_cons (avgOriginal4DistinctFloat64_uniform e)).
    unfold rowStep.
    change (runUpdate (avgOriginal4DistinctFloat64_body e) [row] p)
      with (avgOriginal4DistinctFloat64_UpdatePartialResult e [row] p).
    rewrite (avgOriginal4DistinctFloat64_row e He), Ev, Hout. cbn.
    match goal with
    | |- context [runUpdate _ rows ?q] =>
        destruct (avgOriginal4DistinctFloat64_members q F') as [l R]
    end.
    + now apply float64Set_exist_insert.
    + unfold avgOriginal4DistinctFloat64_UpdatePartialResult in R.
      rewrite R. eauto.
Qed.

End Distinct.

Lemma model_decimalSet_exist_insert (s : decimalSet) (v : MyDecimal) :
  decimalSet_exist (decimalSet_insert s v) v = true.
Proof.
  cbn. unfold Model.dec_eqb at 1. now rewrite Z.eqb_refl.
Qed.

Lemma model_float64Set_exist_insert (s : float64Set) (v : float) :
  PrimFloat.eqb v v = true -> float64Set_exist (float64Set_insert s v) v = true.
Proof. intros H. cbn. now rewrite H. Qed.

(** The value 1 three times over: sum 1, count 1, and 1 in the set. *)
Lemma distinct_update_counts_a_value_once_witness :
  let one := Model.decRow 1 0 in
  let v : MyDecimal := NewDecFromInt 1 in
  let p := avgOriginal4DistinctDecimal_AllocPartialResult in
  nth_error (args Model.avgOfColumn) 0 = Some (Model.Column 0) /\
  Forall (fun r => EvalDecimal (Model.Column 0) r = (v, false, None))
    [one; one; one] /\
  decimalSet_exist (dd_valSet p) v = false /\
  DecimalAdd (d_sum (dd_base p)) v = (v, None) /\
  exists l,
    avgOriginal4DistinctDecimal_UpdatePartialResult Model.avgOfColumn
      [one; one; one] p =
    ({| dd_base := {| d_sum := v; d_count := 1 |}; dd_valSet := [v] |}, l, None).
Proof.
  intros one v p.
  assert (F : Forall (fun r => EvalDecimal (Model.Column 0) r = (v, false, None))
                [one; one; one]) by (repeat constructor).
  refine (conj eq_refl (conj F (conj eq_refl (conj eq_refl _)))).
  destruct (distinct_update_counts_a_value_once Model.avgOfColumn
              (input := Model.Column 0) eq_refl
              model_decimalSet_exist_insert model_float64Set_exist_insert)
    as (_ & _ & T & _).
  exact (T one [one; one] p v v F eq_refl eq_refl).
Defined.

(** ** Merging updates *)

Section Merge.
Context {X : Externals}.
Variables (m : baseAggFunc) (inputCount inputSum : Expression).
Hypothesis Hm0 : nth_error (args m) 0 = Some inputCount.
Hypothesis Hm1 : nth_error (args m) 1 = Some inputSum.

Lemma avgPartial4Decimal_run (rows : list Row) (p p' : partialResult4AvgDecimal)
    (l : list EvalCall) :
  in_int64 (d_count p) ->
  avgPartial4Decimal_UpdatePartialResult m rows p = (p', l, None) ->
  let pairs := decimalPairs inputCount inputSum rows in
  decimalAddAll (d_sum p) (map fst pairs) = Some (d_sum p') /\
  d_count p' = int64_wrap (d_count p + sumZ (map snd pairs)).
Proof.
  unfold avgPartial4Decimal_UpdatePartialResult.
  revert p l. induction rows as [| row rest IH]; intros p l Hp H.
  - rewrite runUpdate_nil in H. inversion H; subst. cbn.
    now rewrite Z.add_0_r, int64_wrap_small.
  - rewrite (runUpdate_cons (avgPartial4Decimal_uniform m)) in H.
    unfold rowStep in H.
    change (runUpdate (avgPartial4Decimal_body m) [row] p)
      with (avgPartial4Decimal_UpdatePartialResult m [row] p) in H.
    rewrite (avgPartial4Decimal_row m Hm0 Hm1) in H.
    unfold decimalPairs. cbn [flat_map].
    fold (decimalPairs inputCount inputSum rest).
    destruct (EvalDecimal inputSum row) as [[s [|]] [er |]]; try discriminate.
    + destruct (runUpdate _ rest p) as [[p2 l2] r] eqn:E.
      inversion H; subst. now apply IH in E.
    + destruct (EvalInt inputCount row) as [[c [|]] [er |]]; try discriminate.
      * destruct (runUpdate _ rest p) as [[p2 l2] r] eqn:E.
        inversion H; subst. now apply IH in E.
      * destruct (DecimalAdd (d_sum p) s) as [s' [er |]] eqn:A; try discriminate.
        destruct (runUpdate _ rest _) as [[p2 l2] r] eqn:E.
        inversion H; subst.
        apply IH in E; [| apply int64_wrap_range]. destruct E as (S & C).
        cbn [d_sum d_count] in S, C.
        cbn [app map fst snd decimalAddAll sumZ fold_right]. rewrite A.
        split; [exact S |].
        rewrite C, int64_wrap_add_l. f_equal.
        fold (sumZ (map snd (decimalPairs inputCount inputSum rest))). lia.
Qed.

Lemma avgPartial4Float64_run (rows : list Row) (p p' : partialResult4AvgFloat64)
    (l : list EvalCall) :
  in_int64 (f_count p) ->
  avgPartial4Float64_UpdatePartialResult m rows p = (p', l, None) ->
  let pairs := realPairs inputCount inputSum rows in
  float64AddAll (f_sum p) (map fst pairs) = f_sum p' /\
  f_count p' = int64_wrap (f_count p + sumZ (map snd pairs)).
Proof.
  unfold avgPartial4Float64_UpdatePartialResult.
  revert p l. induction rows as [| row rest IH]; intros p l Hp H.
  - rewrite runUpdate_nil in H. inversion H; subst. cbn.
    now rewrite Z.add_0_r, int64_wrap_small.
  - rewrite (runUpdate_cons (avgPartial4Float64_uniform m)) in H.
    unfold rowStep in H.
    change (runUpdate (avgPartial4Float64_body m) [row] p)
      with (avgPartial4Float64_UpdatePartialResult m [row] p) in H.
    rewrite (avgPartial4Float64_row m Hm0 Hm1) in H.
    unfold realPairs. cbn [flat_map].
    fold (realPairs inputCount inputSum rest).
    destruct (EvalReal inputSum row) as [[s [|]] [er |]]; try discriminate.
    + destruct (runUpdate _ rest p) as [[p2 l2] r] eqn:E.
      inversion H; subst. now apply IH in E.
    + destruct (EvalInt inputCount row) as [[c [|]] [er |]]; try discriminate.
      * destruct (runUpdate _ rest p) as [[p2 l2] r] eqn:E.
        inversion H; subst. now apply IH in E.
      * destruct (runUpdate _ rest _) as [[p2 l2] r] eqn:E.
        inversion H; subst.
        apply IH in E; [| apply int64_wrap_range]. destruct E as (S & C).
        cbn [f_sum f_count] in S, C.
        cbn [app map fst snd sumZ fold_right].
        split; [exact S |].
        rewrite C, int64_wrap_add_l. f_equal.
        fold (sumZ (map snd (realPairs inputCount inputSum rest))). lia.
Qed.

(** C5, as the code has it.  A merging update evaluates the sum argument
    of a row first.  When the sum is null the row is skipped and the count
    argument is not evaluated.  Otherwise the count argument is evaluated;
    when it is null the row is skipped; when both are values the sum is
    added to the partial sum (DecimalAdd, or float64 addition) and the
    count to the partial count.  A call that returns nil has added the
    pairs of the rows where both arguments are values, in row order. *)
Theorem merge_update_row_by_row :
  (forall row p s,
      EvalDecimal inputSum row = (s, true, None) ->
      avgPartial4Decimal_UpdatePartialResult m [row] p =
      (p, [mkCall 1 row None], None)) /\
  (forall row p s c,
      EvalDecimal inputSum row = (s, false, None) ->
      EvalInt inputCount row = (c, true, None) ->
      avgPartial4Decimal_UpdatePartialResult m [row] p =
      (p, [mkCall 1 row None; mkCall 0 row None], None)) /\
  (forall row p s c s',
      EvalDecimal inputSum row = (s, false, None) ->
      EvalInt inputCount row = (c, false, None) ->
      DecimalAdd (d_sum p) s = (s', None) ->
      avgPartial4Decimal_UpdatePartialResult m [row] p =
      ({| d_sum := s'; d_count := int64_wrap (d_count p + c) |},
       [mkCall 1 row None; mkCall 0 row None], None)) /\
  (forall rows p p' l,
      in_int64 (d_count p) ->
      avgPartial4Decimal_UpdatePartialResult m rows p = (p', l, None) ->
      let pairs := decimalPairs inputCount inputSum rows in
      decimalAddAll (d_sum p) (map fst pairs) = Some (d_sum p') /\
      d_count p' = int64_wrap (d_count p + sumZ (map snd pairs))) /\
  (forall row p s,
      EvalReal inputSum row = (s, true, None) ->
      avgPartial4Float64_UpdatePartialResult m [row] p =
      (p, [mkCall 1 row None], None)) /\
  (forall row p s c,
      EvalReal inputSum row = (s, false, None) ->
      EvalInt inputCount row = (c, true, None) ->
      avgPartial4Float64_UpdatePartialResult m [row] p =
      (p, [mkCall 1 row None; mkCall 0 row None], None)) /\
  (forall row p s c,
      EvalReal inputSum row = (s, false, None) ->
      EvalInt inputCount row = (c, false, None) ->
      avgPartial4Float64_UpdatePartialResult m [row] p =
      ({| f_sum := PrimFloat.add (f_sum p) s;
          f_count := int64_wrap (f_count p + c) |},
       [mkCall 1 row None; mkCall 0 row None], None)) /\
  (forall rows p p' l,
      in_int64 (f_count p) ->
      avgPartial4Float64_UpdatePartialResult m rows p = (p', l, None) ->
      let pairs := realPairs inputCount inputSum rows in
      float64AddAll (f_sum p) (map fst pairs) = f_sum p' /\
      f_count p' = int64_wrap (f_count p + sumZ (map snd pairs))).
Proof.
  split; [| split; [| split; [| split; [| split; [| split; [| split]]]]]].
  - intros row p s E1. now rewrite (avgPartial4Decimal_row m Hm0 Hm1), E1.
  - intros row p s c E1 E0. now rewrite (avgPartial4Decimal_row m Hm0 Hm1), E1, E0.
  - intros row p s c s' E1 E0 A.
    now rewrite (avgPartial4Decimal_row m Hm0 Hm1), E1, E0, A.
  - intros rows p p' l Hp H. now apply avgPartial4Decimal_run in H.
  - intros row p s E1. now rewrite (avgPartial4Float64_row m Hm0 Hm1), E1.
  - intros row p s c E1 E0. now rewrite (avgPartial4Float64_row m Hm0 Hm1), E1, E0.
  - intros row p s c E1 E0.
    now rewrite (avgPartial4Float64_row m Hm0 Hm1), E1, E0.
  - intros rows p p' l Hp H. now apply avgPartial4Float64_run in H.
Qed.

End Merge.

(** Example 2 of the spec: the pairs (sum 10, count 2) and (sum 20, count 3),
    with a pair of null sum between them, merge to sum 30, count 5. *)
Lemma merge_update_row_by_row_witness :
  let rows := [Model.decPair 2 10; [Model.DInt 7; Model.DNull]; Model.decPair 3 20] in
  let p' := {| d_sum := NewDecFromInt 30; d_count := 5 |} in
  let l := [mkCall 1 (Model.decPair 2 10) None; mkCall 0 (Model.decPair 2 10) None;
            mkCall 1 [Model.DInt 7; Model.DNull] None;
            mkCall 1 (Model.decPair 3 20) None; mkCall 0 (Model.decPair 3 20) None] in
  nth_error (args Model.avgOfPartials) 0 = Some (Model.Column 0) /\
  nth_error (args Model.avgOfPartials) 1 = Some (Model.Column 1) /\
  in_int64 (d_count baseAvgDecimal_AllocPartialResult) /\
  avgPartial4Decimal_UpdatePartialResult Model.avgOfPartials rows
    baseAvgDecimal_AllocPartialResult = (p', l, None) /\
  decimalAddAll MyDecimal_zero
    (map fst (decimalPairs (Model.Column 0) (Model.Column 1) rows)) =
  Some (d_sum p') /\
  d_count p' =
  int64_wrap (0 + sumZ (map snd (decimalPairs (Model.Column 0) (Model.Column 1) rows))).
Proof.
  intros rows p' l.
  assert (Hr : in_int64 (d_count baseAvgDecimal_AllocPartialResult))
    by (unfold in_int64; cbn; lia).
  refine (conj eq_refl (conj eq_refl (conj Hr (conj eq_refl _)))).
  destruct (merge_update_row_by_row Model.avgOfPartials
              (inputCount := Model.Column 0) (inputSum := Model.Column 1)
              eq_refl eq_refl) as (_ & _ & _ & T & _).
  exact (T rows baseAvgDecimal_AllocPartialResult p' l Hr eq_refl).
Defined.

(** C5 as stated fails: on a row whose sum is NULL the count argument is
    not evaluated.  Here the count column is unreadable, so an evaluation
    of it would have been an error; the call reads the sum only and
    returns nil. *)
Lemma merge_update_leaves_count_unevaluated :
  let row : Row := [Model.DBad; Model.DNull] in
  EvalDecimal (Model.Column 1) row = (MyDecimal_zero, true, None) /\
  snd (EvalInt (Model.Column 0) row) = Some Model.ErrEval /\
  avgPartial4Decimal_UpdatePartialResult Model.avgOfPartials [row]
    baseAvgDecimal_AllocPartialResult =
  (baseAvgDecimal_AllocPartialResult, [mkCall 1 row None], None) /\
  avgPartial4Float64_UpdatePartialResult Model.avgOfPartials [row]
    baseAvgFloat64_AllocPartialResult =
  (baseAvgFloat64_AllocPartialResult, [mkCall 1 row None], None) /\
  ~ (forall r, In r [row] ->
       exists c1 c0,
         In c1 (snd (fst (avgPartial4Decimal_UpdatePartialResult
                            Model.avgOfPartials [row]
                            baseAvgDecimal_AllocPartialResult))) /\
         ec_arg c1 = 1%nat /\ ec_row c1 = r /\
         In c0 (snd (fst (avgPartial4Decimal_UpdatePartialResult
                            Model.avgOfPartials [row]
                            baseAvgDecimal_AllocPartialResult))) /\
         ec_arg c0 = 0%nat /\ ec_row c0 = r).
Proof.
  intros row.
  refine (conj eq_refl (conj eq_refl (conj eq_refl (conj eq_refl _)))).
  intros H. destruct (H row (or_introl eq_refl)) as (c1 & c0 & _ & _ & _ & I0 & A0 & _).
  cbn in I0. destruct I0 as [<- | []]. discriminate.
Qed.

(** ** Merging partial results *)

Lemma sumQ_app (l l' : list Q) : Qeq (sumQ (l ++ l')) (sumQ l + sumQ l').
Proof.
  unfold sumQ. induction l as [| x l IH]; cbn [app fold_right].
  - ring.
  - rewrite IH. ring.
Qed.

Lemma sumQ_Permutation (l l' : list Q) : Permutation l l' -> Qeq (sumQ l) (sumQ l').
Proof.
  unfold sumQ.
  induction 1 as [| x l l' _ IH | x y l | l l' l'' _ IH1 _ IH2];
    cbn [fold_right].
  - reflexivity.
  - now rewrite IH.
  - ring.
  - now rewrite IH1.
Qed.

Lemma sumZ_Permutation (l l' : list Z) : Permutation l l' -> sumZ l = sumZ l'.
Proof.
  induction 1 as [| x l l' _ IH | x y l | l l' l'' _ IH1 _ IH2]; cbn.
  - reflexivity.
  - fold (sumZ l). fold (sumZ l'). now rewrite IH.
  - fold (sumZ l). lia.
  - now rewrite IH1.
Qed.

Section Mergeability.
Context {X : Externals}.
Variables (e : baseAggFunc) (input : Expression).
Hypothesis He : nth_error (args e) 0 = Some input.
Variables (m : baseAggFunc) (inputCount inputSum : Expression).
Hypothesis Hm0 : nth_error (args m) 0 = Some inputCount.
Hypothesis Hm1 : nth_error (args m) 1 = Some inputSum.
Variable dec_value : MyDecimal -> Q.
Hypothesis zero_value : Qeq (dec_value MyDecimal_zero) 0.
Hypothesis DecimalAdd_exact : forall a b c,
  DecimalAdd a b = (c, None) -> Qeq (dec_value c) (dec_value a + dec_value b).

Lemma decimalAddAll_value (vs : list MyDecimal) (a b : MyDecimal) :
  decimalAddAll a vs = Some b ->
  Qeq (dec_value b) (dec_value a + sumQ (map dec_value vs)).
Proof.
  unfold sumQ. revert a.
  induction vs as [| v vs IH]; intros a H;
    cbn [decimalAddAll map fold_right] in *.
  - inversion H; subst. ring.
  - destruct (DecimalAdd a v) as [s [er |]] eqn:A; [discriminate |].
    rewrite (IH _ H), (DecimalAdd_exact _ _ A). ring.
Qed.

Lemma fresh_count_in_int64 : in_int64 (d_count baseAvgDecimal_AllocPartialResult).
Proof. unfold in_int64. cbn. lia. Qed.

Lemma partials_sum_up (parts : list (list Row)) (partials : list Row) :
  Forall2 (carriesPartial e inputCount inputSum) parts partials ->
  let pairs := decimalPairs inputCount inputSum partials in
  let inputs := decimalInputs input (concat parts) in
  Qeq (sumQ (map dec_value (map fst pairs))) (sumQ (map dec_value inputs)) /\
  int64_wrap (sumZ (map snd pairs)) = int64_wrap (Z.of_nat (length inputs)).
Proof.
  induction 1 as [| part prow parts partials (pi & li & R & Es & Ec) _ IH].
  - cbn. split; reflexivity.
  - destruct IH as [IHs IHc].
    apply (avgOriginal4Decimal_run e He) in R; [| apply fresh_count_in_int64].
    destruct R as (_ & S & C). apply decimalAddAll_value in S.
    cbn [baseAvgDecimal_AllocPartialResult d_sum d_count] in S, C.
    rewrite zero_value in S.
    unfold decimalPairs, decimalInputs. cbn [flat_map concat].
    rewrite Es, Ec, flat_map_app.
    fold (decimalPairs inputCount inputSum partials).
    fold (decimalInputs input part). fold (decimalInputs input (concat parts)).
    cbn [app map fst snd sumQ sumZ fold_right].
    fold (sumQ (map dec_value (map fst (decimalPairs inputCount inputSum partials)))).
    fold (sumZ (map snd (decimalPairs inputCount inputSum partials))).
    split.
    + rewrite map_app, sumQ_app, IHs, S. ring.
    + rewrite length_app, Nat2Z.inj_add, C.
      rewrite int64_wrap_add_l, <- int64_wrap_add_r, IHc, int64_wrap_add_r.
      reflexivity.
Qed.

(** C1.  Mergeability.  Cut the rows of a group into parts in any way, run
    the original-phase decimal update on each part from a fresh partial
    result, and hand the resulting (sum, count) pairs, in any order, to the
    merging decimal update.  When that call and the original-phase update
    over the whole group (its rows in any order) both return nil, they end
    with the same count and with sums of the same value.  The decimal
    library is only asked that a successful DecimalAdd is exact and that
    the zero value of MyDecimal denotes 0. *)
Theorem merging_partitions_equals_whole
    (parts : list (list Row)) (whole partials mrows : list Row)
    (P Q : partialResult4AvgDecimal) (lP lQ : list EvalCall) :
  Permutation whole (concat parts) ->
  Forall2 (carriesPartial e inputCount inputSum) parts partials ->
  Permutation mrows partials ->
  avgOriginal4Decimal_UpdatePartialResult e whole
    baseAvgDecimal_AllocPartialResult = (P, lP, None) ->
  avgPartial4Decimal_UpdatePartialResult m mrows
    baseAvgDecimal_AllocPartialResult = (Q, lQ, None) ->
  Qeq (dec_value (d_sum Q)) (dec_value (d_sum P)) /\ d_count Q = d_count P.
Proof.
  intros Hw Hp Hm RP RQ.
  apply (avgOriginal4Decimal_run e He) in RP; [| apply fresh_count_in_int64].
  destruct RP as (_ & SP & CP). apply decimalAddAll_value in SP.
  apply (avgPartial4Decimal_run m Hm0 Hm1) in RQ; [| apply fresh_count_in_int64].
  destruct RQ as (SQ & CQ). apply decimalAddAll_value in SQ.
  cbn [baseAvgDecimal_AllocPartialResult d_sum d_count] in SP, CP, SQ, CQ.
  destruct (partials_sum_up Hp) as [Hs Hc].
  assert (Hpairs : Permutation (decimalPairs inputCount inputSum mrows)
                     (decimalPairs inputCount inputSum partials))
    by (apply Permutation_flat_map, Hm).
  assert (Hinputs : Permutation (decimalInputs input whole)
                      (decimalInputs input (concat parts)))
    by (apply Permutation_flat_map, Hw).
  split.
  - rewrite SQ, SP.
    rewrite (sumQ_Permutation (Permutation_map dec_value (Permutation_map fst Hpairs))).
    rewrite (sumQ_Permutation (Permutation_map dec_value Hinputs)).
    now rewrite Hs.
  - rewrite CQ, CP, !Z.add_0_l.
    rewrite (sumZ_Permutation (Permutation_map snd Hpairs)), Hc.
    now rewrite (Permutation_length Hinputs).
Qed.

End Mergeability.

(** The model's addition is exact. *)

Lemma model_pow10_pos (n : nat) : 0 < Model.pow10 n.
Proof. unfold Model.pow10. apply Z.pow_pos_nonneg; lia. Qed.

Lemma model_pow10_nonzero (n : nat) : ~ Qeq (inject_Z (Model.pow10 n)) 0.
Proof.
  pose proof (model_pow10_pos n) as H. unfold Qeq. cbn. lia.
Qed.

Lemma model_pow10_add (k n : nat) :
  Model.pow10 (k + n) = Model.pow10 k * Model.pow10 n.
Proof.
  unfold Model.pow10. rewrite Nat2Z.inj_add. apply Z.pow_add_r; lia.
Qed.

Lemma model_value_scale (c : Z) (k n : nat) :
  Qeq (inject_Z (c * Model.pow10 k) / inject_Z (Model.pow10 (k + n)))
      (inject_Z c / inject_Z (Model.pow10 n)).
Proof.
  rewrite model_pow10_add, !inject_Z_mult.
  field. split; apply model_pow10_nonzero.
Qed.

Lemma model_DecimalAdd_exact (a b c : MyDecimal) :
  DecimalAdd a b = (c, None) ->
  Qeq (Model.dec_value c) (Model.dec_value a + Model.dec_value b).
Proof.
  cbn. unfold Model.dec_add.
  destruct (Model.fits _); [| discriminate].
  intros H. inversion H; subst; clear H.
  unfold Model.dec_value. cbn [Model.coef Model.frac].
  set (f := Nat.max (Model.frac a) (Model.frac b)).
  rewrite inject_Z_plus.
  transitivity
    (inject_Z (Model.coef a * Model.pow10 (f - Model.frac a))
       / inject_Z (Model.pow10 f) +
     inject_Z (Model.coef b * Model.pow10 (f - Model.frac b))
       / inject_Z (Model.pow10 f))%Q.
  - field. apply model_pow10_nonzero.
  - replace f with ((f - Model.frac a) + Model.frac a)%nat at 2 by lia.
    replace f with ((f - Model.frac b) + Model.frac b)%nat at 4 by lia.
    now rewrite !model_value_scale.
Qed.

(** The group [2, 4, 6] cut into [2, 4] and [6], merged in the other
    order, against the whole group read as [6, 2, 4]. *)
Lemma merging_partitions_equals_whole_witness :
  let parts := [[Model.decRow 2 0; Model.decRow 4 0]; [Model.decRow 6 0]] in
  let whole := [Model.decRow 6 0; Model.decRow 2 0; Model.decRow 4 0] in
  let partials := [Model.decPair 2 6; Model.decPair 1 6] in
  let mrows := [Model.decPair 1 6; Model.decPair 2 6] in
  let P := {| d_sum := NewDecFromInt 12; d_count := 3 |} in
  nth_error (args Model.avgOfColumn) 0 = Some (Model.Column 0) /\
  nth_error (args Model.avgOfPartials) 0 = Some (Model.Column 0) /\
  nth_error (args Model.avgOfPartials) 1 = Some (Model.Column 1) /\
  Qeq (Model.dec_value MyDecimal_zero) 0 /\
  Permutation whole (concat parts) /\
  Forall2 (carriesPartial Model.avgOfColumn (Model.Column 0) (Model.Column 1))
    parts partials /\
  Permutation mrows partials /\
  fst (avgOriginal4Decimal_UpdatePartialResult Model.avgOfColumn whole
         baseAvgDecimal_AllocPartialResult) =
  (P, [mkCall 0 (Model.decRow 6 0) None; mkCall 0 (Model.decRow 2 0) None;
       mkCall 0 (Model.decRow 4 0) None]) /\
  fst (avgPartial4Decimal_UpdatePartialResult Model.avgOfPartials mrows
         baseAvgDecimal_AllocPartialResult) =
  (P, [mkCall 1 (Model.decPair 1 6) None; mkCall 0 (Model.decPair 1 6) None;
       mkCall 1 (Model.decPair 2 6) None; mkCall 0 (Model.decPair 2 6) None]) /\
  Qeq (Model.dec_value (d_sum P)) (Model.dec_value (d_sum P)) /\
  d_count P = d_count P.
Proof.
  intros parts whole partials mrows P.
  assert (Z0 : Qeq (Model.dec_value MyDecimal_zero) 0) by reflexivity.
  assert (Hw : Permutation whole (concat parts)).
  { apply (Permutation_cons_app [Model.decRow 2 0; Model.decRow 4 0] []).
    apply Permutation_refl. }
  assert (Hp : Forall2 (carriesPartial Model.avgOfColumn (Model.Column 0)
                          (Model.Column 1)) parts partials).
  { constructor; [| constructor; [| constructor]].
    - exists {| d_sum := NewDecFromInt 6; d_count := 2 |},
        [mkCall 0 (Model.decRow 2 0) None; mkCall 0 (Model.decRow 4 0) None].
      repeat split.
    - exists {| d_sum := NewDecFromInt 6; d_count := 1 |},
        [mkCall 0 (Model.decRow 6 0) None].
      repeat split. }
  assert (Hm : Permutation mrows partials) by apply perm_swap.
  refine (conj eq_refl (conj eq_refl (conj eq_refl (conj Z0 (conj Hw
            (conj Hp (conj Hm (conj eq_refl (conj eq_refl _))))))))).
  exact (merging_partitions_equals_whole (e := Model.avgOfColumn)
           (input := Model.Column 0) eq_refl Model.avgOfPartials
           (inputCount := Model.Column 0) (inputSum := Model.Column 1)
           eq_refl eq_refl Model.dec_value Z0 model_DecimalAdd_exact
           Hw Hp Hm eq_refl eq_refl).
Defined.

(** ** The examples of the spec, run on the model *)

(** Example 1: decimal inputs [2, 4, 6] give sum 12, count 3 and the final
    value 4.0000. *)
Example spec_example_decimal_inputs :
  let '(p, _, err) :=
    avgOriginal4Decimal_UpdatePartialResult Model.avgOfColumn
      [Model.decRow 2 0; Model.decRow 4 0; Model.decRow 6 0]
      baseAvgDecimal_AllocPartialResult in
  p = {| d_sum := NewDecFromInt 12; d_count := 3 |} /\ err = None /\
  fst (baseAvgDecimal_AppendFinalResult2Chunk Model.avgOfColumn p
         Model.emptyChunk) 0%nat =
  [CellDecimal {| Model.coef := 40000; Model.frac := 4 |}].
Proof. cbv beta iota. repeat split. Qed.

(** Example 2: the pairs (sum 10, count 2) and (sum 20, count 3) merge to
    sum 30, count 5 and the final value 6.0000. *)
Example spec_example_merge :
  let '(p, _, err) :=
    avgPartial4Decimal_UpdatePartialResult Model.avgOfPartials
      [Model.decPair 2 10; Model.decPair 3 20]
      baseAvgDecimal_AllocPartialResult in
  p = {| d_sum := NewDecFromInt 30; d_count := 5 |} /\ err = None /\
  fst (baseAvgDecimal_AppendFinalResult2Chunk Model.avgOfPartials p
         Model.emptyChunk) 0%nat =
  [CellDecimal {| Model.coef := 60000; Model.frac := 4 |}].
Proof. cbv beta iota. repeat split. Qed.

(** Example 3: distinct inputs [1, 1, 2, NULL] give count 2, sum 3 and the
    final value 1.5000. *)
Example spec_example_distinct :
  let '(p, _, err) :=
    avgOriginal4DistinctDecimal_UpdatePartialResult Model.avgOfColumn
      [Model.decRow 1 0; Model.decRow 1 0; Model.decRow 2 0; Model.nullRow]
      avgOriginal4DistinctDecimal_AllocPartialResult in
  dd_base p = {| d_sum := NewDecFromInt 3; d_count := 2 |} /\ err = None /\
  fst (avgOriginal4DistinctDecimal_AppendFinalResult2Chunk Model.avgOfColumn p
         Model.emptyChunk) 0%nat =
  [CellDecimal {| Model.coef := 15000; Model.frac := 4 |}].
Proof. cbv beta iota. repeat split. Qed.

(** Example 4: an all-null input leaves count 0 and finalizes to NULL, for
    decimal and for float64. *)
Example spec_example_all_null :
  let '(p, _, err) :=
    avgOriginal4Decimal_UpdatePartialResult Model.avgOfColumn
      [Model.nullRow; Model.nullRow; Model.nullRow]
      baseAvgDecimal_AllocPartialResult in
  let '(q, _, err') :=
    avgOriginal4Float64_UpdatePartialResult Model.avgOfColumn
      [Model.nullRow; Model.nullRow] baseAvgFloat64_AllocPartialResult in
  d_count p = 0 /\ err = None /\ f_count q = 0 /\ err' = None /\
  baseAvgDecimal_AppendFinalResult2Chunk Model.avgOfColumn p Model.emptyChunk =
  (AppendNull 0 Model.emptyChunk, None) /\
  baseAvgFloat64_AppendFinalResult2Chunk Model.avgOfColumn q Model.emptyChunk =
  (AppendNull 0 Model.emptyChunk, None).
Proof. cbv beta iota. repeat split. Qed.

(** The float64 functions: [1.5, NULL, 2.5] averages to 2; the pairs
    (count 2, sum 3.0) and (count 2, sum 5.0) merge to the average 2; and
    the distinct inputs [1.5, 1.5, 4.5] average to 3. *)
Example float64_examples :
  let '(p, _, _) :=
    avgOriginal4Float64_UpdatePartialResult Model.avgOfColumn
      [Model.realRow 1.5; Model.nullRow; Model.realRow 2.5]
      baseAvgFloat64_AllocPartialResult in
  let '(q, _, _) :=
    avgPartial4Float64_UpdatePartialResult Model.avgOfPartials
      [Model.realPair 2 3; Model.realPair 2 5]
      baseAvgFloat64_AllocPartialResult in
  let '(d, _, _) :=
    avgOriginal4DistinctFloat64_UpdatePartialResult Model.avgOfColumn
      [Model.realRow 1.5; Model.realRow 1.5; Model.realRow 4.5]
      avgOriginal4DistinctFloat64_AllocPartialResult in
  p = {| f_sum := 4%float; f_count := 2 |} /\
  q = {| f_sum := 8%float; f_count := 4 |} /\
  fd_base d = {| f_sum := 6%float; f_count := 2 |} /\
  fst (baseAvgFloat64_AppendFinalResult2Chunk Model.avgOfColumn p
         Model.emptyChunk) 0%nat = [CellFloat64 2%float] /\
  fst (baseAvgFloat64_AppendFinalResult2Chunk Model.avgOfPartials q
         Model.emptyChunk) 0%nat = [CellFloat64 2%float] /\
  fst (avgOriginal4DistinctFloat64_AppendFinalResult2Chunk Model.avgOfColumn d
         Model.emptyChunk) 0%nat = [CellFloat64 3%float].
Proof. cbv beta iota. repeat split. Qed.

(** * Further properties of the update functions *)

Section LoopShape.
Context {X : Externals} {P : Type}.
Variable body : Row -> M P unit.
Hypothesis body_uniform : uniform body.

Lemma updates_run (batches : list (list Row)) (p : P) :
  updates (runUpdate body) batches p =
  (fst (fst (runUpdate body (concat batches) p)),
   snd (runUpdate body (concat batches) p)).
Proof.
  revert p. induction batches as [| rows rest IH]; intros p.
  - reflexivity.
  - cbn [updates concat]. rewrite (runUpdate_app body_uniform).
    destruct (runUpdate body rows p) as [[p1 l1] [f |]]; [reflexivity |].
    rewrite IH. now destruct (runUpdate body (concat rest) p1) as [[p2 l2] r].
Qed.

Lemma runUpdate_composesOverBatches : composesOverBatches (runUpdate body).
Proof.
  split.
  - apply (runUpdate_app body_uniform).
  - apply updates_run.
Qed.

Variable calls : Row -> list EvalCall.
Hypothesis body_calls : forall row p, snd (fst (rowStep body row p)) = calls row.

Lemma runUpdate_evaluatesInOrder : evaluatesInOrder calls (runUpdate body).
Proof.
  intros rows. induction rows as [| row rows IH]; intros p p' l r H.
  - rewrite runUpdate_nil in H. inversion H; subst.
    exists [], []. repeat split; auto. discriminate.
  - rewrite (runUpdate_cons body_uniform) in H.
    pose proof (body_calls row p) as C.
    destruct (rowStep body row p) as [[p1 l1] [f |]]; cbn in C; subst l1.
    + inversion H; subst. exists [row], rows. cbn. rewrite app_nil_r.
      repeat split; try discriminate.
    + destruct (runUpdate body rows p1) as [[p2 l2] r2] eqn:R.
      inversion H; subst.
      destruct (IH _ _ _ _ R) as (done & rest & -> & -> & Hn & Hs).
      exists (row :: done), rest. cbn. repeat split; auto. discriminate.
Qed.

End LoopShape.

Section Batches.
Context {X : Externals}.
Variables (e : baseAggFunc) (m : baseAggFunc).

(** X1.  Each of the six update functions composes over batches: a call
    on [rows1 ++ rows2] is the call on [rows1] followed, if it returned
    nil, by the call on [rows2] (and is the failed call on [rows1]
    otherwise); any sequence of calls leaves the partial result and the
    error of the single call on the concatenation. *)
Theorem updates_compose_over_batches :
  composesOverBatches (avgOriginal4Decimal_UpdatePartialResult e) /\
  composesOverBatches (avgPartial4Decimal_UpdatePartialResult m) /\
  composesOverBatches (avgOriginal4DistinctDecimal_UpdatePartialResult e) /\
  composesOverBatches (avgOriginal4Float64_UpdatePartialResult e) /\
  composesOverBatches (avgPartial4Float64_UpdatePartialResult m) /\
  composesOverBatches (avgOriginal4DistinctFloat64_UpdatePartialResult e).
Proof.
  split; [| split; [| split; [| split; [| split]]]];
    apply runUpdate_composesOverBatches.
  - apply avgOriginal4Decimal_uniform.
  - apply avgPartial4Decimal_uniform.
  - apply avgOriginal4DistinctDecimal_uniform.
  - apply avgOriginal4Float64_uniform.
  - apply avgPartial4Float64_uniform.
  - apply avgOriginal4DistinctFloat64_uniform.
Qed.

Variable input : Expression.
Hypothesis He : nth_error (args e) 0 = Some input.
Variables inputCount inputSum : Expression.
Hypothesis Hm0 : nth_error (args m) 0 = Some inputCount.
Hypothesis Hm1 : nth_error (args m) 1 = Some inputSum.

(** X2.  Rows are read in batch order and each at most once.  An
    original-phase or distinct call evaluates its argument once on every
    row up to and including the one it fails on (all rows when it returns
    nil) and on no other.  A merging call evaluates, on each such row, the
    sum argument once and then the count argument once if the sum was a
    value, never the count first and never the count after a null or
    failed sum. *)
Theorem updates_evaluate_rows_in_order :
  evaluatesInOrder (originalCalls (EvalDecimal input))
    (avgOriginal4Decimal_UpdatePartialResult e) /\
  evaluatesInOrder (originalCalls (EvalDecimal input))
    (avgOriginal4DistinctDecimal_UpdatePartialResult e) /\
  evaluatesInOrder (originalCalls (EvalReal input))
    (avgOriginal4Float64_UpdatePartialResult e) /\
  evaluatesInOrder (originalCalls (EvalReal input))
    (avgOriginal4DistinctFloat64_UpdatePartialResult e) /\
  evaluatesInOrder (mergeCalls (EvalDecimal inputSum) inputCount)
    (avgPartial4Decimal_UpdatePartialResult m) /\
  evaluatesInOrder (mergeCalls (EvalReal inputSum) inputCount)
    (avgPartial4Float64_UpdatePartialResult m).
Proof.
  split; [| split; [| split; [| split; [| split]]]].
  - apply (runUpdate_evaluatesInOrder (avgOriginal4Decimal_uniform e)).
    intros row p. unfold rowStep, originalCalls.
    change (runUpdate (avgOriginal4Decimal_body e))
      with (avgOriginal4Decimal_UpdatePartialResult e).
    rewrite (avgOriginal4Decimal_row e He).
    destruct (EvalDecimal input row) as [[v [|]] [er |]]; try reflexivity.
    now destruct (DecimalAdd (d_sum p) v) as [s [er |]].
  - apply (runUpdate_evaluatesInOrder (avgOriginal4DistinctDecimal_uniform e)).
    intros row p. unfold rowStep, originalCalls.
    change (runUpdate (avgOriginal4DistinctDecimal_body e))
      with (avgOriginal4DistinctDecimal_UpdatePartialResult e).
    rewrite (avgOriginal4DistinctDecimal_row e He).
    destruct (EvalDecimal input row) as [[v [|]] [er |]]; try reflexivity.
    cbn. destruct (decimalSet_exist (dd_valSet p) v); [reflexivity |].
    now destruct (DecimalAdd (d_sum (dd_base p)) v) as [s [er |]].
  - apply (runUpdate_evaluatesInOrder (avgOriginal4Float64_uniform e)).
    intros row p. unfold rowStep, originalCalls.
    change (runUpdate (avgOriginal4Float64_body e))
      with (avgOriginal4Float64_UpdatePartialResult e).
    rewrite (avgOriginal4Float64_row e He).
    now destruct (EvalReal input row) as [[v [|]] [er |]].
  - apply (runUpdate_evaluatesInOrder (avgOriginal4DistinctFloat64_uniform e)).
    intros row p. unfold rowStep, originalCalls.
    change (runUpdate (avgOriginal4DistinctFloat64_body e))
      with (avgOriginal4DistinctFloat64_UpdatePartialResult e).
    rewrite (avgOriginal4DistinctFloat64_row e He).
    destruct (EvalReal input row) as [[v [|]] [er |]]; try reflexivity.
    cbn. now destruct (float64Set_exist (fd_valSet p) v).
  - apply (runUpdate_evaluatesInOrder (avgPartial4Decimal_uniform m)).
    intros row p. unfold rowStep, mergeCalls.
    change (runUpdate (avgPartial4Decimal_body m))
      with (avgPartial4Decimal_UpdatePartialResult m).
    rewrite (avgPartial4Decimal_row m Hm0 Hm1).
    destruct (EvalDecimal inputSum row) as [[s [|]] [er |]]; try reflexivity.
    destruct (EvalInt inputCount row) as [[c [|]] [er |]]; try reflexivity.
    now destruct (DecimalAdd (d_sum p) s) as [s' [er |]].
  - apply (runUpdate_evaluatesInOrder (avgPartial4Float64_uniform m)).
    intros row p. unfold rowStep, mergeCalls.
    change (runUpdate (avgPartial4Float64_body m))
      with (avgPartial4Float64_UpdatePartialResult m).
    rewrite (avgPartial4Float64_row m Hm0 Hm1).
    destruct (EvalReal inputSum row) as [[s [|]] [er |]]; try reflexivity.
    now destruct (EvalInt inputCount row) as [[c [|]] [er |]].
Qed.

End Batches.

(** A merging batch whose third row has an unreadable count: the sum and
    count of the first row, the sum only of the second (its sum is NULL),
    the sum and the failing count of the third, nothing of the fourth. *)
Lemma updates_evaluate_rows_in_order_witness :
  let r1 := Model.decPair 2 10 in
  let r2 : Row := [Model.DInt 7; Model.DNull] in
  let r3 : Row := [Model.DBad; Model.dec 5 0] in
  let r4 := Model.decPair 3 20 in
  let l := [mkCall 1 r1 None; mkCall 0 r1 None; mkCall 1 r2 None;
            mkCall 1 r3 None; mkCall 0 r3 (Some Model.ErrEval)] in
  nth_error (args Model.avgOfColumn) 0 = Some (Model.Column 0) /\
  nth_error (args Model.avgOfPartials) 0 = Some (Model.Column 0) /\
  nth_error (args Model.avgOfPartials) 1 = Some (Model.Column 1) /\
  avgPartial4Decimal_UpdatePartialResult Model.avgOfPartials [r1; r2; r3; r4]
    baseAvgDecimal_AllocPartialResult =
  ({| d_sum := NewDecFromInt 10; d_count := 2 |}, l,
   Some (Failure (Trace Model.ErrEval))) /\
  exists done rest,
    [r1; r2; r3; r4] = done ++ rest /\
    l = flat_map (mergeCalls (EvalDecimal (Model.Column 1)) (Model.Column 0)) done /\
    (Some (Failure (Trace Model.ErrEval)) = None -> rest = []) /\
    (forall f, Some (Failure (Trace Model.ErrEval)) = Some f -> done <> []).
Proof.
  intros r1 r2 r3 r4 l.
  refine (conj eq_refl (conj eq_refl (conj eq_refl (conj eq_refl _)))).
  destruct (updates_evaluate_rows_in_order Model.avgOfColumn
              Model.avgOfPartials (input := Model.Column 0) eq_refl
              (inputCount := Model.Column 0) (inputSum := Model.Column 1)
              eq_refl eq_refl) as (_ & _ & _ & _ & T & _).
  exact (T [r1; r2; r3; r4] baseAvgDecimal_AllocPartialResult _ l _ eq_refl).
Defined.

Section MissingArguments.
Context {X : Externals}.

(** X7.  An aggregate function built with too few arguments panics on the
    first row it is given, before it evaluates anything and without
    touching the partial result: the original-phase and distinct functions
    when [args] is empty, the merging functions when [args] has no index 1
    (they index the sum, [args[1]], first, so a lone count argument is not
    evaluated either). *)
Theorem update_panics_on_missing_argument :
  (forall e row rows,
      args e = [] ->
      (forall p, avgOriginal4Decimal_UpdatePartialResult e (row :: rows) p =
                 (p, [], Some IndexOutOfRange)) /\
      (forall p, avgOriginal4DistinctDecimal_UpdatePartialResult e (row :: rows) p =
                 (p, [], Some IndexOutOfRange)) /\
      (forall p, avgOriginal4Float64_UpdatePartialResult e (row :: rows) p =
                 (p, [], Some IndexOutOfRange)) /\
      (forall p, avgOriginal4DistinctFloat64_UpdatePartialResult e (row :: rows) p =
                 (p, [], Some IndexOutOfRange))) /\
  (forall m row rows,
      (length (args m) < 2)%nat ->
      (forall p, avgPartial4Decimal_UpdatePartialResult m (row :: rows) p =
                 (p, [], Some IndexOutOfRange)) /\
      (forall p, avgPartial4Float64_UpdatePartialResult m (row :: rows) p =
                 (p, [], Some IndexOutOfRange))).
Proof.
  split.
  - intros e row rows H.
    unfold avgOriginal4Decimal_UpdatePartialResult,
      avgOriginal4DistinctDecimal_UpdatePartialResult,
      avgOriginal4Float64_UpdatePartialResult,
      avgOriginal4DistinctFloat64_UpdatePartialResult, runUpdate.
    cbn [forRows].
    unfold bind, avgOriginal4Decimal_body, avgOriginal4DistinctDecimal_body,
      avgOriginal4Float64_body, avgOriginal4DistinctFloat64_body, evalArg.
    rewrite H. cbn. repeat split.
  - intros m row rows H.
    assert (N : nth_error (args m) 1 = None) by (apply nth_error_None; lia).
    unfold avgPartial4Decimal_UpdatePartialResult,
      avgPartial4Float64_UpdatePartialResult, runUpdate.
    cbn [forRows].
    unfold bind, avgPartial4Decimal_body, avgPartial4Float64_body, evalArg.
    rewrite N. cbn. repeat split.
Qed.

End MissingArguments.

Lemma update_panics_on_missing_argument_witness :
  args Model.avgOfNothing = [] /\
  (length (args Model.avgOfCountOnly) < 2)%nat /\
  avgOriginal4Decimal_UpdatePartialResult Model.avgOfNothing
    (Model.decRow 2 0 :: [Model.decRow 4 0]) baseAvgDecimal_AllocPartialResult =
  (baseAvgDecimal_AllocPartialResult, [], Some IndexOutOfRange) /\
  avgPartial4Decimal_UpdatePartialResult Model.avgOfCountOnly
    (Model.decPair 2 10 :: []) baseAvgDecimal_AllocPartialResult =
  (baseAvgDecimal_AllocPartialResult, [], Some IndexOutOfRange).
Proof.
  destruct update_panics_on_missing_argument as [T1 T2].
  assert (L : (length (args Model.avgOfCountOnly) < 2)%nat) by (cbn; lia).
  refine (conj eq_refl (conj L (conj _ _))).
  - exact (proj1 (T1 Model.avgOfNothing (Model.decRow 2 0) [Model.decRow 4 0]
                    eq_refl) _).
  - exact (proj1 (T2 Model.avgOfCountOnly (Model.decPair 2 10) [] L) _).
Defined.

Section EndToEnd.
Context {X : Externals}.
Variables (e : baseAggFunc) (input : Expression).
Hypothesis He : nth_error (args e) 0 = Some input.

(** X3.  From a fresh partial result, through any sequence of
    original-phase calls that returned nil, to the final result (fewer
    than 2^63 non-null inputs): with no non-null input the final cell is
    NULL; otherwise the count is the number of non-null inputs, the sum is
    their left-to-right sum, and the final cell is the sum divided by that
    number (for decimal: unless DecimalDiv fails, in which case its error
    is returned and nothing is appended). *)
Theorem average_of_the_non_null_inputs :
  (forall batches p chk,
      updates (avgOriginal4Decimal_UpdatePartialResult e) batches
        baseAvgDecimal_AllocPartialResult = (p, None) ->
      let vs := decimalInputs input (concat batches) in
      Z.of_nat (length vs) < 2 ^ 63 ->
      (vs = [] ->
       baseAvgDecimal_AppendFinalResult2Chunk e p chk =
       (AppendNull (ordinal e) chk, None)) /\
      (vs <> [] ->
       d_count p = Z.of_nat (length vs) /\
       decimalAddAll MyDecimal_zero vs = Some (d_sum p) /\
       baseAvgDecimal_AppendFinalResult2Chunk e p chk =
       match DecimalDiv (d_sum p) (NewDecFromInt (Z.of_nat (length vs)))
               DivFracIncr with
       | (r, None) => (AppendMyDecimal (ordinal e) r chk, None)
       | (_, Some er) => (chk, Some (Trace er))
       end)) /\
  (forall batches p chk,
      updates (avgOriginal4Float64_UpdatePartialResult e) batches
        baseAvgFloat64_AllocPartialResult = (p, None) ->
      let vs := realInputs input (concat batches) in
      Z.of_nat (length vs) < 2 ^ 63 ->
      (vs = [] ->
       baseAvgFloat64_AppendFinalResult2Chunk e p chk =
       (AppendNull (ordinal e) chk, None)) /\
      (vs <> [] ->
       baseAvgFloat64_AppendFinalResult2Chunk e p chk =
       (AppendFloat64 (ordinal e)
          (PrimFloat.div (float64AddAll 0%float vs)
             (float64_of_int64 (Z.of_nat (length vs)))) chk, None))).
Proof.
  split.
  - intros batches p chk H vs Hlen.
    destruct (updates_concat (avgOriginal4Decimal_uniform e) _ _ H) as [l R].
    apply (avgOriginal4Decimal_run e He) in R; [| apply fresh_count_in_int64].
    destruct R as (_ & S & C). fold vs in S, C.
    cbn [baseAvgDecimal_AllocPartialResult d_sum d_count] in S, C.
    rewrite Z.add_0_l, int64_wrap_small in C by (unfold in_int64; lia).
    unfold baseAvgDecimal_AppendFinalResult2Chunk. rewrite C. split.
    + intros ->. reflexivity.
    + intros N. destruct vs as [| v vs']; [contradiction |].
      repeat split; auto.
  - intros batches p chk H vs Hlen.
    destruct (updates_concat (avgOriginal4Float64_uniform e) _ _ H) as [l R].
    apply (avgOriginal4Float64_run e He) in R; [| unfold in_int64; cbn; lia].
    destruct R as (_ & S & C). fold vs in S, C.
    cbn [baseAvgFloat64_AllocPartialResult f_sum f_count] in S, C.
    rewrite Z.add_0_l, int64_wrap_small in C by (unfold in_int64; lia).
    unfold baseAvgFloat64_AppendFinalResult2Chunk. rewrite C, <- S. split.
    + intros ->. reflexivity.
    + intros N. destruct vs as [| v vs']; [contradiction |]. reflexivity.
Qed.

Lemma avgOriginal4DistinctDecimal_kept (rows : list Row)
    (p q : partialResult4AvgDistinctDecimal) (l : list EvalCall)
    (r : option failure) :
  avgOriginal4DistinctDecimal_UpdatePartialResult e rows p = (q, l, r) ->
  exists l',
    avgOriginal4Decimal_UpdatePartialResult e
      (keptDecimalRows input (dd_valSet p) rows) (dd_base p) =
    (dd_base q, l', r).
Proof.
  revert rows p q l r.
  unfold avgOriginal4DistinctDecimal_UpdatePartialResult,
    avgOriginal4Decimal_UpdatePartialResult.
  intros rows. induction rows as [| row rows IH]; intros p q l r H.
  - rewrite runUpdate_nil in H. inversion H; subst. exists []. reflexivity.
  - rewrite (runUpdate_cons (avgOriginal4DistinctDecimal_uniform e)) in H.
    unfold rowStep in H.
    change (runUpdate (avgOriginal4DistinctDecimal_body e) [row] p)
      with (avgOriginal4DistinctDecimal_UpdatePartialResult e [row] p) in H.
    rewrite (avgOriginal4DistinctDecimal_row e He) in H.
    cbn [keptDecimalRows].
    assert (step : runUpdate (avgOriginal4Decimal_body e) [row] (dd_base p) =
                   avgOriginal4Decimal_UpdatePartialResult e [row] (dd_base p))
      by reflexivity.
    rewrite (avgOriginal4Decimal_row e He) in step.
    destruct (EvalDecimal input row) as [[v [|]] [er |]] eqn:Ev; cbn [orb] in H.
    + inversion H; subst.
      rewrite (runUpdate_cons (avgOriginal4Decimal_uniform e)). unfold rowStep.
      rewrite step. eauto.
    + destruct (runUpdate (avgOriginal4DistinctDecimal_body e) rows p)
        as [[p2 l2] r2] eqn:R.
      inversion H; subst. destruct (IH _ _ _ _ R) as [l' IH'].
      rewrite (runUpdate_cons (avgOriginal4Decimal_uniform e)). unfold rowStep.
      rewrite step, IH'. eauto.
    + inversion H; subst.
      rewrite (runUpdate_cons (avgOriginal4Decimal_uniform e)). unfold rowStep.
      rewrite step. eauto.
    + destruct (decimalSet_exist (dd_valSet p) v).
      * destruct (runUpdate (avgOriginal4DistinctDecimal_body e) rows p)
          as [[p2 l2] r2] eqn:R.
         inversion H; subst. eauto.
      * rewrite (runUpdate_cons (avgOriginal4Decimal_uniform e)). unfold rowStep.
         rewrite step.
         destruct (DecimalAdd (d_sum (dd_base p)) v) as [s [er |]].
         -- inversion H; subst. eauto.
         -- destruct (runUpdate (avgOriginal4DistinctDecimal_body e) rows _)
              as [[p2 l2] r2] eqn:R.
            inversion H; subst. destruct (IH _ _ _ _ R) as [l' IH'].
            cbn [dd_base dd_valSet] in IH'. rewrite IH'. eauto.
Qed.

Lemma avgOriginal4DistinctFloat64_kept (rows : list Row)
    (p q : partialResult4AvgDistinctFloat64) (l : list EvalCall)
    (r : option failure) :
  avgOriginal4DistinctFloat64_UpdatePartialResult e rows p = (q, l, r) ->
  exists l',
    avgOriginal4Float64_UpdatePartialResult e
      (keptRealRows input (fd_valSet p) rows) (fd_base p) =
    (fd_base q, l', r).
Proof.
  revert rows p q l r.
  unfold avgOriginal4DistinctFloat64_UpdatePartialResult,
    avgOriginal4Float64_UpdatePartialResult.
  intros rows. induction rows as [| row rows IH]; intros p q l r H.
  - rewrite runUpdate_nil in H. inversion H; subst. exists []. reflexivity.
  - rewrite (runUpdate_cons (avgOriginal4DistinctFloat64_uniform e)) in H.
    unfold rowStep in H.
    change (runUpdate (avgOriginal4DistinctFloat64_body e) [row] p)
      with (avgOriginal4DistinctFloat64_UpdatePartialResult e [row] p) in H.
    rewrite (avgOriginal4DistinctFloat64_row e He) in H.
    cbn [keptRealRows].
    assert (step : runUpdate (avgOriginal4Float64_body e) [row] (fd_base p) =
                   avgOriginal4Float64_UpdatePartialResult e [row] (fd_base p))
      by reflexivity.
    rewrite (avgOriginal4Float64_row e He) in step.
    destruct (EvalReal input row) as [[v [|]] [er |]] eqn:Ev; cbn [orb] in H.
    + inversion H; subst.
      rewrite (runUpdate_cons (avgOriginal4Float64_uniform e)). unfold rowStep.
      rewrite step. eauto.
    + destruct (runUpdate (avgOriginal4DistinctFloat64_body e) rows p)
        as [[p2 l2] r2] eqn:R.
      inversion H; subst. destruct (IH _ _ _ _ R) as [l' IH'].
      rewrite (runUpdate_cons (avgOriginal4Float64_uniform e)). unfold rowStep.
      rewrite step, IH'. eauto.
    + inversion H; subst.
      rewrite (runUpdate_cons (avgOriginal4Float64_uniform e)). unfold rowStep.
      rewrite step. eauto.
    + destruct (float64Set_exist (fd_valSet p) v).
      * destruct (runUpdate (avgOriginal4DistinctFloat64_body e) rows p)
          as [[p2 l2] r2] eqn:R.
         inversion H; subst. eauto.
      * rewrite (runUpdate_cons (avgOriginal4Float64_uniform e)). unfold rowStep.
         rewrite step.
         destruct (runUpdate (avgOriginal4DistinctFloat64_body e) rows _)
           as [[p2 l2] r2] eqn:R.
         inversion H; subst. destruct (IH _ _ _ _ R) as [l' IH'].
         cbn [fd_base fd_valSet] in IH'. rewrite IH'. eauto.
Qed.

(** X4.  A distinct call is the original-phase call on the rows it does
    not skip as duplicates: run on [keptDecimalRows] (resp.
    [keptRealRows]) of the batch, from the sum and count the distinct
    partial result holds, the original-phase function ends with the same
    sum, the same count and the same error. *)
Theorem distinct_is_original_on_kept_rows :
  (forall rows p q l r,
      avgOriginal4DistinctDecimal_UpdatePartialResult e rows p = (q, l, r) ->
      exists l',
        avgOriginal4Decimal_UpdatePartialResult e
          (keptDecimalRows input (dd_valSet p) rows) (dd_base p) =
        (dd_base q, l', r)) /\
  (forall rows p q l r,
      avgOriginal4DistinctFloat64_UpdatePartialResult e rows p = (q, l, r) ->
      exists l',
        avgOriginal4Float64_UpdatePartialResult e
          (keptRealRows input (fd_valSet p) rows) (fd_base p) =
        (fd_base q, l', r)).
Proof.
  split; intros rows p q l r.
  - apply avgOriginal4DistinctDecimal_kept.
  - apply avgOriginal4DistinctFloat64_kept.
Qed.

End EndToEnd.

(** The batches [2, NULL] and [4, 6] average to 4.0000. *)
Lemma average_of_the_non_null_inputs_witness :
  let batches := [[Model.decRow 2 0; Model.nullRow];
                  [Model.decRow 4 0; Model.decRow 6 0]] in
  let p := {| d_sum := NewDecFromInt 12; d_count := 3 |} in
  let vs := decimalInputs (Model.Column 0) (concat batches) in
  nth_error (args Model.avgOfColumn) 0 = Some (Model.Column 0) /\
  updates (avgOriginal4Decimal_UpdatePartialResult Model.avgOfColumn) batches
    baseAvgDecimal_AllocPartialResult = (p, None) /\
  Z.of_nat (length vs) < 2 ^ 63 /\
  vs <> [] /\
  baseAvgDecimal_AppendFinalResult2Chunk Model.avgOfColumn p Model.emptyChunk =
  (AppendMyDecimal 0 {| Model.coef := 40000; Model.frac := 4 |} Model.emptyChunk,
   None).
Proof.
  intros batches p vs.
  assert (L : Z.of_nat (length vs) < 2 ^ 63) by reflexivity.
  assert (N : vs <> []) by discriminate.
  refine (conj eq_refl (conj eq_refl (conj L (conj N _)))).
  destruct (average_of_the_non_null_inputs Model.avgOfColumn
              (input := Model.Column 0) eq_refl) as [T _].
  destruct (T batches p Model.emptyChunk eq_refl L) as [_ T'].
  exact (proj2 (proj2 (T' N))).
Defined.

(** The distinct inputs [1, 1, 2, NULL]: the second 1 is dropped, and the
    original-phase function on [1, 2, NULL] ends with sum 3, count 2. *)
Lemma distinct_is_original_on_kept_rows_witness :
  let rows := [Model.decRow 1 0; Model.decRow 1 0; Model.decRow 2 0;
               Model.nullRow] in
  let q := {| dd_base := {| d_sum := NewDecFromInt 3; d_count := 2 |};
              dd_valSet := [NewDecFromInt 2; NewDecFromInt 1] |} in
  nth_error (args Model.avgOfColumn) 0 = Some (Model.Column 0) /\
  fst (avgOriginal4DistinctDecimal_UpdatePartialResult Model.avgOfColumn rows
         avgOriginal4DistinctDecimal_AllocPartialResult) =
  (q, [mkCall 0 (Model.decRow 1 0) None; mkCall 0 (Model.decRow 1 0) None;
       mkCall 0 (Model.decRow 2 0) None; mkCall 0 Model.nullRow None]) /\
  keptDecimalRows (Model.Column 0) newDecimalSet rows =
  [Model.decRow 1 0; Model.decRow 2 0; Model.nullRow] /\
  exists l',
    avgOriginal4Decimal_UpdatePartialResult Model.avgOfColumn
      (keptDecimalRows (Model.Column 0) newDecimalSet rows)
      baseAvgDecimal_AllocPartialResult = (dd_base q, l', None).
Proof.
  intros rows q.
  refine (conj eq_refl (conj eq_refl (conj eq_refl _))).
  destruct (distinct_is_original_on_kept_rows Model.avgOfColumn
              (input := Model.Column 0) eq_refl) as [T _].
  exact (T rows avgOriginal4DistinctDecimal_AllocPartialResult q _ None eq_refl).
Defined.

Section DistinctSets.
Context {X : Externals}.
Variables (e : baseAggFunc) (input : Expression).
Hypothesis He : nth_error (args e) 0 = Some input.

Lemma avgOriginal4DistinctDecimal_noop (rows : list Row)
    (p : partialResult4AvgDistinctDecimal) :
  Forall (decimalSeen input (dd_valSet p)) rows ->
  exists l, avgOriginal4DistinctDecimal_UpdatePartialResult e rows p = (p, l, None).
Proof.
  unfold avgOriginal4DistinctDecimal_UpdatePartialResult.
  induction 1 as [| row rows S _ [l IH]].
  - exists []. apply runUpdate_nil.
  - rewrite (runUpdate_cons (avgOriginal4DistinctDecimal_uniform e)).
    unfold rowStep.
    change (runUpdate (avgOriginal4DistinctDecimal_body e) [row] p)
      with (avgOriginal4DistinctDecimal_UpdatePartialResult e [row] p).
    rewrite (avgOriginal4DistinctDecimal_row e He). unfold decimalSeen in S.
    destruct (EvalDecimal input row) as [[v [|]] [er |]]; try contradiction;
      cbn [orb]; [| rewrite S]; rewrite IH; eauto.
Qed.

Lemma avgOriginal4DistinctFloat64_noop (rows : list Row)
    (p : partialResult4AvgDistinctFloat64) :
  Forall (realSeen input (fd_valSet p)) rows ->
  exists l, avgOriginal4DistinctFloat64_UpdatePartialResult e rows p = (p, l, None).
Proof.
  unfold avgOriginal4DistinctFloat64_UpdatePartialResult.
  induction 1 as [| row rows S _ [l IH]].
  - exists []. apply runUpdate_nil.
  - rewrite (runUpdate_cons (avgOriginal4DistinctFloat64_uniform e)).
    unfold rowStep.
    change (runUpdate (avgOriginal4DistinctFloat64_body e) [row] p)
      with (avgOriginal4DistinctFloat64_UpdatePartialResult e [row] p).
    rewrite (avgOriginal4DistinctFloat64_row e He). unfold realSeen in S.
    destruct (EvalReal input row) as [[v [|]] [er |]]; try contradiction;
      cbn [orb]; [| rewrite S]; rewrite IH; eauto.
Qed.

Hypothesis decimalSet_exist_insert :
  forall s v, decimalSet_exist (decimalSet_insert s v) v = true.
Hypothesis decimalSet_insert_keeps :
  forall s v w, decimalSet_exist s w = true ->
                decimalSet_exist (decimalSet_insert s v) w = true.
Hypothesis float64Set_exist_insert :
  forall s v, PrimFloat.eqb v v = true ->
              float64Set_exist (float64Set_insert s v) v = true.
Hypothesis float64Set_insert_keeps :
  forall s v w, float64Set_exist s w = true ->
                float64Set_exist (float64Set_insert s v) w = true.

Lemma avgOriginal4DistinctDecimal_grows (rows : list Row)
    (p q : partialResult4AvgDistinctDecimal) (l : list EvalCall)
    (r : option failure) (w : MyDecimal) :
  avgOriginal4DistinctDecimal_UpdatePartialResult e rows p = (q, l, r) ->
  decimalSet_exist (dd_valSet p) w = true ->
  decimalSet_exist (dd_valSet q) w = true.
Proof.
  unfold avgOriginal4DistinctDecimal_UpdatePartialResult.
  revert p l. induction rows as [| row rows IH]; intros p l H Hw.
  - rewrite runUpdate_nil in H. now inversion H; subst.
  - rewrite (runUpdate_cons (avgOriginal4DistinctDecimal_uniform e)) in H.
    unfold rowStep in H.
    change (runUpdate (avgOriginal4DistinctDecimal_body e) [row] p)
      with (avgOriginal4DistinctDecimal_UpdatePartialResult e [row] p) in H.
    rewrite (avgOriginal4DistinctDecimal_row e He) in H.
    destruct (EvalDecimal input row) as [[v [|]] [er |]]; cbn [orb] in H;
      try (inversion H; subst; assumption).
    + destruct (runUpdate (avgOriginal4DistinctDecimal_body e) rows p)
        as [[p2 l2] r2] eqn:R.
      inversion H; subst. eauto.
    + destruct (decimalSet_exist (dd_valSet p) v).
      * destruct (runUpdate (avgOriginal4DistinctDecimal_body e) rows p)
          as [[p2 l2] r2] eqn:R.
        inversion H; subst. eauto.
      * destruct (DecimalAdd (d_sum (dd_base p)) v) as [s [er |]].
        -- now inversion H; subst.
        -- destruct (runUpdate (avgOriginal4DistinctDecimal_body e) rows _)
             as [[p2 l2] r2] eqn:R.
           inversion H; subst. eapply IH; [exact R |].
           cbn [dd_valSet]. now apply decimalSet_insert_keeps.
Qed.

Lemma avgOriginal4DistinctFloat64_grows (rows : list Row)
    (p q : partialResult4AvgDistinctFloat64) (l : list EvalCall)
    (r : option failure) (w : float) :
  avgOriginal4DistinctFloat64_UpdatePartialResult e rows p = (q, l, r) ->
  float64Set_exist (fd_valSet p) w = true ->
  float64Set_exist (fd_valSet q) w = true.
Proof.
  unfold avgOriginal4DistinctFloat64_UpdatePartialResult.
  revert p l. induction rows as [| row rows IH]; intros p l H Hw.
  - rewrite runUpdate_nil in H. now inversion H; subst.
  - rewrite (runUpdate_cons (avgOriginal4DistinctFloat64_uniform e)) in H.
    unfold rowStep in H.
    change (runUpdate (avgOriginal4DistinctFloat64_body e) [row] p)
      with (avgOriginal4DistinctFloat64_UpdatePartialResult e [row] p) in H.
    rewrite (avgOriginal4DistinctFloat64_row e He) in H.
    destruct (EvalReal input row) as [[v [|]] [er |]]; cbn [orb] in H;
      try (inversion H; subst; assumption).
    + destruct (runUpdate (avgOriginal4DistinctFloat64_body e) rows p)
        as [[p2 l2] r2] eqn:R.
      inversion H; subst. eauto.
    + destruct (float64Set_exist (fd_valSet p) v).
      * destruct (runUpdate (avgOriginal4DistinctFloat64_body e) rows p)
          as [[p2 l2] r2] eqn:R.
        inversion H; subst. eauto.
      * destruct (runUpdate (avgOriginal4DistinctFloat64_body e) rows _)
          as [[p2 l2] r2] eqn:R.
        inversion H; subst. eapply IH; [exact R |].
        cbn [fd_valSet]. now apply float64Set_insert_keeps.
Qed.

Lemma avgOriginal4DistinctDecimal_seen (rows : list Row)
    (p q : partialResult4AvgDistinctDecimal) (l : list EvalCall) :
  avgOriginal4DistinctDecimal_UpdatePartialResult e rows p = (q, l, None) ->
  Forall (decimalSeen input (dd_valSet q)) rows.
Proof.
  revert p l. induction rows as [| row rows IH]; intros p l H; [constructor |].
  pose proof H as H0.
  unfold avgOriginal4DistinctDecimal_UpdatePartialResult in H.
  rewrite (runUpdate_cons (avgOriginal4DistinctDecimal_uniform e)) in H.
  unfold rowStep in H.
  change (runUpdate (avgOriginal4DistinctDecimal_body e) [row] p)
    with (avgOriginal4DistinctDecimal_UpdatePartialResult e [row] p) in H.
  rewrite (avgOriginal4DistinctDecimal_row e He) in H.
  unfold decimalSeen at 1.
  destruct (EvalDecimal input row) as [[v [|]] [er |]] eqn:Ev; cbn [orb] in H;
    try discriminate.
  - destruct (runUpdate (avgOriginal4DistinctDecimal_body e) rows p)
      as [[p2 l2] r2] eqn:R.
    inversion H; subst. constructor; [now rewrite Ev | eauto].
  - destruct (decimalSet_exist (dd_valSet p) v) eqn:Hv.
    + destruct (runUpdate (avgOriginal4DistinctDecimal_body e) rows p)
        as [[p2 l2] r2] eqn:R.
      inversion H; subst. constructor; [| eauto].
      rewrite Ev. eapply avgOriginal4DistinctDecimal_grows; eauto.
    + destruct (DecimalAdd (d_sum (dd_base p)) v) as [s [er |]];
        [discriminate |].
      destruct (runUpdate (avgOriginal4DistinctDecimal_body e) rows _)
        as [[p2 l2] r2] eqn:R.
      inversion H; subst. constructor; [| eauto].
      rewrite Ev. eapply avgOriginal4DistinctDecimal_grows; [exact R |].
      apply decimalSet_exist_insert.
Qed.

Lemma avgOriginal4DistinctFloat64_seen (rows : list Row)
    (p q : partialResult4AvgDistinctFloat64) (l : list EvalCall) :
  Forall (realNotNaN input) rows ->
  avgOriginal4DistinctFloat64_UpdatePartialResult e rows p = (q, l, None) ->
  Forall (realSeen input (fd_valSet q)) rows.
Proof.
  intros F. revert p l.
  induction F as [| row rows N _ IH]; intros p l H; [constructor |].
  unfold avgOriginal4DistinctFloat64_UpdatePartialResult in H.
  rewrite (runUpdate_cons (avgOriginal4DistinctFloat64_uniform e)) in H.
  unfold rowStep in H.
  change (runUpdate (avgOriginal4DistinctFloat64_body e) [row] p)
    with (avgOriginal4DistinctFloat64_UpdatePartialResult e [row] p) in H.
  rewrite (avgOriginal4DistinctFloat64_row e He) in H.
  unfold realSeen at 1. unfold realNotNaN in N.
  destruct (EvalReal input row) as [[v [|]] [er |]] eqn:Ev; cbn [orb] in H;
    try discriminate.
  - destruct (runUpdate (avgOriginal4DistinctFloat64_body e) rows p)
      as [[p2 l2] r2] eqn:R.
    inversion H; subst. constructor; [now rewrite Ev | eauto].
  - destruct (float64Set_exist (fd_valSet p) v) eqn:Hv.
    + destruct (runUpdate (avgOriginal4DistinctFloat64_body e) rows p)
        as [[p2 l2] r2] eqn:R.
      inversion H; subst. constructor; [| eauto].
      rewrite Ev. eapply avgOriginal4DistinctFloat64_grows; eauto.
    + destruct (runUpdate (avgOriginal4DistinctFloat64_body e) rows _)
        as [[p2 l2] r2] eqn:R.
      inversion H; subst. constructor; [| eauto].
      rewrite Ev. eapply avgOriginal4DistinctFloat64_grows; [exact R |].
      now apply float64Set_exist_insert.
Qed.

(** X5.  The value set of a distinct partial result only grows, and it
    holds what was read: a value that is a member before a call is a
    member after it, whatever the call returns; and after a call that
    returned nil every row of the batch is null or has its value in the
    set (for float64: when no value of the batch is NaN).  The value set
    is asked that an inserted value is found and that an insertion keeps
    the members. *)
Theorem distinct_value_set_grows_and_holds_the_batch :
  (forall rows p q l r w,
      avgOriginal4DistinctDecimal_UpdatePartialResult e rows p = (q, l, r) ->
      decimalSet_exist (dd_valSet p) w = true ->
      decimalSet_exist (dd_valSet q) w = true) /\
  (forall rows p q l,
      avgOriginal4DistinctDecimal_UpdatePartialResult e rows p = (q, l, None) ->
      Forall (decimalSeen input (dd_valSet q)) rows) /\
  (forall rows p q l r w,
      avgOriginal4DistinctFloat64_UpdatePartialResult e rows p = (q, l, r) ->
      float64Set_exist (fd_valSet p) w = true ->
      float64Set_exist (fd_valSet q) w = true) /\
  (forall rows p q l,
      Forall (realNotNaN input) rows ->
      avgOriginal4DistinctFloat64_UpdatePartialResult e rows p = (q, l, None) ->
      Forall (realSeen input (fd_valSet q)) rows).
Proof.
  split; [| split; [| split]].
  - intros rows p q l r w. apply avgOriginal4DistinctDecimal_grows.
  - intros rows p q l. apply avgOriginal4DistinctDecimal_seen.
  - intros rows p q l r w. apply avgOriginal4DistinctFloat64_grows.
  - intros rows p q l. apply avgOriginal4DistinctFloat64_seen.
Qed.

(** X6.  A distinct update is idempotent: after a call that returned nil,
    the same batch again returns nil and leaves the partial result (sum,
    count and value set) as it is (for float64: when no value of the batch
    is NaN). *)
Theorem distinct_update_twice_is_once :
  (forall rows p q l,
      avgOriginal4DistinctDecimal_UpdatePartialResult e rows p = (q, l, None) ->
      exists l',
        avgOriginal4DistinctDecimal_UpdatePartialResult e rows q = (q, l', None)) /\
  (forall rows p q l,
      Forall (realNotNaN input) rows ->
      avgOriginal4DistinctFloat64_UpdatePartialResult e rows p = (q, l, None) ->
      exists l',
        avgOriginal4DistinctFloat64_UpdatePartialResult e rows q = (q, l', None)).
Proof.
  split.
  - intros rows p q l H.
    apply avgOriginal4DistinctDecimal_noop.
    eapply avgOriginal4DistinctDecimal_seen; eauto.
  - intros rows p q l N H.
    apply avgOriginal4DistinctFloat64_noop.
    eapply avgOriginal4DistinctFloat64_seen; eauto.
Qed.

End DistinctSets.

Lemma model_decimalSet_insert_keeps (s : decimalSet) (v w : MyDecimal) :
  decimalSet_exist s w = true ->
  decimalSet_exist (decimalSet_insert s v) w = true.
Proof.
  intros H. change (existsb (Model.dec_eqb w) s = true) in H.
  change ((Model.dec_eqb w v || existsb (Model.dec_eqb w) s) = true).
  rewrite H. apply orb_true_r.
Qed.

Lemma model_float64Set_insert_keeps (s : float64Set) (v w : float) :
  float64Set_exist s w = true ->
  float64Set_exist (float64Set_insert s v) w = true.
Proof.
  intros H. change (existsb (PrimFloat.eqb w) s = true) in H.
  change ((PrimFloat.eqb w v || existsb (PrimFloat.eqb w) s) = true).
  rewrite H. apply orb_true_r.
Qed.

(** After the distinct inputs [1, 1, 2, NULL] the values 1 and 2 are in
    the set. *)
Lemma distinct_value_set_grows_and_holds_the_batch_witness :
  let rows := [Model.decRow 1 0; Model.decRow 1 0; Model.decRow 2 0;
               Model.nullRow] in
  let q := {| dd_base := {| d_sum := NewDecFromInt 3; d_count := 2 |};
              dd_valSet := [NewDecFromInt 2; NewDecFromInt 1] |} in
  let l := [mkCall 0 (Model.decRow 1 0) None; mkCall 0 (Model.decRow 1 0) None;
            mkCall 0 (Model.decRow 2 0) None; mkCall 0 Model.nullRow None] in
  nth_error (args Model.avgOfColumn) 0 = Some (Model.Column 0) /\
  avgOriginal4DistinctDecimal_UpdatePartialResult Model.avgOfColumn rows
    avgOriginal4DistinctDecimal_AllocPartialResult = (q, l, None) /\
  Forall (decimalSeen (Model.Column 0) (dd_valSet q)) rows.
Proof.
  intros rows q l.
  refine (conj eq_refl (conj eq_refl _)).
  destruct (distinct_value_set_grows_and_holds_the_batch Model.avgOfColumn
              (input := Model.Column 0) eq_refl
              model_decimalSet_exist_insert model_decimalSet_insert_keeps
              model_float64Set_exist_insert model_float64Set_insert_keeps)
    as (_ & T & _).
  exact (T rows avgOriginal4DistinctDecimal_AllocPartialResult q l eq_refl).
Defined.

(** The distinct inputs [1, 1, 2, NULL], then the same batch again. *)
Lemma distinct_update_twice_is_once_witness :
  let rows := [Model.decRow 1 0; Model.decRow 1 0; Model.decRow 2 0;
               Model.nullRow] in
  let q := {| dd_base := {| d_sum := NewDecFromInt 3; d_count := 2 |};
              dd_valSet := [NewDecFromInt 2; NewDecFromInt 1] |} in
  let l := [mkCall 0 (Model.decRow 1 0) None; mkCall 0 (Model.decRow 1 0) None;
            mkCall 0 (Model.decRow 2 0) None; mkCall 0 Model.nullRow None] in
  nth_error (args Model.avgOfColumn) 0 = Some (Model.Column 0) /\
  avgOriginal4DistinctDecimal_UpdatePartialResult Model.avgOfColumn rows
    avgOriginal4DistinctDecimal_AllocPartialResult = (q, l, None) /\
  exists l',
    avgOriginal4DistinctDecimal_UpdatePartialResult Model.avgOfColumn rows q =
    (q, l', None).
Proof.
  intros rows q l.
  refine (conj eq_refl (conj eq_refl _)).
  destruct (distinct_update_twice_is_once Model.avgOfColumn
              (input := Model.Column 0) eq_refl
              model_decimalSet_exist_insert model_decimalSet_insert_keeps
              model_float64Set_exist_insert model_float64Set_insert_keeps)
    as [T _].
  exact (T rows avgOriginal4DistinctDecimal_AllocPartialResult q l eq_refl).
Defined.

(** ** Order of the rows, reuse of a partial result, unit counts *)

Section Values.
Context {X : Externals}.
Variables (e : baseAggFunc) (input : Expression).
Hypothesis He : nth_error (args e) 0 = Some input.
Variable dec_value : MyDecimal -> Q.
Hypothesis DecimalAdd_exact : forall a b c,
  DecimalAdd a b = (c, None) -> Qeq (dec_value c) (dec_value a + dec_value b).

(** X8.  The order of the rows does not matter to the original-phase
    functions, as far as a call returns nil: two calls on batches that are
    permutations of each other, from the same partial result, end with the
    same count and, for decimal with an exact DecimalAdd, with sums of the
    same value. *)
Theorem original_update_ignores_row_order :
  (forall rows rows' p q q' l l',
      Permutation rows rows' ->
      in_int64 (d_count p) ->
      avgOriginal4Decimal_UpdatePartialResult e rows p = (q, l, None) ->
      avgOriginal4Decimal_UpdatePartialResult e rows' p = (q', l', None) ->
      d_count q = d_count q' /\
      Qeq (dec_value (d_sum q)) (dec_value (d_sum q'))) /\
  (forall rows rows' p q q' l l',
      Permutation rows rows' ->
      in_int64 (f_count p) ->
      avgOriginal4Float64_UpdatePartialResult e rows p = (q, l, None) ->
      avgOriginal4Float64_UpdatePartialResult e rows' p = (q', l', None) ->
      f_count q = f_count q').
Proof.
  split.
  - intros rows rows' p q q' l l' Hperm Hp R R'.
    apply (avgOriginal4Decimal_run e He) in R; [| exact Hp].
    apply (avgOriginal4Decimal_run e He) in R'; [| exact Hp].
    destruct R as (_ & S & C). destruct R' as (_ & S' & C').
    assert (Hin : Permutation (decimalInputs input rows)
                    (decimalInputs input rows'))
      by (apply Permutation_flat_map, Hperm).
    split.
    + now rewrite C, C', (Permutation_length Hin).
    + rewrite (decimalAddAll_value dec_value DecimalAdd_exact _ _ S).
      rewrite (decimalAddAll_value dec_value DecimalAdd_exact _ _ S').
      now rewrite (sumQ_Permutation (Permutation_map dec_value Hin)).
  - intros rows rows' p q q' l l' Hperm Hp R R'.
    apply (avgOriginal4Float64_run e He) in R; [| exact Hp].
    apply (avgOriginal4Float64_run e He) in R'; [| exact Hp].
    destruct R as (_ & _ & C). destruct R' as (_ & _ & C').
    assert (Hin : Permutation (realInputs input rows) (realInputs input rows'))
      by (apply Permutation_flat_map, Hperm).
    now rewrite C, C', (Permutation_length Hin).
Qed.

Hypothesis zero_value : Qeq (dec_value MyDecimal_zero) 0.
Hypothesis NewDecFromInt_zero : Qeq (dec_value (NewDecFromInt 0)) 0.

(** X9.  A reset partial result is as good as a fresh one for what
    follows: the original-phase and the distinct decimal update, when
    they return nil on a batch from a reset partial result and from a
    fresh one, end with the same count and with sums of the same value,
    whatever the partial result held before the reset. *)
Theorem update_after_reset_is_update_after_alloc :
  (forall rows p0 q q' l l',
      avgOriginal4Decimal_UpdatePartialResult e rows
        (baseAvgDecimal_ResetPartialResult p0) = (q, l, None) ->
      avgOriginal4Decimal_UpdatePartialResult e rows
        baseAvgDecimal_AllocPartialResult = (q', l', None) ->
      d_count q = d_count q' /\
      Qeq (dec_value (d_sum q)) (dec_value (d_sum q'))) /\
  (forall rows p0 q q' l l',
      avgOriginal4DistinctDecimal_UpdatePartialResult e rows
        (avgOriginal4DistinctDecimal_ResetPartialResult p0) = (q, l, None) ->
      avgOriginal4DistinctDecimal_UpdatePartialResult e rows
        avgOriginal4DistinctDecimal_AllocPartialResult = (q', l', None) ->
      d_count (dd_base q) = d_count (dd_base q') /\
      Qeq (dec_value (d_sum (dd_base q))) (dec_value (d_sum (dd_base q')))).
Proof.
  assert (core : forall rows b q' l l',
             avgOriginal4Decimal_UpdatePartialResult e rows
               {| d_sum := NewDecFromInt 0; d_count := 0 |} = (b, l, None) ->
             avgOriginal4Decimal_UpdatePartialResult e rows
               {| d_sum := MyDecimal_zero; d_count := 0 |} = (q', l', None) ->
             d_count b = d_count q' /\
             Qeq (dec_value (d_sum b)) (dec_value (d_sum q'))).
  { intros rows b q' l l' R R'.
    apply (avgOriginal4Decimal_run e He) in R; [| unfold in_int64; cbn; lia].
    apply (avgOriginal4Decimal_run e He) in R'; [| unfold in_int64; cbn; lia].
    destruct R as (_ & S & C). destruct R' as (_ & S' & C').
    cbn [d_sum d_count] in *. split.
    - now rewrite C, C'.
    - rewrite (decimalAddAll_value dec_value DecimalAdd_exact _ _ S).
      rewrite (decimalAddAll_value dec_value DecimalAdd_exact _ _ S').
      now rewrite NewDecFromInt_zero, zero_value. }
  split.
  - intros rows p0 q q' l l' R R'. exact (core _ _ _ _ _ R R').
  - intros rows p0 q q' l l' R R'.
    apply (avgOriginal4DistinctDecimal_kept e He) in R.
    apply (avgOriginal4DistinctDecimal_kept e He) in R'.
    destruct R as [k R]. destruct R' as [k' R'].
    exact (core _ _ _ _ _ R R').
Qed.

End Values.

(** The rows [2, NULL, 4, 6] and the same rows as [6, 4, NULL, 2]. *)
Lemma original_update_ignores_row_order_witness :
  let rows := [Model.decRow 2 0; Model.nullRow; Model.decRow 4 0;
               Model.decRow 6 0] in
  let rows' := rev rows in
  let q := {| d_sum := NewDecFromInt 12; d_count := 3 |} in
  nth_error (args Model.avgOfColumn) 0 = Some (Model.Column 0) /\
  Permutation rows rows' /\
  in_int64 (d_count baseAvgDecimal_AllocPartialResult) /\
  fst (avgOriginal4Decimal_UpdatePartialResult Model.avgOfColumn rows
         baseAvgDecimal_AllocPartialResult) =
  (q, map (fun row => mkCall 0 row None) rows) /\
  fst (avgOriginal4Decimal_UpdatePartialResult Model.avgOfColumn rows'
         baseAvgDecimal_AllocPartialResult) =
  (q, map (fun row => mkCall 0 row None) rows') /\
  d_count q = d_count q /\
  Qeq (Model.dec_value (d_sum q)) (Model.dec_value (d_sum q)).
Proof.
  intros rows rows' q.
  assert (Hp : Permutation rows rows') by apply Permutation_rev.
  assert (Hr : in_int64 (d_count baseAvgDecimal_AllocPartialResult))
    by (unfold in_int64; cbn; lia).
  refine (conj eq_refl (conj Hp (conj Hr (conj eq_refl (conj eq_refl _))))).
  destruct (original_update_ignores_row_order Model.avgOfColumn
              (input := Model.Column 0) eq_refl Model.dec_value
              model_DecimalAdd_exact) as [T _].
  exact (T rows rows' baseAvgDecimal_AllocPartialResult q q _ _ Hp Hr
           eq_refl eq_refl).
Defined.

(** A partial result that held sum 99, count 7 is reset and then reads
    [2, 4]; a fresh one reads the same. *)
Lemma update_after_reset_is_update_after_alloc_witness :
  let rows := [Model.decRow 2 0; Model.decRow 4 0] in
  let p0 := {| d_sum := NewDecFromInt 99; d_count := 7 |} in
  let q := {| d_sum := NewDecFromInt 6; d_count := 2 |} in
  nth_error (args Model.avgOfColumn) 0 = Some (Model.Column 0) /\
  Qeq (Model.dec_value MyDecimal_zero) 0 /\
  Qeq (Model.dec_value (NewDecFromInt 0)) 0 /\
  fst (avgOriginal4Decimal_UpdatePartialResult Model.avgOfColumn rows
         (baseAvgDecimal_ResetPartialResult p0)) =
  (q, map (fun row => mkCall 0 row None) rows) /\
  d_count q = d_count q /\
  Qeq (Model.dec_value (d_sum q)) (Model.dec_value (d_sum q)).
Proof.
  intros rows p0 q.
  assert (Z0 : Qeq (Model.dec_value MyDecimal_zero) 0) by reflexivity.
  assert (I0 : Qeq (Model.dec_value (NewDecFromInt 0)) 0) by reflexivity.
  refine (conj eq_refl (conj Z0 (conj I0 (conj eq_refl _)))).
  destruct (update_after_reset_is_update_after_alloc Model.avgOfColumn
              (input := Model.Column 0) eq_refl Model.dec_value
              model_DecimalAdd_exact Z0 I0) as [T _].
  exact (T rows p0 q q _ _ eq_refl eq_refl).
Defined.

Section UnitCounts.
Context {X : Externals}.
Variables (e : baseAggFunc) (input : Expression).
Hypothesis He : nth_error (args e) 0 = Some input.
Variables (m : baseAggFunc) (inputCount inputSum : Expression).
Hypothesis Hm0 : nth_error (args m) 0 = Some inputCount.
Hypothesis Hm1 : nth_error (args m) 1 = Some inputSum.

Lemma avgPartial4Decimal_unit_counts (rows mrows : list Row)
    (p : partialResult4AvgDecimal) :
  Forall2 (fun row mrow =>
             EvalDecimal inputSum mrow = EvalDecimal input row /\
             EvalInt inputCount mrow = (1, false, None)) rows mrows ->
  fst (fst (avgPartial4Decimal_UpdatePartialResult m mrows p)) =
  fst (fst (avgOriginal4Decimal_UpdatePartialResult e rows p)) /\
  snd (avgPartial4Decimal_UpdatePartialResult m mrows p) =
  snd (avgOriginal4Decimal_UpdatePartialResult e rows p).
Proof.
  unfold avgPartial4Decimal_UpdatePartialResult,
    avgOriginal4Decimal_UpdatePartialResult.
  intros F. revert p.
  induction F as [| row mrow rows mrows [Es Ec] _ IH]; intros p.
  - now rewrite !runUpdate_nil.
  - rewrite (runUpdate_cons (avgPartial4Decimal_uniform m)).
    rewrite (runUpdate_cons (avgOriginal4Decimal_uniform e)).
    unfold rowStep.
    change (runUpdate (avgPartial4Decimal_body m) [mrow] p)
      with (avgPartial4Decimal_UpdatePartialResult m [mrow] p).
    change (runUpdate (avgOriginal4Decimal_body e) [row] p)
      with (avgOriginal4Decimal_UpdatePartialResult e [row] p).
    rewrite (avgPartial4Decimal_row m Hm0 Hm1), (avgOriginal4Decimal_row e He).
    rewrite Es, Ec.
    destruct (EvalDecimal input row) as [[v [|]] [er |]]; try (now cbn).
    + specialize (IH p).
      destruct (runUpdate (avgPartial4Decimal_body m) mrows p) as [[a b] c].
      now destruct (runUpdate (avgOriginal4Decimal_body e) rows p) as [[a' b'] c'].
    + destruct (DecimalAdd (d_sum p) v) as [s [er |]]; [now cbn |].
      specialize (IH {| d_sum := s; d_count := int64_wrap (d_count p + 1) |}).
      destruct (runUpdate (avgPartial4Decimal_body m) mrows _) as [[a b] c].
      now destruct (runUpdate (avgOriginal4Decimal_body e) rows _) as [[a' b'] c'].
Qed.

Lemma avgPartial4Float64_unit_counts (rows mrows : list Row)
    (p : partialResult4AvgFloat64) :
  Forall2 (fun row mrow =>
             EvalReal inputSum mrow = EvalReal input row /\
             EvalInt inputCount mrow = (1, false, None)) rows mrows ->
  fst (fst (avgPartial4Float64_UpdatePartialResult m mrows p)) =
  fst (fst (avgOriginal4Float64_UpdatePartialResult e rows p)) /\
  snd (avgPartial4Float64_UpdatePartialResult m mrows p) =
  snd (avgOriginal4Float64_UpdatePartialResult e rows p).
Proof.
  unfold avgPartial4Float64_UpdatePartialResult,
    avgOriginal4Float64_UpdatePartialResult.
  intros F. revert p.
  induction F as [| row mrow rows mrows [Es Ec] _ IH]; intros p.
  - now rewrite !runUpdate_nil.
  - rewrite (runUpdate_cons (avgPartial4Float64_uniform m)).
    rewrite (runUpdate_cons (avgOriginal4Float64_uniform e)).
    unfold rowStep.
    change (runUpdate (avgPartial4Float64_body m) [mrow] p)
      with (avgPartial4Float64_UpdatePartialResult m [mrow] p).
    change (runUpdate (avgOriginal4Float64_body e) [row] p)
      with (avgOriginal4Float64_UpdatePartialResult e [row] p).
    rewrite (avgPartial4Float64_row m Hm0 Hm1), (avgOriginal4Float64_row e He).
    rewrite Es, Ec.
    destruct (EvalReal input row) as [[v [|]] [er |]]; try (now cbn).
    + specialize (IH p).
      destruct (runUpdate (avgPartial4Float64_body m) mrows p) as [[a b] c].
      now destruct (runUpdate (avgOriginal4Float64_body e) rows p) as [[a' b'] c'].
    + specialize (IH {| f_sum := PrimFloat.add (f_sum p) v;
                        f_count := int64_wrap (f_count p + 1) |}).
      destruct (runUpdate (avgPartial4Float64_body m) mrows _) as [[a b] c].
      now destruct (runUpdate (avgOriginal4Float64_body e) rows _) as [[a' b'] c'].
Qed.

(** X10.  The original phase is the merging phase over pairs of count 1:
    when the sum argument of the merging function yields on each row what
    the argument of the original-phase function yields on the row it
    stands for, and the count argument yields 1, both calls leave the same
    partial result and return the same error, from any partial result. *)
Theorem original_update_is_merge_of_unit_counts :
  (forall rows mrows p,
      Forall2 (fun row mrow =>
                 EvalDecimal inputSum mrow = EvalDecimal input row /\
                 EvalInt inputCount mrow = (1, false, None)) rows mrows ->
      fst (fst (avgPartial4Decimal_UpdatePartialResult m mrows p)) =
      fst (fst (avgOriginal4Decimal_UpdatePartialResult e rows p)) /\
      snd (avgPartial4Decimal_UpdatePartialResult m mrows p) =
      snd (avgOriginal4Decimal_UpdatePartialResult e rows p)) /\
  (forall rows mrows p,
      Forall2 (fun row mrow =>
                 EvalReal inputSum mrow = EvalReal input row /\
                 EvalInt inputCount mrow = (1, false, None)) rows mrows ->
      fst (fst (avgPartial4Float64_UpdatePartialResult m mrows p)) =
      fst (fst (avgOriginal4Float64_UpdatePartialResult e rows p)) /\
      snd (avgPartial4Float64_UpdatePartialResult m mrows p) =
      snd (avgOriginal4Float64_UpdatePartialResult e rows p)).
Proof.
  split; intros rows mrows p.
  - apply avgPartial4Decimal_unit_counts.
  - apply avgPartial4Float64_unit_counts.
Qed.

End UnitCounts.

(** The values [2, NULL, unreadable] and the pairs (1, 2), (1, NULL),
    (1, unreadable). *)
Lemma original_update_is_merge_of_unit_counts_witness :
  let rows := [Model.decRow 2 0; Model.nullRow; Model.badRow] in
  let mrows : list Row :=
    [Model.decPair 1 2; [Model.DInt 1; Model.DNull]; [Model.DInt 1; Model.DBad]] in
  nth_error (args Model.avgOfColumn) 0 = Some (Model.Column 0) /\
  nth_error (args Model.avgOfPartials) 0 = Some (Model.Column 0) /\
  nth_error (args Model.avgOfPartials) 1 = Some (Model.Column 1) /\
  Forall2 (fun row mrow =>
             EvalDecimal (Model.Column 1) mrow = EvalDecimal (Model.Column 0) row /\
             EvalInt (Model.Column 0) mrow = (1, false, None)) rows mrows /\
  fst (fst (avgPartial4Decimal_UpdatePartialResult Model.avgOfPartials mrows
              baseAvgDecimal_AllocPartialResult)) =
  fst (fst (avgOriginal4Decimal_UpdatePartialResult Model.avgOfColumn rows
              baseAvgDecimal_AllocPartialResult)) /\
  snd (avgPartial4Decimal_UpdatePartialResult Model.avgOfPartials mrows
         baseAvgDecimal_AllocPartialResult) =
  snd (avgOriginal4Decimal_UpdatePartialResult Model.avgOfColumn rows
         baseAvgDecimal_AllocPartialResult).
Proof.
  intros rows mrows.
  assert (F : Forall2 (fun row mrow =>
                EvalDecimal (Model.Column 1) mrow =
                EvalDecimal (Model.Column 0) row /\
                EvalInt (Model.Column 0) mrow = (1, false, None)) rows mrows)
    by (repeat constructor).
  refine (conj eq_refl (conj eq_refl (conj eq_refl (conj F _)))).
  destruct (original_update_is_merge_of_unit_counts Model.avgOfColumn
              (input := Model.Column 0) eq_refl Model.avgOfPartials
              (inputCount := Model.Column 0) (inputSum := Model.Column 1)
              eq_refl eq_refl) as [T _].
  exact (T rows mrows baseAvgDecimal_AllocPartialResult F).
Defined.

(** ** Counts of distinct values, merged counts *)

Section DistinctCounts.
Context {X : Externals}.
Variables (e : baseAggFunc) (input : Expression).
Hypothesis He : nth_error (args e) 0 = Some input.

Lemma avgOriginal4DistinctDecimal_inserted (rows : list Row)
    (p q : partialResult4AvgDistinctDecimal) (l : list EvalCall) :
  avgOriginal4DistinctDecimal_UpdatePartialResult e rows p = (q, l, None) ->
  dd_valSet q =
  fold_left decimalSet_insert
    (decimalInputs input (keptDecimalRows input (dd_valSet p) rows))
    (dd_valSet p).
Proof.
  unfold avgOriginal4DistinctDecimal_UpdatePartialResult.
  revert p l. induction rows as [| row rows IH]; intros p l H.
  - rewrite runUpdate_nil in H. now inversion H; subst.
  - rewrite (runUpdate_cons (avgOriginal4DistinctDecimal_uniform e)) in H.
    unfold rowStep in H.
    change (runUpdate (avgOriginal4DistinctDecimal_body e) [row] p)
      with (avgOriginal4DistinctDecimal_UpdatePartialResult e [row] p) in H.
    rewrite (avgOriginal4DistinctDecimal_row e He) in H.
    cbn [keptDecimalRows].
    destruct (EvalDecimal input row) as [[v [|]] [er |]] eqn:Ev;
      cbn [orb] in H; try discriminate.
    + destruct (runUpdate (avgOriginal4DistinctDecimal_body e) rows p)
        as [[p2 l2] r2] eqn:R.
      inversion H; subst. unfold decimalInputs. cbn [flat_map].
      rewrite Ev. cbn [app]. exact (IH _ _ R).
    + destruct (decimalSet_exist (dd_valSet p) v).
      * destruct (runUpdate (avgOriginal4DistinctDecimal_body e) rows p)
          as [[p2 l2] r2] eqn:R.
        inversion H; subst. exact (IH _ _ R).
      * destruct (DecimalAdd (d_sum (dd_base p)) v) as [s [er |]];
          [discriminate |].
        destruct (runUpdate (avgOriginal4DistinctDecimal_body e) rows _)
          as [[p2 l2] r2] eqn:R.
        inversion H; subst. unfold decimalInputs. cbn [flat_map].
        rewrite Ev. cbn [app fold_left]. exact (IH _ _ R).
Qed.

Lemma avgOriginal4DistinctFloat64_inserted (rows : list Row)
    (p q : partialResult4AvgDistinctFloat64) (l : list EvalCall) :
  avgOriginal4DistinctFloat64_UpdatePartialResult e rows p = (q, l, None) ->
  fd_valSet q =
  fold_left float64Set_insert
    (realInputs input (keptRealRows input (fd_valSet p) rows)) (fd_valSet p).
Proof.
  unfold avgOriginal4DistinctFloat64_UpdatePartialResult.
  revert p l. induction rows as [| row rows IH]; intros p l H.
  - rewrite runUpdate_nil in H. now inversion H; subst.
  - rewrite (runUpdate_cons (avgOriginal4DistinctFloat64_uniform e)) in H.
    unfold rowStep in H.
    change (runUpdate (avgOriginal4DistinctFloat64_body e) [row] p)
      with (avgOriginal4DistinctFloat64_UpdatePartialResult e [row] p) in H.
    rewrite (avgOriginal4DistinctFloat64_row e He) in H.
    cbn [keptRealRows].
    destruct (EvalReal input row) as [[v [|]] [er |]] eqn:Ev;
      cbn [orb] in H; try discriminate.
    + destruct (runUpdate (avgOriginal4DistinctFloat64_body e) rows p)
        as [[p2 l2] r2] eqn:R.
      inversion H; subst. unfold realInputs. cbn [flat_map].
      rewrite Ev. cbn [app]. exact (IH _ _ R).
    + destruct (float64Set_exist (fd_valSet p) v).
      * destruct (runUpdate (avgOriginal4DistinctFloat64_body e) rows p)
          as [[p2 l2] r2] eqn:R.
        inversion H; subst. exact (IH _ _ R).
      * destruct (runUpdate (avgOriginal4DistinctFloat64_body e) rows _)
          as [[p2 l2] r2] eqn:R.
        inversion H; subst. unfold realInputs. cbn [flat_map].
        rewrite Ev. cbn [app fold_left]. exact (IH _ _ R).
Qed.

(** X11.  What a distinct call that returned nil has counted is what it
    has inserted: the values of the rows it did not skip are, in row
    order, the values inserted into the value set, the values added to
    the sum, and as many as the count has grown by. *)
Theorem distinct_update_counts_its_insertions :
  (forall rows p q l,
      in_int64 (d_count (dd_base p)) ->
      avgOriginal4DistinctDecimal_UpdatePartialResult e rows p = (q, l, None) ->
      let vs := decimalInputs input (keptDecimalRows input (dd_valSet p) rows) in
      dd_valSet q = fold_left decimalSet_insert vs (dd_valSet p) /\
      decimalAddAll (d_sum (dd_base p)) vs = Some (d_sum (dd_base q)) /\
      d_count (dd_base q) =
      int64_wrap (d_count (dd_base p) + Z.of_nat (length vs))) /\
  (forall rows p q l,
      in_int64 (f_count (fd_base p)) ->
      avgOriginal4DistinctFloat64_UpdatePartialResult e rows p = (q, l, None) ->
      let vs := realInputs input (keptRealRows input (fd_valSet p) rows) in
      fd_valSet q = fold_left float64Set_insert vs (fd_valSet p) /\
      float64AddAll (f_sum (fd_base p)) vs = f_sum (fd_base q) /\
      f_count (fd_base q) =
      int64_wrap (f_count (fd_base p) + Z.of_nat (length vs))).
Proof.
  split.
  - intros rows p q l Hp H vs. split.
    + exact (avgOriginal4DistinctDecimal_inserted _ _ H).
    + destruct (avgOriginal4DistinctDecimal_kept e He _ _ H) as [l' K].
      apply (avgOriginal4Decimal_run e He) in K; [| exact Hp].
      destruct K as (_ & S & C). now split.
  - intros rows p q l Hp H vs. split.
    + exact (avgOriginal4DistinctFloat64_inserted _ _ H).
    + destruct (avgOriginal4DistinctFloat64_kept e He _ _ H) as [l' K].
      apply (avgOriginal4Float64_run e He) in K; [| exact Hp].
      destruct K as (_ & S & C). now split.
Qed.

End DistinctCounts.

Section MergedCounts.
Context {X : Externals}.
Variables (e : baseAggFunc) (input : Expression).
Hypothesis He : nth_error (args e) 0 = Some input.
Variables (m : baseAggFunc) (inputCount inputSum : Expression).
Hypothesis Hm0 : nth_error (args m) 0 = Some inputCount.
Hypothesis Hm1 : nth_error (args m) 1 = Some inputSum.

(** X12.  From a fresh partial result, through any sequence of merging
    calls that returned nil, to the final result: the count is the int64
    sum of the counts of the pairs read, the sum is the left-to-right sum
    of their sums, and the final cell is NULL exactly when that count is
    0 (so pairs whose counts add up to 0 give NULL whatever their sums)
    and the sum divided by that count otherwise. *)
Theorem merged_average_of_the_pairs :
  (forall batches p chk,
      updates (avgPartial4Decimal_UpdatePartialResult m) batches
        baseAvgDecimal_AllocPartialResult = (p, None) ->
      let pairs := decimalPairs inputCount inputSum (concat batches) in
      let n := int64_wrap (sumZ (map snd pairs)) in
      d_count p = n /\
      decimalAddAll MyDecimal_zero (map fst pairs) = Some (d_sum p) /\
      (n = 0 ->
       baseAvgDecimal_AppendFinalResult2Chunk m p chk =
       (AppendNull (ordinal m) chk, None)) /\
      (n <> 0 ->
       baseAvgDecimal_AppendFinalResult2Chunk m p chk =
       match DecimalDiv (d_sum p) (NewDecFromInt n) DivFracIncr with
       | (r, None) => (AppendMyDecimal (ordinal m) r chk, None)
       | (_, Some er) => (chk, Some (Trace er))
       end)) /\
  (forall batches p chk,
      updates (avgPartial4Float64_UpdatePartialResult m) batches
        baseAvgFloat64_AllocPartialResult = (p, None) ->
      let pairs := realPairs inputCount inputSum (concat batches) in
      let n := int64_wrap (sumZ (map snd pairs)) in
      f_count p = n /\
      f_sum p = float64AddAll 0%float (map fst pairs) /\
      (n = 0 ->
       baseAvgFloat64_AppendFinalResult2Chunk m p chk =
       (AppendNull (ordinal m) chk, None)) /\
      (n <> 0 ->
       baseAvgFloat64_AppendFinalResult2Chunk m p chk =
       (AppendFloat64 (ordinal m)
          (PrimFloat.div (float64AddAll 0%float (map fst pairs))
             (float64_of_int64 n)) chk, None))).
Proof.
  split.
  - intros batches p chk H pairs n.
    destruct (updates_concat (avgPartial4Decimal_uniform m) _ _ H) as [l R].
    apply (avgPartial4Decimal_run m Hm0 Hm1) in R; [| apply fresh_count_in_int64].
    destruct R as (S & C).
    cbn [baseAvgDecimal_AllocPartialResult d_sum d_count] in S, C.
    rewrite Z.add_0_l in C. fold pairs in S, C. fold n in C.
    unfold baseAvgDecimal_AppendFinalResult2Chunk. rewrite C.
    repeat split; auto.
    + intros ->. reflexivity.
    + intros N. apply Z.eqb_neq in N. now rewrite N.
  - intros batches p chk H pairs n.
    destruct (updates_concat (avgPartial4Float64_uniform m) _ _ H) as [l R].
    apply (avgPartial4Float64_run m Hm0 Hm1) in R; [| unfold in_int64; cbn; lia].
    destruct R as (S & C).
    cbn [baseAvgFloat64_AllocPartialResult f_sum f_count] in S, C.
    rewrite Z.add_0_l in C. fold pairs in S, C. fold n in C.
    unfold baseAvgFloat64_AppendFinalResult2Chunk. rewrite C, <- S.
    repeat split; auto.
    + intros ->. reflexivity.
    + intros N. apply Z.eqb_neq in N. now rewrite N.
Qed.

Lemma real_partials_count_up (parts : list (list Row)) (partials : list Row) :
  Forall2 (carriesRealPartial e inputCount inputSum) parts partials ->
  int64_wrap (sumZ (map snd (realPairs inputCount inputSum partials))) =
  int64_wrap (Z.of_nat (length (realInputs input (concat parts)))).
Proof.
  induction 1 as [| part prow parts partials (pi & li & R & Es & Ec) _ IH].
  - reflexivity.
  - apply (avgOriginal4Float64_run e He) in R; [| unfold in_int64; cbn; lia].
    destruct R as (_ & _ & C).
    cbn [baseAvgFloat64_AllocPartialResult f_count] in C.
    unfold realPairs, realInputs. cbn [flat_map concat].
    rewrite Es, Ec, flat_map_app.
    fold (realPairs inputCount inputSum partials).
    fold (realInputs input part). fold (realInputs input (concat parts)).
    cbn [app map snd sumZ fold_right].
    fold (sumZ (map snd (realPairs inputCount inputSum partials))).
    rewrite length_app, Nat2Z.inj_add, C.
    rewrite int64_wrap_add_l, <- int64_wrap_add_r, IH, int64_wrap_add_r.
    reflexivity.
Qed.

(** X13.  The count of the float64 functions merges like the decimal one:
    for any cut of a group into parts, any order of the rows of the whole
    group and any order of the partial results, the merging call and the
    original-phase call over the whole, when both return nil, end with
    the same count.  (Nothing of the kind is stated of the float64 sums:
    float64 addition is not associative.) *)
Theorem float64_counts_merge
    (parts : list (list Row)) (whole partials mrows : list Row)
    (P Q : partialResult4AvgFloat64) (lP lQ : list EvalCall) :
  Permutation whole (concat parts) ->
  Forall2 (carriesRealPartial e inputCount inputSum) parts partials ->
  Permutation mrows partials ->
  avgOriginal4Float64_UpdatePartialResult e whole
    baseAvgFloat64_AllocPartialResult = (P, lP, None) ->
  avgPartial4Float64_UpdatePartialResult m mrows
    baseAvgFloat64_AllocPartialResult = (Q, lQ, None) ->
  f_count Q = f_count P.
Proof.
  intros Hw Hp Hm RP RQ.
  apply (avgOriginal4Float64_run e He) in RP; [| unfold in_int64; cbn; lia].
  destruct RP as (_ & _ & CP).
  apply (avgPartial4Float64_run m Hm0 Hm1) in RQ; [| unfold in_int64; cbn; lia].
  destruct RQ as (_ & CQ).
  cbn [baseAvgFloat64_AllocPartialResult f_count] in CP, CQ.
  assert (Hpairs : Permutation (realPairs inputCount inputSum mrows)
                     (realPairs inputCount inputSum partials))
    by (apply Permutation_flat_map, Hm).
  assert (Hinputs : Permutation (realInputs input whole)
                      (realInputs input (concat parts)))
    by (apply Permutation_flat_map, Hw).
  rewrite CQ, CP, !Z.add_0_l.
  rewrite (sumZ_Permutation (Permutation_map snd Hpairs)).
  rewrite (real_partials_count_up Hp).
  now rewrite (Permutation_length Hinputs).
Qed.

End MergedCounts.

(** The distinct inputs [1, 1, 2, NULL]: the values 1 and 2 are inserted,
    added and counted. *)
Lemma distinct_update_counts_its_insertions_witness :
  let rows := [Model.decRow 1 0; Model.decRow 1 0; Model.decRow 2 0;
               Model.nullRow] in
  let p := avgOriginal4DistinctDecimal_AllocPartialResult in
  let q := {| dd_base := {| d_sum := NewDecFromInt 3; d_count := 2 |};
              dd_valSet := [NewDecFromInt 2; NewDecFromInt 1] |} in
  let vs := decimalInputs (Model.Column 0)
              (keptDecimalRows (Model.Column 0) (dd_valSet p) rows) in
  nth_error (args Model.avgOfColumn) 0 = Some (Model.Column 0) /\
  in_int64 (d_count (dd_base p)) /\
  fst (avgOriginal4DistinctDecimal_UpdatePartialResult Model.avgOfColumn rows p)
  = (q, map (fun row => mkCall 0 row None) rows) /\
  vs = [NewDecFromInt 1; NewDecFromInt 2] /\
  dd_valSet q = fold_left decimalSet_insert vs (dd_valSet p) /\
  decimalAddAll (d_sum (dd_base p)) vs = Some (d_sum (dd_base q)) /\
  d_count (dd_base q) = int64_wrap (d_count (dd_base p) + Z.of_nat (length vs)).
Proof.
  intros rows p q vs.
  assert (Hr : in_int64 (d_count (dd_base p))) by (unfold in_int64; cbn; lia).
  refine (conj eq_refl (conj Hr (conj eq_refl (conj eq_refl _)))).
  destruct (distinct_update_counts_its_insertions Model.avgOfColumn
              (input := Model.Column 0) eq_refl) as [T _].
  exact (T rows p q _ Hr eq_refl).
Defined.

(** The pairs (sum 10, count 2) and (sum 5, count -2): the counts add up
    to 0 and the final cell is NULL, with a sum of 15. *)
Lemma merged_average_of_the_pairs_witness :
  let batches := [[Model.decPair 2 10]; [Model.decPair (-2) 5]] in
  let p := {| d_sum := NewDecFromInt 15; d_count := 0 |} in
  nth_error (args Model.avgOfPartials) 0 = Some (Model.Column 0) /\
  nth_error (args Model.avgOfPartials) 1 = Some (Model.Column 1) /\
  updates (avgPartial4Decimal_UpdatePartialResult Model.avgOfPartials) batches
    baseAvgDecimal_AllocPartialResult = (p, None) /\
  int64_wrap (sumZ (map snd (decimalPairs (Model.Column 0) (Model.Column 1)
                               (concat batches)))) = 0 /\
  baseAvgDecimal_AppendFinalResult2Chunk Model.avgOfPartials p Model.emptyChunk =
  (AppendNull 0 Model.emptyChunk, None).
Proof.
  intros batches p.
  refine (conj eq_refl (conj eq_refl (conj eq_refl (conj eq_refl _)))).
  destruct (merged_average_of_the_pairs Model.avgOfPartials
              (inputCount := Model.Column 0) (inputSum := Model.Column 1)
              eq_refl eq_refl) as [T _].
  destruct (T batches p Model.emptyChunk eq_refl) as (_ & _ & T0 & _).
  exact (T0 eq_refl).
Defined.

(** The float64 group [1.5, 2.5, 4] cut into [1.5, 2.5] and [4]. *)
Lemma float64_counts_merge_witness :
  let parts := [[Model.realRow 1.5; Model.realRow 2.5]; [Model.realRow 4]] in
  let whole := [Model.realRow 4; Model.realRow 1.5; Model.realRow 2.5] in
  let partials := [Model.realPair 2 4; Model.realPair 1 4] in
  let mrows := [Model.realPair 1 4; Model.realPair 2 4] in
  let P := {| f_sum := 8%float; f_count := 3 |} in
  nth_error (args Model.avgOfColumn) 0 = Some (Model.Column 0) /\
  nth_error (args Model.avgOfPartials) 0 = Some (Model.Column 0) /\
  nth_error (args Model.avgOfPartials) 1 = Some (Model.Column 1) /\
  Permutation whole (concat parts) /\
  Forall2 (carriesRealPartial Model.avgOfColumn (Model.Column 0) (Model.Column 1))
    parts partials /\
  Permutation mrows partials /\
  fst (avgOriginal4Float64_UpdatePartialResult Model.avgOfColumn whole
         baseAvgFloat64_AllocPartialResult) =
  (P, map (fun row => mkCall 0 row None) whole) /\
  fst (fst (avgPartial4Float64_UpdatePartialResult Model.avgOfPartials mrows
              baseAvgFloat64_AllocPartialResult)) = P /\
  f_count P = f_count P.
Proof.
  intros parts whole partials mrows P.
  assert (Hw : Permutation whole (concat parts)).
  { apply (Permutation_cons_app [Model.realRow 1.5; Model.realRow 2.5] []).
    apply Permutation_refl. }
  assert (Hp : Forall2 (carriesRealPartial Model.avgOfColumn (Model.Column 0)
                          (Model.Column 1)) parts partials).
  { constructor; [| constructor; [| constructor]].
    - exists {| f_sum := 4%float; f_count := 2 |},
        [mkCall 0 (Model.realRow 1.5) None; mkCall 0 (Model.realRow 2.5) None].
      repeat split.
    - exists {| f_sum := 4%float; f_count := 1 |},
        [mkCall 0 (Model.realRow 4) None].
      repeat split. }
  assert (Hm : Permutation mrows partials) by apply perm_swap.
  refine (conj eq_refl (conj eq_refl (conj eq_refl (conj Hw (conj Hp
            (conj Hm (conj eq_refl (conj eq_refl _)))))))).
  exact (float64_counts_merge (e := Model.avgOfColumn)
           (input := Model.Column 0) eq_refl Model.avgOfPartials
           (inputCount := Model.Column 0) (inputSum := Model.Column 1)
           eq_refl eq_refl Hw Hp Hm (lP := map (fun row => mkCall 0 row None) whole)
           (lQ := [mkCall 1 (Model.realPair 1 4) None;
                   mkCall 0 (Model.realPair 1 4) None;
                   mkCall 1 (Model.realPair 2 4) None;
                   mkCall 0 (Model.realPair 2 4) None])
           eq_refl eq_refl).
Defined.

(** The float64 sums themselves do not merge: the doubles nearest to 0.1,
    0.2 and 0.3, read in one go and read as [0.1] and [0.2, 0.3], end with
    different sums. *)
Example float64_sums_do_not_merge :
  let a := 0x1.999999999999ap-4%float in
  let b := 0x1.999999999999ap-3%float in
  let c := 0x1.3333333333333p-2%float in
  let whole := [Model.realRow a; Model.realRow b; Model.realRow c] in
  let mrows := [Model.realPair 1 a; Model.realPair 2 (PrimFloat.add b c)] in
  f_sum (fst (fst (avgOriginal4Float64_UpdatePartialResult Model.avgOfColumn
                     [Model.realRow b; Model.realRow c]
                     baseAvgFloat64_AllocPartialResult))) =
  PrimFloat.add b c /\
  PrimFloat.eqb
    (f_sum (fst (fst (avgOriginal4Float64_UpdatePartialResult Model.avgOfColumn
                        whole baseAvgFloat64_AllocPartialResult))))
    (f_sum (fst (fst (avgPartial4Float64_UpdatePartialResult Model.avgOfPartials
                        mrows baseAvgFloat64_AllocPartialResult)))) = false.
Proof. cbv zeta. split; reflexivity. Qed.

(** ** Merging in several levels *)

Lemma sumZ_app (l l' : list Z) : sumZ (l ++ l') = sumZ l + sumZ l'.
Proof.
  unfold sumZ. induction l as [| x l IH]; cbn [app fold_right]; lia.
Qed.

Section Levels.
Context {X : Externals}.
Variables (m : baseAggFunc) (inputCount inputSum : Expression).
Hypothesis Hm0 : nth_error (args m) 0 = Some inputCount.
Hypothesis Hm1 : nth_error (args m) 1 = Some inputSum.
Variable dec_value : MyDecimal -> Q.
Hypothesis zero_value : Qeq (dec_value MyDecimal_zero) 0.
Hypothesis DecimalAdd_exact : forall a b c,
  DecimalAdd a b = (c, None) -> Qeq (dec_value c) (dec_value a + dec_value b).

Lemma merged_partials_sum_up (parts : list (list Row)) (partials : list Row) :
  Forall2 (carriesMerged m inputCount inputSum) parts partials ->
  let upper := decimalPairs inputCount inputSum partials in
  let lower := decimalPairs inputCount inputSum (concat parts) in
  Qeq (sumQ (map dec_value (map fst upper)))
      (sumQ (map dec_value (map fst lower))) /\
  int64_wrap (sumZ (map snd upper)) = int64_wrap (sumZ (map snd lower)).
Proof.
  induction 1 as [| part prow parts partials (pi & li & R & Es & Ec) _ IH].
  - cbn. split; reflexivity.
  - destruct IH as [IHs IHc].
    apply (avgPartial4Decimal_run m Hm0 Hm1) in R; [| apply fresh_count_in_int64].
    destruct R as (S & C).
    apply (decimalAddAll_value dec_value DecimalAdd_exact) in S.
    cbn [baseAvgDecimal_AllocPartialResult d_sum d_count] in S, C.
    rewrite zero_value in S. rewrite Z.add_0_l in C.
    unfold decimalPairs. cbn [flat_map concat].
    rewrite Es, Ec, flat_map_app.
    fold (decimalPairs inputCount inputSum partials).
    fold (decimalPairs inputCount inputSum part).
    fold (decimalPairs inputCount inputSum (concat parts)).
    cbn [app map fst snd].
    split.
    + set (up := map dec_value (map fst (decimalPairs inputCount inputSum partials)))
        in *.
      change (sumQ (dec_value (d_sum pi) :: up))
        with (dec_value (d_sum pi) + sumQ up)%Q.
      rewrite !map_app, sumQ_app, IHs, S. ring.
    + change (sumZ (d_count pi ::
                    map snd (decimalPairs inputCount inputSum partials)))
        with (d_count pi +
              sumZ (map snd (decimalPairs inputCount inputSum partials))).
      rewrite map_app, sumZ_app, C.
      rewrite int64_wrap_add_l, <- int64_wrap_add_r, IHc, int64_wrap_add_r.
      reflexivity.
Qed.

(** X14.  Merging composes over levels.  Cut a batch of (sum, count)
    pairs into parts in any way, merge each part from a fresh partial
    result, and merge the results, in any order, once more: when that
    call and the merging call over the whole batch (in any order) both
    return nil, they end with the same count and, for an exact
    DecimalAdd, with sums of the same value. *)
Theorem merging_composes_over_levels
    (parts : list (list Row)) (whole partials mrows : list Row)
    (P Q : partialResult4AvgDecimal) (lP lQ : list EvalCall) :
  Permutation whole (concat parts) ->
  Forall2 (carriesMerged m inputCount inputSum) parts partials ->
  Permutation mrows partials ->
  avgPartial4Decimal_UpdatePartialResult m whole
    baseAvgDecimal_AllocPartialResult = (P, lP, None) ->
  avgPartial4Decimal_UpdatePartialResult m mrows
    baseAvgDecimal_AllocPartialResult = (Q, lQ, None) ->
  Qeq (dec_value (d_sum Q)) (dec_value (d_sum P)) /\ d_count Q = d_count P.
Proof.
  intros Hw Hp Hm RP RQ.
  apply (avgPartial4Decimal_run m Hm0 Hm1) in RP; [| apply fresh_count_in_int64].
  apply (avgPartial4Decimal_run m Hm0 Hm1) in RQ; [| apply fresh_count_in_int64].
  destruct RP as (SP & CP). destruct RQ as (SQ & CQ).
  apply (decimalAddAll_value dec_value DecimalAdd_exact) in SP.
  apply (decimalAddAll_value dec_value DecimalAdd_exact) in SQ.
  cbn [baseAvgDecimal_AllocPartialResult d_sum d_count] in SP, CP, SQ, CQ.
  destruct (merged_partials_sum_up Hp) as [Hs Hc].
  assert (Hupper : Permutation (decimalPairs inputCount inputSum mrows)
                     (decimalPairs inputCount inputSum partials))
    by (apply Permutation_flat_map, Hm).
  assert (Hlower : Permutation (decimalPairs inputCount inputSum whole)
                     (decimalPairs inputCount inputSum (concat parts)))
    by (apply Permutation_flat_map, Hw).
  split.
  - rewrite SQ, SP.
    rewrite (sumQ_Permutation
               (Permutation_map dec_value (Permutation_map fst Hupper))).
    rewrite (sumQ_Permutation
               (Permutation_map dec_value (Permutation_map fst Hlower))).
    now rewrite Hs.
  - rewrite CQ, CP, !Z.add_0_l.
    rewrite (sumZ_Permutation (Permutation_map snd Hupper)).
    rewrite (sumZ_Permutation (Permutation_map snd Hlower)).
    exact Hc.
Qed.

End Levels.

(** The pairs (10, 2), (20, 3), (5, 1), merged as [(10, 2), (20, 3)] and
    [(5, 1)] and then once more, against all three merged at once. *)
Lemma merging_composes_over_levels_witness :
  let parts := [[Model.decPair 2 10; Model.decPair 3 20]; [Model.decPair 1 5]] in
  let whole := [Model.decPair 1 5; Model.decPair 2 10; Model.decPair 3 20] in
  let partials := [Model.decPair 5 30; Model.decPair 1 5] in
  let mrows := [Model.decPair 1 5; Model.decPair 5 30] in
  let P := {| d_sum := NewDecFromInt 35; d_count := 6 |} in
  nth_error (args Model.avgOfPartials) 0 = Some (Model.Column 0) /\
  nth_error (args Model.avgOfPartials) 1 = Some (Model.Column 1) /\
  Qeq (Model.dec_value MyDecimal_zero) 0 /\
  Permutation whole (concat parts) /\
  Forall2 (carriesMerged Model.avgOfPartials (Model.Column 0) (Model.Column 1))
    parts partials /\
  Permutation mrows partials /\
  fst (fst (avgPartial4Decimal_UpdatePartialResult Model.avgOfPartials whole
              baseAvgDecimal_AllocPartialResult)) = P /\
  fst (fst (avgPartial4Decimal_UpdatePartialResult Model.avgOfPartials mrows
              baseAvgDecimal_AllocPartialResult)) = P /\
  Qeq (Model.dec_value (d_sum P)) (Model.dec_value (d_sum P)) /\
  d_count P = d_count P.
Proof.
  intros parts whole partials mrows P.
  assert (Z0 : Qeq (Model.dec_value MyDecimal_zero) 0) by reflexivity.
  assert (Hw : Permutation whole (concat parts)).
  { apply (Permutation_cons_app [Model.decPair 2 10; Model.decPair 3 20] []).
    apply Permutation_refl. }
  assert (Hp : Forall2 (carriesMerged Model.avgOfPartials (Model.Column 0)
                          (Model.Column 1)) parts partials).
  { constructor; [| constructor; [| constructor]].
    - exists {| d_sum := NewDecFromInt 30; d_count := 5 |},
        [mkCall 1 (Model.decPair 2 10) None; mkCall 0 (Model.decPair 2 10) None;
         mkCall 1 (Model.decPair 3 20) None; mkCall 0 (Model.decPair 3 20) None].
      repeat split.
    - exists {| d_sum := NewDecFromInt 5; d_count := 1 |},
        [mkCall 1 (Model.decPair 1 5) None; mkCall 0 (Model.decPair 1 5) None].
      repeat split. }
  assert (Hm : Permutation mrows partials) by apply perm_swap.
  refine (conj eq_refl (conj eq_refl (conj Z0 (conj Hw (conj Hp (conj Hm
            (conj eq_refl (conj eq_refl _)))))))).
  exact (merging_composes_over_levels (m := Model.avgOfPartials)
           (inputCount := Model.Column 0) (inputSum := Model.Column 1)
           eq_refl eq_refl Model.dec_value Z0 model_DecimalAdd_exact
           Hw Hp Hm
           (lP := [mkCall 1 (Model.decPair 1 5) None;
                   mkCall 0 (Model.decPair 1 5) None;
                   mkCall 1 (Model.decPair 2 10) None;
                   mkCall 0 (Model.decPair 2 10) None;
                   mkCall 1 (Model.decPair 3 20) None;
                   mkCall 0 (Model.decPair 3 20) None])
           (lQ := [mkCall 1 (Model.decPair 1 5) None;
                   mkCall 0 (Model.decPair 1 5) None;
                   mkCall 1 (Model.decPair 5 30) None;
                   mkCall 0 (Model.decPair 5 30) None])
           eq_refl eq_refl).
Defined.
